(** * PYFastAPI_ChatApp: the real-time delivery core, embedded in Rocq

    The backend of the chat application is embedded shallowly:

    - [ConnectionManager] (backend/app/websocket/manager.py) as pure
      functions on a record of two insertion-ordered dictionaries, which
      return the new manager together with the transport calls they made;
    - the relational store as a record of tables (lists of rows) behind a
      small unit-of-work layer ([db_add], [flush], [commit]) that follows
      the session configured in backend/app/database.py;
    - the REST handlers of backend/app/api as programs of a state and
      exception monad, statement by statement in the order of the source.

    Identifiers (UUIDs) and instants are natural numbers. *)

From Stdlib Require Import List Arith Bool String DecimalString Lia.
Import ListNotations.
Open Scope string_scope.
Open Scope list_scope.
Open Scope nat_scope.

Set Implicit Arguments.

(** ** Identifiers, instants, sockets *)

Definition UUID := nat.
Definition datetime := nat.
Definition WebSocket := nat.

Definition eq_opt (a : UUID) (b : option UUID) : bool :=
  match b with
  | Some b' => a =? b'
  | None => false
  end.

Definition opt_eqb (a b : option UUID) : bool :=
  match a, b with
  | Some x, Some y => x =? y
  | None, None => true
  | _, _ => false
  end.

(** ** Python dictionaries keyed by UUID

    A [dict] keeps its keys in insertion order; assigning to a key that is
    present replaces the value in place, assigning to a new key appends. *)

Section Dict.
Variable V : Type.

Definition dict := list (UUID * V).

Fixpoint dict_get (k : UUID) (d : dict) : option V :=
  match d with
  | [] => None
  | (k', v) :: d' => if k =? k' then Some v else dict_get k d'
  end.

Definition dict_mem (k : UUID) (d : dict) : bool :=
  match dict_get k d with
  | Some _ => true
  | None => false
  end.

Fixpoint dict_set (k : UUID) (v : V) (d : dict) : dict :=
  match d with
  | [] => [(k, v)]
  | (k', v') :: d' =>
      if k =? k' then (k, v) :: d' else (k', v') :: dict_set k v d'
  end.

Fixpoint dict_del (k : UUID) (d : dict) : dict :=
  match d with
  | [] => []
  | (k', v') :: d' =>
      if k =? k' then d' else (k', v') :: dict_del k d'
  end.

Definition dict_keys (d : dict) : list UUID := map fst d.

(** Number of entries stored under key [k]. *)
Definition entries (k : UUID) (d : dict) : nat :=
  List.length (filter (fun e => fst e =? k) d).
End Dict.

Arguments dict_get {V} k d.
Arguments dict_mem {V} k d.
Arguments dict_set {V} k v d.
Arguments dict_del {V} k d.
Arguments dict_keys {V} d.
Arguments entries {V} k d.

(** Python sets of UUIDs: only membership, [add] and [discard] are used. *)

Definition uuid_set := list UUID.

Definition set_mem (x : UUID) (s : uuid_set) : bool := existsb (Nat.eqb x) s.

Definition set_add (x : UUID) (s : uuid_set) : uuid_set :=
  if set_mem x s then s else s ++ [x].

Definition set_discard (x : UUID) (s : uuid_set) : uuid_set :=
  filter (fun y => negb (y =? x)) s.

(** ** Web-socket messages (backend/app/schemas/websocket.py) *)

Inductive WSMessageType :=
| NEW_MESSAGE | MESSAGE_DELIVERED | MESSAGE_READ | MESSAGE_EDITED
| MESSAGE_DELETED | NEW_CONVERSATION | REACTION_ADDED | REACTION_REMOVED
| TYPING | USER_ONLINE | USER_OFFLINE | CONNECTED | ERROR | PING | PONG.

Inductive ConversationType := direct | group.

Record ConversationParticipantResponse := {
  pr_user_id : UUID;
  pr_username : string;
  pr_display_name : string;
  pr_joined_at : datetime
}.

Record ConversationResponse := {
  cr_id : UUID;
  cr_type : ConversationType;
  cr_title : option string;
  cr_created_by : UUID;
  cr_created_at : datetime;
  cr_updated_at : datetime;
  cr_participants : list ConversationParticipantResponse
}.

(** The payload of a [WSMessage]: one constructor per payload schema. *)
Inductive WSData :=
| WSChatMessage (conversation_id message_id : UUID) (sender_id : option UUID)
    (sender_username sender_display_name content message_type : string)
    (file_url : option string) (created_at : datetime)
| WSMessageEdited (conversation_id message_id sender_id : UUID)
    (content : string) (edited_at : datetime)
| WSMessageDeleted (conversation_id message_id sender_id : UUID)
| WSMessageRead (conversation_id message_id read_by_user_id : UUID)
    (read_by_username : string) (read_at : datetime)
| WSReactionAdded (conversation_id message_id user_id : UUID)
    (username emoji : string) (created_at : datetime)
| WSReactionRemoved (conversation_id message_id user_id : UUID)
    (emoji : string)
| WSUserStatus (user_id : UUID) (username status : string)
    (last_seen_at : option datetime)
| WSConnected (user_id : UUID) (username message : string)
| WSNewConversation (conversation : ConversationResponse).

(** Every caller in the backend builds the message with
    [timestamp=datetime.utcnow()], so the field is always present and the
    fall-back assignment in [send_personal_message] never runs. *)
Record WSMessage := {
  ws_type : WSMessageType;
  ws_data : WSData;
  ws_timestamp : datetime
}.

(** ** Transport calls

    What the server does on the sockets, in the order it does it. *)

Inductive Wire :=
| ws_accept (websocket : WebSocket)
| ws_close (websocket : WebSocket) (code : nat) (reason : string)
| ws_send_json (user_id : UUID) (websocket : WebSocket) (message : WSMessage).

(** ** ConnectionManager (backend/app/websocket/manager.py) *)

Record ConnectionManager := {
  active_connections : dict WebSocket;
  user_conversations : dict uuid_set
}.

(** [ConnectionManager.__init__] *)
Definition ConnectionManager_init : ConnectionManager :=
  {| active_connections := []; user_conversations := [] |}.

Section Manager.
(** The sockets on which [send_json] raises. *)
Variable broken : list WebSocket.

Definition raises (websocket : WebSocket) : bool :=
  existsb (Nat.eqb websocket) broken.

Definition connect (self : ConnectionManager) (websocket : WebSocket)
    (user_id : UUID) : ConnectionManager * list Wire :=
  let close_old :=
    match dict_get user_id (active_connections self) with
    | Some old_ws => [ws_close old_ws 1000 "New connection established"]
    | None => []
    end in
  ({| active_connections :=
        dict_set user_id websocket (active_connections self);
      user_conversations := user_conversations self |},
   ws_accept websocket :: close_old).

Definition disconnect (self : ConnectionManager) (user_id : UUID)
    : ConnectionManager :=
  {| active_connections := dict_del user_id (active_connections self);
     user_conversations := dict_del user_id (user_conversations self) |}.

Definition add_user_to_conversation (self : ConnectionManager)
    (user_id conversation_id : UUID) : ConnectionManager :=
  let current :=
    match dict_get user_id (user_conversations self) with
    | Some s => s
    | None => []
    end in
  {| active_connections := active_connections self;
     user_conversations :=
       dict_set user_id (set_add conversation_id current)
         (user_conversations self) |}.

Definition remove_user_from_conversation (self : ConnectionManager)
    (user_id conversation_id : UUID) : ConnectionManager :=
  match dict_get user_id (user_conversations self) with
  | Some s =>
      {| active_connections := active_connections self;
         user_conversations :=
           dict_set user_id (set_discard conversation_id s)
             (user_conversations self) |}
  | None => self
  end.

Definition send_personal_message (self : ConnectionManager)
    (message : WSMessage) (user_id : UUID)
    : ConnectionManager * list Wire :=
  match dict_get user_id (active_connections self) with
  | Some websocket =>
      if raises websocket
      then (disconnect self user_id, [])
      else (self, [ws_send_json user_id websocket message])
  | None => (self, [])
  end.

(** The loop [for user_id in user_ids: await send_personal_message]. *)
Fixpoint broadcast_to_users (self : ConnectionManager)
    (message : WSMessage) (user_ids : list UUID)
    : ConnectionManager * list Wire :=
  match user_ids with
  | [] => (self, [])
  | user_id :: rest =>
      let (self1, w1) := send_personal_message self message user_id in
      let (self2, w2) := broadcast_to_users self1 message rest in
      (self2, w1 ++ w2)
  end.

Definition target_users (self : ConnectionManager)
    (conversation_id : UUID) (exclude_user_id : option UUID)
    : list UUID :=
  map fst
    (filter
       (fun entry =>
          set_mem conversation_id (snd entry)
          && negb (eq_opt (fst entry) exclude_user_id))
       (user_conversations self)).

Definition broadcast_to_conversation (self : ConnectionManager)
    (message : WSMessage) (conversation_id : UUID)
    (exclude_user_id : option UUID) : ConnectionManager * list Wire :=
  broadcast_to_users self message
    (target_users self conversation_id exclude_user_id).

Definition broadcast_to_all (self : ConnectionManager)
    (message : WSMessage) (exclude_user_id : option UUID)
    : ConnectionManager * list Wire :=
  broadcast_to_users self message
    (filter (fun user_id => negb (eq_opt user_id exclude_user_id))
       (dict_keys (active_connections self))).

Definition is_user_online (self : ConnectionManager) (user_id : UUID)
    : bool :=
  dict_mem user_id (active_connections self).

Definition get_online_users (self : ConnectionManager) : list UUID :=
  dict_keys (active_connections self).

Definition get_connection_count (self : ConnectionManager) : nat :=
  List.length (active_connections self).

Definition send_to_user := send_personal_message.
End Manager.

(** Presence operations, as the web-socket endpoint issues them. *)
Inductive presence_op :=
| op_connect (websocket : WebSocket) (user_id : UUID)
| op_disconnect (user_id : UUID).

Definition presence_step (self : ConnectionManager) (op : presence_op)
    : ConnectionManager :=
  match op with
  | op_connect websocket user_id => fst (connect self websocket user_id)
  | op_disconnect user_id => disconnect self user_id
  end.

Definition presence_run (ops : list presence_op) (self : ConnectionManager)
    : ConnectionManager :=
  fold_left presence_step ops self.

(** ** Tables (backend/app/models) *)

Record User := {
  u_id : UUID;
  u_username : string;
  u_display_name : string;
  u_is_active : bool
}.

Record Conversation := {
  c_id : UUID;
  c_type : ConversationType;
  c_title : option string;
  c_created_by : UUID;
  c_created_at : datetime;
  c_updated_at : datetime
}.

Record ConversationParticipant := {
  cp_conversation_id : UUID;
  cp_user_id : UUID;
  cp_joined_at : datetime;
  cp_last_read_message_id : option UUID
}.

Record Message := {
  m_id : UUID;
  m_conversation_id : UUID;
  m_sender_id : option UUID;
  m_content : string;
  m_file_url : option string;
  m_file_type : option string;
  m_file_name : option string;
  m_created_at : datetime;
  m_edited_at : option datetime;
  m_is_deleted : string;
  m_delivered_at : option datetime;
  m_read_at : option datetime;
  m_read_by_user_id : option UUID
}.

Record MessageReaction := {
  mr_id : UUID;
  mr_message_id : UUID;
  mr_user_id : UUID;
  mr_emoji : string;
  mr_created_at : datetime
}.

(** [status] is a string column restricted by the check constraint
    [check_valid_status] to these four values. *)
Inductive FriendshipStatus := pending | accepted | rejected | blocked.

Record Friendship := {
  f_id : UUID;
  f_user_id : UUID;
  f_friend_id : UUID;
  f_status : FriendshipStatus;
  f_created_at : datetime;
  f_updated_at : datetime
}.

Record Database := {
  users : list User;
  conversations : list Conversation;
  conversation_participants : list ConversationParticipant;
  messages : list Message;
  message_reactions : list MessageReaction;
  friendships : list Friendship
}.

Definition status_eqb (a b : FriendshipStatus) : bool :=
  match a, b with
  | pending, pending | accepted, accepted
  | rejected, rejected | blocked, blocked => true
  | _, _ => false
  end.

Definition type_eqb (a b : ConversationType) : bool :=
  match a, b with
  | direct, direct | group, group => true
  | _, _ => false
  end.

(** ** Exceptions *)

Inductive Exn :=
| HTTPException (status_code : nat) (detail : string)
| IntegrityError (constraint : string)
| MultipleResultsFound
| NoResultFound
| InvalidRequestError
| ValidationError
| AttributeError.

Inductive Result (A : Type) :=
| Ok (a : A)
| Raise (e : Exn).

Arguments Ok {A} a.
Arguments Raise {A} e.

(** ** The unit of work

    The session factory of backend/app/database.py is built with
    [autoflush=False]: what a handler adds, changes or deletes stays in the
    session until the handler calls [flush] or [commit], and queries issued
    in between read the rows flushed so far.  Primary keys with
    [default=uuid.uuid4] and columns with [server_default=func.now()] are
    filled in by the INSERT, that is, at flush time. *)

Inductive Pending :=
| add_Conversation (type : ConversationType) (title : option string)
    (created_by : UUID)
| add_ConversationParticipant (conversation_id user_id : UUID)
| add_Message (conversation_id : UUID) (sender_id : option UUID)
    (content : string) (file_url file_type file_name : option string)
| add_MessageReaction (message_id user_id : UUID) (emoji : string)
| add_Friendship (user_id friend_id : UUID) (status : FriendshipStatus)
| set_Conversation_updated_at (id : UUID) (value : option datetime)
| update_Message (m : Message)
| update_ConversationParticipant (p : ConversationParticipant)
| update_Friendship (f : Friendship)
| delete_ConversationParticipant (conversation_id user_id : UUID)
| delete_Conversation (id : UUID)
| delete_MessageReaction (id : UUID).

(** The rows an INSERT produced, as the refreshed objects show them. *)
Inductive Row :=
| row_Conversation (c : Conversation)
| row_ConversationParticipant (p : ConversationParticipant)
| row_Message (m : Message)
| row_MessageReaction (r : MessageReaction)
| row_Friendship (f : Friendship).

Definition with_conversations (db : Database) (l : list Conversation) :=
  {| users := users db; conversations := l;
     conversation_participants := conversation_participants db;
     messages := messages db; message_reactions := message_reactions db;
     friendships := friendships db |}.

Definition with_participants (db : Database)
    (l : list ConversationParticipant) :=
  {| users := users db; conversations := conversations db;
     conversation_participants := l;
     messages := messages db; message_reactions := message_reactions db;
     friendships := friendships db |}.

Definition with_messages (db : Database) (l : list Message) :=
  {| users := users db; conversations := conversations db;
     conversation_participants := conversation_participants db;
     messages := l; message_reactions := message_reactions db;
     friendships := friendships db |}.

Definition with_reactions (db : Database) (l : list MessageReaction) :=
  {| users := users db; conversations := conversations db;
     conversation_participants := conversation_participants db;
     messages := messages db; message_reactions := l;
     friendships := friendships db |}.

Definition with_friendships (db : Database) (l : list Friendship) :=
  {| users := users db; conversations := conversations db;
     conversation_participants := conversation_participants db;
     messages := messages db; message_reactions := message_reactions db;
     friendships := l |}.

Definition is_participant (conversation_id user_id : UUID)
    (p : ConversationParticipant) : bool :=
  (cp_conversation_id p =? conversation_id) && (cp_user_id p =? user_id).

Definition in_conversation (conversation_id : UUID)
    (p : ConversationParticipant) : bool :=
  cp_conversation_id p =? conversation_id.

Definition message_in (conversation_id : UUID) (m : Message) : bool :=
  m_conversation_id m =? conversation_id.

(** Deleting a conversation: the relationships [participants] and
    [messages] cascade ("all, delete-orphan"), and so does
    [Message.reactions]; [last_read_message_id] is [ondelete="SET NULL"]. *)
Definition cascade_delete_conversation (id : UUID) (db : Database)
    : Database :=
  let gone m := message_in id m in
  let dead := map m_id (filter gone (messages db)) in
  {| users := users db;
     conversations := filter (fun c => negb (c_id c =? id)) (conversations db);
     conversation_participants :=
       map (fun p =>
              match cp_last_read_message_id p with
              | Some mid =>
                  if set_mem mid dead
                  then {| cp_conversation_id := cp_conversation_id p;
                          cp_user_id := cp_user_id p;
                          cp_joined_at := cp_joined_at p;
                          cp_last_read_message_id := None |}
                  else p
              | None => p
              end)
         (filter (fun p => negb (in_conversation id p))
            (conversation_participants db));
     messages := filter (fun m => negb (gone m)) (messages db);
     message_reactions :=
       filter (fun r => negb (set_mem (mr_message_id r) dead))
         (message_reactions db);
     friendships := friendships db |}.

(** One statement of a flush.  [now] is the server's [now()], [next] the
    next value of [uuid.uuid4]. *)
Definition flush_one (now : datetime) (p : Pending) (db : Database)
    (next : UUID) : Result (Database * UUID * list Row) :=
  match p with
  | add_Conversation type title created_by =>
      let c := {| c_id := next; c_type := type; c_title := title;
                  c_created_by := created_by;
                  c_created_at := now; c_updated_at := now |} in
      Ok (with_conversations db (conversations db ++ [c]), S next,
          [row_Conversation c])
  | add_ConversationParticipant conversation_id user_id =>
      match filter (is_participant conversation_id user_id)
              (conversation_participants db) with
      | [] =>
          let r := {| cp_conversation_id := conversation_id;
                      cp_user_id := user_id;
                      cp_joined_at := now;
                      cp_last_read_message_id := None |} in
          Ok (with_participants db (conversation_participants db ++ [r]),
              next, [row_ConversationParticipant r])
      | _ :: _ => Raise (IntegrityError "conversation_participants_pkey")
      end
  | add_Message conversation_id sender_id content file_url file_type
      file_name =>
      let m := {| m_id := next; m_conversation_id := conversation_id;
                  m_sender_id := sender_id; m_content := content;
                  m_file_url := file_url; m_file_type := file_type;
                  m_file_name := file_name; m_created_at := now;
                  m_edited_at := None; m_is_deleted := "false";
                  m_delivered_at := None; m_read_at := None;
                  m_read_by_user_id := None |} in
      Ok (with_messages db (messages db ++ [m]), S next, [row_Message m])
  | add_MessageReaction message_id user_id emoji =>
      let r := {| mr_id := next; mr_message_id := message_id;
                  mr_user_id := user_id; mr_emoji := emoji;
                  mr_created_at := now |} in
      Ok (with_reactions db (message_reactions db ++ [r]), S next,
          [row_MessageReaction r])
  | add_Friendship user_id friend_id status =>
      if user_id =? friend_id then Raise (IntegrityError "check_not_self")
      else
        match filter (fun f => (f_user_id f =? user_id)
                               && (f_friend_id f =? friend_id))
                (friendships db) with
        | [] =>
            let f := {| f_id := next; f_user_id := user_id;
                        f_friend_id := friend_id; f_status := status;
                        f_created_at := now; f_updated_at := now |} in
            Ok (with_friendships db (friendships db ++ [f]), S next,
                [row_Friendship f])
        | _ :: _ => Raise (IntegrityError "unique_friendship")
        end
  | set_Conversation_updated_at id value =>
      match value with
      | Some t =>
          Ok (with_conversations db
                (map (fun c =>
                        if c_id c =? id
                        then {| c_id := c_id c; c_type := c_type c;
                                c_title := c_title c;
                                c_created_by := c_created_by c;
                                c_created_at := c_created_at c;
                                c_updated_at := t |}
                        else c)
                   (conversations db)),
              next, [])
      | None =>
          (* updated_at is declared nullable=False *)
          Raise (IntegrityError "conversations.updated_at is not null")
      end
  | update_Message m =>
      Ok (with_messages db
            (map (fun m0 => if m_id m0 =? m_id m then m else m0)
               (messages db)),
          next, [])
  | update_ConversationParticipant p =>
      Ok (with_participants db
            (map (fun p0 =>
                    if is_participant (cp_conversation_id p) (cp_user_id p) p0
                    then p else p0)
               (conversation_participants db)),
          next, [])
  | update_Friendship f =>
      let f' := {| f_id := f_id f; f_user_id := f_user_id f;
                   f_friend_id := f_friend_id f; f_status := f_status f;
                   f_created_at := f_created_at f;
                   f_updated_at := now |} in
      if f_user_id f =? f_friend_id f
      then Raise (IntegrityError "check_not_self")
      else
        match filter (fun f0 => negb (f_id f0 =? f_id f)
                                && (f_user_id f0 =? f_user_id f)
                                && (f_friend_id f0 =? f_friend_id f))
                (friendships db) with
        | [] =>
            Ok (with_friendships db
                  (map (fun f0 => if f_id f0 =? f_id f then f' else f0)
                     (friendships db)),
                next, [])
        | _ :: _ => Raise (IntegrityError "unique_friendship")
        end
  | delete_ConversationParticipant conversation_id user_id =>
      Ok (with_participants db
            (filter (fun p => negb (is_participant conversation_id user_id p))
               (conversation_participants db)),
          next, [])
  | delete_Conversation id =>
      Ok (cascade_delete_conversation id db, next, [])
  | delete_MessageReaction id =>
      Ok (with_reactions db
            (filter (fun r => negb (mr_id r =? id)) (message_reactions db)),
          next, [])
  end.

Fixpoint flush_all (now : datetime) (ps : list Pending) (db : Database)
    (next : UUID) : Result (Database * UUID * list Row) :=
  match ps with
  | [] => Ok (db, next, [])
  | p :: ps' =>
      match flush_one now p db next with
      | Ok (db1, next1, rows1) =>
          match flush_all now ps' db1 next1 with
          | Ok (db2, next2, rows2) => Ok (db2, next2, rows1 ++ rows2)
          | Raise e => Raise e
          end
      | Raise e => Raise e
      end
  end.

(** ** The server process

    backend/app/websocket/__init__.py ends with
    [manager = ConnectionManager()], and so does
    backend/app/websocket/manager.py: the process holds two managers.
    [from ...websocket import manager] (endpoints/websocket.py,
    endpoints/messages.py, endpoints/reactions.py) names the first, the
    attribute of the package; [from ...websocket.manager import manager]
    (endpoints/conversations.py) names the second, the attribute of the
    module. *)

Inductive ManagerRef := package_manager | module_manager.

Record Server := {
  database : Database;
  pkg_manager : ConnectionManager;
  mod_manager : ConnectionManager;
  wire : list Wire;
  broken_sockets : list WebSocket;
  clock : datetime;
  next_uuid : UUID
}.

(** A request in progress: the server, the rows its session sees (the
    committed ones and those flushed so far), and what is still held in
    the session. *)
Record State := {
  server : Server;
  view : Database;
  unflushed : list Pending
}.

Definition manager (r : ManagerRef) (s : Server) : ConnectionManager :=
  match r with
  | package_manager => pkg_manager s
  | module_manager => mod_manager s
  end.

Definition with_manager (r : ManagerRef) (m : ConnectionManager)
    (w : list Wire) (s : Server) : Server :=
  {| database := database s;
     pkg_manager := match r with package_manager => m | _ => pkg_manager s end;
     mod_manager := match r with module_manager => m | _ => mod_manager s end;
     wire := wire s ++ w;
     broken_sockets := broken_sockets s;
     clock := clock s;
     next_uuid := next_uuid s |}.

Definition with_database (db : Database) (s : Server) : Server :=
  {| database := db; pkg_manager := pkg_manager s;
     mod_manager := mod_manager s; wire := wire s;
     broken_sockets := broken_sockets s; clock := clock s;
     next_uuid := next_uuid s |}.

Definition with_clock (t : datetime) (s : Server) : Server :=
  {| database := database s; pkg_manager := pkg_manager s;
     mod_manager := mod_manager s; wire := wire s;
     broken_sockets := broken_sockets s; clock := t;
     next_uuid := next_uuid s |}.

Definition with_next_uuid (n : UUID) (s : Server) : Server :=
  {| database := database s; pkg_manager := pkg_manager s;
     mod_manager := mod_manager s; wire := wire s;
     broken_sockets := broken_sockets s; clock := clock s;
     next_uuid := n |}.

(** ** The monad of handlers: state, and exceptions that keep the state *)

Definition M (A : Type) := State -> Result A * State.

Definition ret {A} (a : A) : M A := fun st => (Ok a, st).

Definition bind {A B} (c : M A) (k : A -> M B) : M B :=
  fun st =>
    match c st with
    | (Ok a, st') => k a st'
    | (Raise e, st') => (Raise e, st')
    end.

Definition raise {A} (e : Exn) : M A := fun st => (Raise e, st).

Notation "x <- c1 ;; c2" := (bind c1 (fun x => c2))
  (at level 61, c1 at next level, right associativity).
Notation "c1 ;; c2" := (bind c1 (fun _ => c2))
  (at level 61, right associativity).

(** [for x in xs: body] *)
Fixpoint for_each {A} (xs : list A) (body : A -> M unit) : M unit :=
  match xs with
  | [] => ret tt
  | x :: rest => body x ;; for_each rest body
  end.

(** [datetime.utcnow()]: time passes between two readings. *)
Definition utcnow : M datetime :=
  fun st =>
    let s := server st in
    (Ok (clock s),
     {| server := with_clock (S (clock s)) s;
        view := view st; unflushed := unflushed st |}).

(** [await db.execute(select(T).where(...))], then [.all()]. *)
Definition select {A} (table : Database -> list A) (where_ : A -> bool)
    : M (list A) :=
  fun st => (Ok (filter where_ (table (view st))), st).

Definition scalar_one_or_none {A} (rows : list A) : M (option A) :=
  match rows with
  | [] => ret None
  | [x] => ret (Some x)
  | _ => raise MultipleResultsFound
  end.

Definition scalar_one {A} (rows : list A) : M A :=
  match rows with
  | [] => raise NoResultFound
  | [x] => ret x
  | _ => raise MultipleResultsFound
  end.

(** [db.add(obj)], [await db.delete(obj)], and the assignment of an
    attribute of a loaded object: all three only mark the session. *)
Definition db_add (p : Pending) : M unit :=
  fun st =>
    (Ok tt, {| server := server st; view := view st;
               unflushed := unflushed st ++ [p] |}).

Definition db_delete := db_add.
Definition db_set := db_add.

(** [await db.flush()]: the statements go to the database; the objects
    added to the session now carry their key and their server defaults. *)
Definition flush : M (list Row) :=
  fun st =>
    let s := server st in
    match flush_all (clock s) (unflushed st) (view st) (next_uuid s) with
    | Ok (db, next, rows) =>
        (Ok rows, {| server := with_next_uuid next s;
                     view := db; unflushed := [] |})
    | Raise e => (Raise e, st)
    end.

(** [await db.commit()] *)
Definition commit : M (list Row) :=
  rows <- flush ;;
  fun st =>
    (Ok rows, {| server := with_database (view st) (server st);
                 view := view st; unflushed := unflushed st |}).

(** The ORM object of a message that went through an INSERT, with its
    generated attributes loaded; [InvalidRequestError] is what
    [db.refresh] raises on an object that is not persistent. *)
Fixpoint flushed_Message (rows : list Row) : option Message :=
  match rows with
  | [] => None
  | row_Message m :: rest =>
      match flushed_Message rest with
      | Some m' => Some m'
      | None => Some m
      end
  | _ :: rest => flushed_Message rest
  end.

Definition the_Message (rows : list Row) : M Message :=
  match flushed_Message rows with
  | Some m => ret m
  | None => raise InvalidRequestError
  end.

Fixpoint flushed_Conversation (rows : list Row) : option Conversation :=
  match rows with
  | [] => None
  | row_Conversation c :: _ => Some c
  | _ :: rest => flushed_Conversation rest
  end.

Definition the_Conversation (rows : list Row) : M Conversation :=
  match flushed_Conversation rows with
  | Some c => ret c
  | None => raise InvalidRequestError
  end.

Fixpoint flushed_MessageReaction (rows : list Row) : option MessageReaction :=
  match rows with
  | [] => None
  | row_MessageReaction r :: _ => Some r
  | _ :: rest => flushed_MessageReaction rest
  end.

Definition the_MessageReaction (rows : list Row) : M MessageReaction :=
  match flushed_MessageReaction rows with
  | Some r => ret r
  | None => raise InvalidRequestError
  end.

Fixpoint flushed_Friendship (rows : list Row) : option Friendship :=
  match rows with
  | [] => None
  | row_Friendship f :: _ => Some f
  | _ :: rest => flushed_Friendship rest
  end.

Definition the_Friendship (rows : list Row) : M Friendship :=
  match flushed_Friendship rows with
  | Some f => ret f
  | None => raise InvalidRequestError
  end.

(** [created_at] of a [Message] object that was constructed (and perhaps
    added) but not flushed: the constructor sets the keyword arguments it
    is given, [created_at] is not among them, and the server default
    arrives with the INSERT. *)
Definition unflushed_created_at (p : Pending) : option datetime := None.

(** A method of one of the two managers. *)
Definition call (r : ManagerRef)
    (method : list WebSocket -> ConnectionManager ->
              ConnectionManager * list Wire) : M unit :=
  fun st =>
    let s := server st in
    let result := method (broken_sockets s) (manager r s) in
    (Ok tt, {| server := with_manager r (fst result) (snd result) s;
               view := view st; unflushed := unflushed st |}).

(** The dependency [get_db] of backend/app/database.py around a handler:
    a fresh session; after the handler a last [commit]; on an exception a
    rollback, which drops what the session had not committed. *)
Definition endpoint {A} (handler : M A) (s : Server) : Result A * Server :=
  match handler {| server := s; view := database s; unflushed := [] |} with
  | (Ok a, st) =>
      match commit st with
      | (Ok _, st') => (Ok a, server st')
      | (Raise e, st') => (Raise e, server st')
      end
  | (Raise e, st) => (Raise e, server st)
  end.

(** A required field of a pydantic model that is handed [None]. *)
Definition required {A} (o : option A) : M A :=
  match o with
  | Some a => ret a
  | None => raise ValidationError
  end.

(** [await db.refresh(obj)] on a row that is already in the database. *)
Definition refresh {A} (table : Database -> list A) (same : A -> bool)
    : M A :=
  rows <- select table same ;;
  match rows with
  | [x] => ret x
  | _ => raise InvalidRequestError
  end.

(** A many-to-one relationship ([message.sender], [reaction.user],
    [participant.user]): the related row or [None]. *)
Definition related_user (id : option UUID) : M (option User) :=
  rows <- select users (fun u => eq_opt (u_id u) id) ;;
  ret (hd_error rows).

(** ** Message endpoints (backend/app/api/endpoints/messages.py) *)

Record MessageCreate := {
  mc_conversation_id : UUID;
  mc_content : string;
  mc_file_url : option string;
  mc_file_type : option string;
  mc_file_name : option string
}.

Record MessageResponse := {
  resp_message : Message;
  resp_sender_username : string;
  resp_sender_display_name : string
}.

Record MessageReadResponse := {
  rr_message_id : UUID;
  rr_read_at : datetime;
  rr_read_by_user_id : UUID
}.

Definition or_text (o : option string) : string :=
  match o with
  | Some s => s
  | None => "text"
  end.

Definition send_message (message_data : MessageCreate) (current_user : User)
    : M MessageResponse :=
  let conversation_id := mc_conversation_id message_data in
  rows <- select conversation_participants
            (is_participant conversation_id (u_id current_user)) ;;
  membership <- scalar_one_or_none rows ;;
  match membership with
  | None =>
      raise (HTTPException 403
               "You are not a participant in this conversation")
  | Some _ =>
      let new_message :=
        add_Message conversation_id (Some (u_id current_user))
          (mc_content message_data) (mc_file_url message_data)
          (mc_file_type message_data) (mc_file_name message_data) in
      db_add new_message ;;
      rows <- select conversations (fun c => c_id c =? conversation_id) ;;
      conversation <- scalar_one rows ;;
      (* conversation.updated_at = new_message.created_at *)
      db_set (set_Conversation_updated_at (c_id conversation)
                (unflushed_created_at new_message)) ;;
      rows <- commit ;;
      new_message <- the_Message rows ;;
      now <- utcnow ;;
      let ws_message :=
        {| ws_type := NEW_MESSAGE;
           ws_data :=
             WSChatMessage (m_conversation_id new_message)
               (m_id new_message) (m_sender_id new_message)
               (u_username current_user) (u_display_name current_user)
               (m_content new_message)
               (or_text (m_file_type new_message))
               (m_file_url new_message) (m_created_at new_message);
           ws_timestamp := now |} in
      call package_manager
        (fun broken self =>
           broadcast_to_conversation broken self ws_message
             conversation_id None) ;;
      ret {| resp_message := new_message;
             resp_sender_username := u_username current_user;
             resp_sender_display_name := u_display_name current_user |}
  end.

Definition sender_username (sender : option User) : string :=
  match sender with
  | Some u => u_username u
  | None => "Unknown"
  end.

Definition sender_display_name (sender : option User) : string :=
  match sender with
  | Some u => u_display_name u
  | None => "Unknown User"
  end.

Definition Message_edit (m : Message) (content : string) (now : datetime)
    : Message :=
  {| m_id := m_id m; m_conversation_id := m_conversation_id m;
     m_sender_id := m_sender_id m; m_content := content;
     m_file_url := m_file_url m; m_file_type := m_file_type m;
     m_file_name := m_file_name m; m_created_at := m_created_at m;
     m_edited_at := Some now; m_is_deleted := m_is_deleted m;
     m_delivered_at := m_delivered_at m; m_read_at := m_read_at m;
     m_read_by_user_id := m_read_by_user_id m |}.

Definition Message_read (m : Message) (now : datetime) (reader : UUID)
    : Message :=
  {| m_id := m_id m; m_conversation_id := m_conversation_id m;
     m_sender_id := m_sender_id m; m_content := m_content m;
     m_file_url := m_file_url m; m_file_type := m_file_type m;
     m_file_name := m_file_name m; m_created_at := m_created_at m;
     m_edited_at := m_edited_at m; m_is_deleted := m_is_deleted m;
     m_delivered_at := m_delivered_at m; m_read_at := Some now;
     m_read_by_user_id := Some reader |}.

Definition Message_soft_delete (m : Message) : Message :=
  {| m_id := m_id m; m_conversation_id := m_conversation_id m;
     m_sender_id := m_sender_id m;
     m_content := "This message was deleted";
     m_file_url := None; m_file_type := None; m_file_name := None;
     m_created_at := m_created_at m; m_edited_at := m_edited_at m;
     m_is_deleted := "true";
     m_delivered_at := m_delivered_at m; m_read_at := m_read_at m;
     m_read_by_user_id := m_read_by_user_id m |}.

Definition Participant_read (p : ConversationParticipant) (message_id : UUID)
    : ConversationParticipant :=
  {| cp_conversation_id := cp_conversation_id p;
     cp_user_id := cp_user_id p; cp_joined_at := cp_joined_at p;
     cp_last_read_message_id := Some message_id |}.

Definition edit_message (message_id : UUID) (content : string)
    (current_user : User) : M MessageResponse :=
  rows <- select messages (fun m => m_id m =? message_id) ;;
  message <- scalar_one_or_none rows ;;
  match message with
  | None => raise (HTTPException 404 "Message not found")
  | Some message =>
      sender <- related_user (m_sender_id message) ;;
      if negb (opt_eqb (m_sender_id message) (Some (u_id current_user)))
      then raise (HTTPException 403 "You can only edit your own messages")
      else if String.eqb (m_is_deleted message) "true"
      then raise (HTTPException 400 "Cannot edit deleted messages")
      else
        now <- utcnow ;;
        db_set (update_Message (Message_edit message content now)) ;;
        _ <- commit ;;
        message <- refresh messages (fun m => m_id m =? message_id) ;;
        sender_id <- required (m_sender_id message) ;;
        edited_at <- required (m_edited_at message) ;;
        now <- utcnow ;;
        let ws_message :=
          {| ws_type := MESSAGE_EDITED;
             ws_data :=
               WSMessageEdited (m_conversation_id message) (m_id message)
                 sender_id (m_content message) edited_at;
             ws_timestamp := now |} in
        call package_manager
          (fun broken self =>
             broadcast_to_conversation broken self ws_message
               (m_conversation_id message) None) ;;
        ret {| resp_message := message;
               resp_sender_username := sender_username sender;
               resp_sender_display_name := sender_display_name sender |}
  end.

Definition mark_message_as_read (message_id : UUID) (current_user : User)
    : M MessageReadResponse :=
  rows <- select messages (fun m => m_id m =? message_id) ;;
  message <- scalar_one_or_none rows ;;
  match message with
  | None => raise (HTTPException 404 "Message not found")
  | Some message =>
      rows <- select conversation_participants
                (is_participant (m_conversation_id message)
                   (u_id current_user)) ;;
      participant <- scalar_one_or_none rows ;;
      match participant with
      | None =>
          raise (HTTPException 403
                   "You are not a participant in this conversation")
      | Some participant =>
          if opt_eqb (m_sender_id message) (Some (u_id current_user))
          then raise (HTTPException 400
                        "Cannot mark your own message as read")
          else
            read_timestamp <- utcnow ;;
            db_set (update_Message
                      (Message_read message read_timestamp
                         (u_id current_user))) ;;
            db_set (update_ConversationParticipant
                      (Participant_read participant message_id)) ;;
            _ <- commit ;;
            message <- refresh messages (fun m => m_id m =? message_id) ;;
            now <- utcnow ;;
            let read_event :=
              {| ws_type := MESSAGE_READ;
                 ws_data :=
                   WSMessageRead (m_conversation_id message) (m_id message)
                     (u_id current_user) (u_username current_user)
                     read_timestamp;
                 ws_timestamp := now |} in
            call package_manager
              (fun broken self =>
                 broadcast_to_conversation broken self read_event
                   (m_conversation_id message)
                   (Some (u_id current_user))) ;;
            ret {| rr_message_id := m_id message;
                   rr_read_at := read_timestamp;
                   rr_read_by_user_id := u_id current_user |}
      end
  end.

Definition delete_message (message_id : UUID) (current_user : User)
    : M string :=
  rows <- select messages (fun m => m_id m =? message_id) ;;
  message <- scalar_one_or_none rows ;;
  match message with
  | None => raise (HTTPException 404 "Message not found")
  | Some message =>
      if negb (opt_eqb (m_sender_id message) (Some (u_id current_user)))
      then raise (HTTPException 403 "You can only delete your own messages")
      else if String.eqb (m_is_deleted message) "true"
      then raise (HTTPException 400 "Message already deleted")
      else
        db_set (update_Message (Message_soft_delete message)) ;;
        _ <- commit ;;
        message <- refresh messages (fun m => m_id m =? message_id) ;;
        sender_id <- required (m_sender_id message) ;;
        now <- utcnow ;;
        let ws_message :=
          {| ws_type := MESSAGE_DELETED;
             ws_data :=
               WSMessageDeleted (m_conversation_id message) (m_id message)
                 sender_id;
             ws_timestamp := now |} in
        call package_manager
          (fun broken self =>
             broadcast_to_conversation broken self ws_message
               (m_conversation_id message) None) ;;
        ret "Message deleted successfully"
  end.

(** ** Reaction endpoints (backend/app/api/endpoints/reactions.py) *)

Record ReactionResponse := {
  rresp_reaction : MessageReaction;
  rresp_user_username : string;
  rresp_user_display_name : string
}.

Definition same_reaction (message_id user_id : UUID) (emoji : string)
    (r : MessageReaction) : bool :=
  (mr_message_id r =? message_id) && (mr_user_id r =? user_id)
  && String.eqb (mr_emoji r) emoji.

Definition add_reaction (message_id : UUID) (emoji : string)
    (current_user : User) : M ReactionResponse :=
  rows <- select messages (fun m => m_id m =? message_id) ;;
  message <- scalar_one_or_none rows ;;
  match message with
  | None => raise (HTTPException 404 "Message not found")
  | Some message =>
      rows <- select conversation_participants
                (is_participant (m_conversation_id message)
                   (u_id current_user)) ;;
      membership <- scalar_one_or_none rows ;;
      match membership with
      | None =>
          raise (HTTPException 403
                   "You are not a participant in this conversation")
      | Some _ =>
          rows <- select message_reactions
                    (same_reaction message_id (u_id current_user) emoji) ;;
          existing_reaction <- scalar_one_or_none rows ;;
          match existing_reaction with
          | Some existing_reaction =>
              ret {| rresp_reaction := existing_reaction;
                     rresp_user_username := u_username current_user;
                     rresp_user_display_name :=
                       u_display_name current_user |}
          | None =>
              db_add (add_MessageReaction message_id (u_id current_user)
                        emoji) ;;
              rows <- commit ;;
              new_reaction <- the_MessageReaction rows ;;
              now <- utcnow ;;
              let ws_message :=
                {| ws_type := REACTION_ADDED;
                   ws_data :=
                     WSReactionAdded (m_conversation_id message) message_id
                       (u_id current_user) (u_username current_user) emoji
                       (mr_created_at new_reaction);
                   ws_timestamp := now |} in
              call package_manager
                (fun broken self =>
                   broadcast_to_conversation broken self ws_message
                     (m_conversation_id message) None) ;;
              ret {| rresp_reaction := new_reaction;
                     rresp_user_username := u_username current_user;
                     rresp_user_display_name :=
                       u_display_name current_user |}
          end
      end
  end.

Definition remove_reaction (message_id : UUID) (emoji : string)
    (current_user : User) : M string :=
  rows <- select messages (fun m => m_id m =? message_id) ;;
  message <- scalar_one_or_none rows ;;
  match message with
  | None => raise (HTTPException 404 "Message not found")
  | Some message =>
      rows <- select message_reactions
                (same_reaction message_id (u_id current_user) emoji) ;;
      reaction <- scalar_one_or_none rows ;;
      match reaction with
      | None => raise (HTTPException 404 "Reaction not found")
      | Some reaction =>
          db_delete (delete_MessageReaction (mr_id reaction)) ;;
          _ <- commit ;;
          now <- utcnow ;;
          let ws_message :=
            {| ws_type := REACTION_REMOVED;
               ws_data :=
                 WSReactionRemoved (m_conversation_id message) message_id
                   (u_id current_user) emoji;
               ws_timestamp := now |} in
          call package_manager
            (fun broken self =>
               broadcast_to_conversation broken self ws_message
                 (m_conversation_id message) None) ;;
          ret "Reaction removed successfully"
      end
  end.

(** ** Friend requests (backend/app/api/friendships.py) *)

Definition between (a b : UUID) (f : Friendship) : bool :=
  ((f_user_id f =? a) && (f_friend_id f =? b))
  || ((f_user_id f =? b) && (f_friend_id f =? a)).

Definition Friendship_request_again (f : Friendship)
    (user_id friend_id : UUID) : Friendship :=
  {| f_id := f_id f; f_user_id := user_id; f_friend_id := friend_id;
     f_status := pending; f_created_at := f_created_at f;
     f_updated_at := f_updated_at f |}.

Definition send_friend_request (friend_id : UUID) (current_user : User)
    : M Friendship :=
  if friend_id =? u_id current_user
  then raise (HTTPException 400 "Cannot send friend request to yourself")
  else
    rows <- select users (fun u => u_id u =? friend_id) ;;
    target_user <- scalar_one_or_none rows ;;
    match target_user with
    | None => raise (HTTPException 404 "User not found")
    | Some _ =>
        rows <- select friendships (between (u_id current_user) friend_id) ;;
        existing_friendship <- scalar_one_or_none rows ;;
        match existing_friendship with
        | Some existing_friendship =>
            match f_status existing_friendship with
            | pending =>
                raise (HTTPException 400
                         "Friend request already sent or received")
            | accepted =>
                raise (HTTPException 400 "Already friends with this user")
            | blocked =>
                raise (HTTPException 403
                         "Cannot send friend request to this user")
            | rejected =>
                db_set (update_Friendship
                          (Friendship_request_again existing_friendship
                             (u_id current_user) friend_id)) ;;
                _ <- commit ;;
                refresh friendships
                  (fun f => f_id f =? f_id existing_friendship)
            end
        | None =>
            db_add (add_Friendship (u_id current_user) friend_id pending) ;;
            rows <- commit ;;
            the_Friendship rows
        end
    end.

(** ** Conversation endpoints (backend/app/api/endpoints/conversations.py) *)

Infix "+++" := String.append (at level 60, right associativity).

(** [str(n)] *)
Definition str (n : nat) : string :=
  NilEmpty.string_of_uint (Nat.to_uint n).

Fixpoint map_M {A B} (f : A -> M B) (xs : list A) : M (list B) :=
  match xs with
  | [] => ret []
  | x :: rest =>
      y <- f x ;;
      ys <- map_M f rest ;;
      ret (y :: ys)
  end.

(** A query whose condition reads a second table (a join). *)
Definition select_join {A} (table : Database -> list A)
    (where_ : Database -> A -> bool) : M (list A) :=
  fun st => (Ok (filter (where_ (view st)) (table (view st))), st).

Record ConversationCreate := {
  cc_type : ConversationType;
  cc_title : option string;
  cc_participant_ids : list UUID
}.

Definition _build_conversation_response (conversation : Conversation)
    : M ConversationResponse :=
  participants <- select conversation_participants
                    (in_conversation (c_id conversation)) ;;
  participants_response <-
    map_M (fun p =>
             user <- related_user (Some (cp_user_id p)) ;;
             match user with
             | Some user =>
                 ret {| pr_user_id := u_id user;
                        pr_username := u_username user;
                        pr_display_name := u_display_name user;
                        pr_joined_at := cp_joined_at p |}
             | None => raise AttributeError
             end)
      participants ;;
  ret {| cr_id := c_id conversation;
         cr_type := c_type conversation;
         cr_title := c_title conversation;
         cr_created_by := c_created_by conversation;
         cr_created_at := c_created_at conversation;
         cr_updated_at := c_updated_at conversation;
         cr_participants := participants_response |}.

Definition falsy (title : option string) : bool :=
  match title with
  | None => true
  | Some s => String.eqb s ""
  end.

(** The direct conversations in which both users (and, of the two, only
    they) take part: join, [group_by], [having count == 2]. *)
Definition direct_between (a b : UUID) (db : Database) (c : Conversation)
    : bool :=
  type_eqb (c_type c) direct
  && (List.length
        (filter (fun p => in_conversation (c_id c) p
                          && set_mem (cp_user_id p) [a; b])
           (conversation_participants db)) =? 2).

Definition accepted_between (a b : UUID) (f : Friendship) : bool :=
  between a b f && status_eqb (f_status f) accepted.

Definition system_event (m : Message) (now : datetime) : WSMessage :=
  {| ws_type := NEW_MESSAGE;
     ws_data :=
       WSChatMessage (m_conversation_id m) (m_id m) None
         "System" "System" (m_content m) "system" None (m_created_at m);
     ws_timestamp := now |}.

Definition new_conversation_event (r : ConversationResponse)
    (now : datetime) : WSMessage :=
  {| ws_type := NEW_CONVERSATION;
     ws_data := WSNewConversation r;
     ws_timestamp := now |}.

(** [participant_ids] is declared with [min_length=1]; the request is
    validated against the schema before the handler runs. *)
Definition create_conversation (conversation_data : ConversationCreate)
    (current_user : User) : M ConversationResponse :=
  let participant_ids := cc_participant_ids conversation_data in
  match cc_type conversation_data with
  | direct =>
      match participant_ids with
      | [other_user_id] =>
          rows <- select_join conversations
                    (direct_between (u_id current_user) other_user_id) ;;
          existing_conv <- scalar_one_or_none rows ;;
          match existing_conv with
          | Some _ =>
              raise (HTTPException 400
                       "Direct conversation already exists with this user")
          | None => ret tt
          end
      | _ =>
          raise (HTTPException 400
                   "Direct conversation must have exactly 1 other participant")
      end
  | group =>
      if falsy (cc_title conversation_data)
      then raise (HTTPException 400 "Group conversation must have a title")
      else ret tt
  end ;;
  participants <- select users
                    (fun u => set_mem (u_id u) participant_ids) ;;
  if negb (List.length participants =? List.length participant_ids)
  then raise (HTTPException 404 "One or more participants not found")
  else
    db_add (add_Conversation (cc_type conversation_data)
              (cc_title conversation_data) (u_id current_user)) ;;
    rows <- flush ;;
    new_conversation <- the_Conversation rows ;;
    db_add (add_ConversationParticipant (c_id new_conversation)
              (u_id current_user)) ;;
    for_each participant_ids
      (fun participant_id =>
         db_add (add_ConversationParticipant (c_id new_conversation)
                   participant_id)) ;;
    _ <- commit ;;
    rows <- select conversations
              (fun c => c_id c =? c_id new_conversation) ;;
    conversation <- scalar_one rows ;;
    conversation_response <- _build_conversation_response conversation ;;
    participants <- select conversation_participants
                      (in_conversation (c_id conversation)) ;;
    for_each participants
      (fun participant =>
         call module_manager
           (fun _ self =>
              (add_user_to_conversation self (cp_user_id participant)
                 (c_id conversation), []))) ;;
    for_each participants
      (fun participant =>
         now <- utcnow ;;
         call module_manager
           (fun broken self =>
              send_to_user broken self
                (new_conversation_event conversation_response now)
                (cp_user_id participant))) ;;
    ret conversation_response.

Definition get_conversation (conversation_id : UUID) (current_user : User)
    : M ConversationResponse :=
  rows <- select_join conversations
            (fun db c =>
               (c_id c =? conversation_id)
               && existsb (is_participant (c_id c) (u_id current_user))
                    (conversation_participants db)) ;;
  conversation <- scalar_one_or_none rows ;;
  match conversation with
  | None =>
      raise (HTTPException 404
               "Conversation not found or you are not a participant")
  | Some conversation => _build_conversation_response conversation
  end.

Definition add_participant (conversation_id user_id : UUID)
    (current_user : User) : M string :=
  rows <- select conversations (fun c => c_id c =? conversation_id) ;;
  conversation <- scalar_one_or_none rows ;;
  match conversation with
  | None => raise (HTTPException 404 "Conversation not found")
  | Some conversation =>
      if negb (type_eqb (c_type conversation) group)
      then raise (HTTPException 400
                    "Can only add participants to group conversations")
      else if negb (c_created_by conversation =? u_id current_user)
      then raise (HTTPException 403
                    "Only conversation creator can add participants")
      else
        members <- select conversation_participants
                     (in_conversation conversation_id) ;;
        let current_count := List.length members in
        if 100 <=? current_count
        then raise (HTTPException 400
                      "Group has reached maximum 100 members")
        else
          rows <- select users (fun u => u_id u =? user_id) ;;
          added_user <- scalar_one_or_none rows ;;
          match added_user with
          | None => raise (HTTPException 404 "User not found")
          | Some added_user =>
              rows <- select friendships
                        (accepted_between (u_id current_user) user_id) ;;
              friendship <- scalar_one_or_none rows ;;
              match friendship with
              | None =>
                  raise (HTTPException 400
                           "You can only add friends to the group")
              | Some _ =>
                  rows <- select conversation_participants
                            (is_participant conversation_id user_id) ;;
                  already <- scalar_one_or_none rows ;;
                  match already with
                  | Some _ =>
                      raise (HTTPException 400
                               "User is already a participant")
                  | None =>
                      db_add (add_ConversationParticipant conversation_id
                                user_id) ;;
                      _ <- flush ;;
                      db_add (add_Message conversation_id None
                                (u_display_name current_user +++ " đã thêm "
                                 +++ u_display_name added_user
                                 +++ " vào nhóm")
                                None (Some "system") None) ;;
                      rows <- flush ;;
                      system_message <- the_Message rows ;;
                      db_set (set_Conversation_updated_at
                                (c_id conversation)
                                (Some (m_created_at system_message))) ;;
                      now <- utcnow ;;
                      call module_manager
                        (fun broken self =>
                           broadcast_to_conversation broken self
                             (system_event system_message now)
                             conversation_id None) ;;
                      rows <- select conversations
                                (fun c => c_id c =? conversation_id) ;;
                      conv <- scalar_one rows ;;
                      conversation_response <-
                        _build_conversation_response conv ;;
                      now <- utcnow ;;
                      call module_manager
                        (fun broken self =>
                           send_personal_message broken self
                             (new_conversation_event conversation_response
                                now)
                             user_id) ;;
                      call module_manager
                        (fun _ self =>
                           (add_user_to_conversation self user_id
                              conversation_id, [])) ;;
                      _ <- commit ;;
                      ret "Participant added successfully"
                  end
              end
          end
  end.

Definition remove_participant (conversation_id user_id : UUID)
    (current_user : User) : M unit :=
  rows <- select conversations (fun c => c_id c =? conversation_id) ;;
  conversation <- scalar_one_or_none rows ;;
  match conversation with
  | None => raise (HTTPException 404 "Conversation not found")
  | Some conversation =>
      if negb (type_eqb (c_type conversation) group)
      then raise (HTTPException 400
                    "Cannot remove participants from direct conversations")
      else if negb (user_id =? u_id current_user)
              && negb (c_created_by conversation =? u_id current_user)
      then raise (HTTPException 403
                    "You can only remove yourself or be the creator to remove others")
      else
        rows <- select conversation_participants
                  (is_participant conversation_id user_id) ;;
        participant <- scalar_one_or_none rows ;;
        match participant with
        | None =>
            raise (HTTPException 404
                     "Participant not found in conversation")
        | Some participant =>
            db_delete (delete_ConversationParticipant
                         (cp_conversation_id participant)
                         (cp_user_id participant)) ;;
            _ <- commit ;;
            ret tt
        end
  end.

(** [", ".join(names)] *)
Fixpoint join_comma (names : list string) : string :=
  match names with
  | [] => ""
  | [n] => n
  | n :: rest => n +++ ", " +++ join_comma rest
  end.

(** The text of the system message of a batch: one name, or
    ["A, B và C"]. *)
Definition added_message_content (adder : string) (user_names : list string)
    : string :=
  match user_names with
  | [n] => adder +++ " đã thêm " +++ n +++ " vào nhóm"
  | _ =>
      adder +++ " đã thêm "
      +++ join_comma (removelast user_names)
      +++ " và " +++ last user_names ""
      +++ " vào nhóm"
  end.

(** The loop of [add_participants_batch] over [request.user_ids]; it
    returns [added_users]. *)
Fixpoint add_each (conversation_id : UUID) (current_user : User)
    (user_ids : list UUID) (added_users : list User) : M (list User) :=
  match user_ids with
  | [] => ret added_users
  | user_id :: rest =>
      rows <- select users (fun u => u_id u =? user_id) ;;
      user <- scalar_one_or_none rows ;;
      match user with
      | None =>
          raise (HTTPException 404 ("User " +++ str user_id +++ " not found"))
      | Some user =>
          rows <- select friendships
                    (accepted_between (u_id current_user) user_id) ;;
          friendship <- scalar_one_or_none rows ;;
          match friendship with
          | None =>
              raise (HTTPException 400
                       ("You can only add friends. User "
                        +++ u_display_name user +++ " is not your friend"))
          | Some _ =>
              rows <- select conversation_participants
                        (is_participant conversation_id user_id) ;;
              already <- scalar_one_or_none rows ;;
              match already with
              | Some _ =>
                  add_each conversation_id current_user rest added_users
              | None =>
                  db_add (add_ConversationParticipant conversation_id
                            user_id) ;;
                  add_each conversation_id current_user rest
                    (added_users ++ [user])
              end
          end
      end
  end.

Definition add_participants_batch (conversation_id : UUID)
    (user_ids : list UUID) (current_user : User) : M (string * nat) :=
  rows <- select conversations (fun c => c_id c =? conversation_id) ;;
  conversation <- scalar_one_or_none rows ;;
  match conversation with
  | None => raise (HTTPException 404 "Conversation not found")
  | Some conversation =>
      if negb (type_eqb (c_type conversation) group)
      then raise (HTTPException 400
                    "Can only add participants to group conversations")
      else if negb (c_created_by conversation =? u_id current_user)
      then raise (HTTPException 403
                    "Only conversation creator can add participants")
      else
        members <- select conversation_participants
                     (in_conversation conversation_id) ;;
        let current_count := List.length members in
        if 100 <? current_count + List.length user_ids
        then raise (HTTPException 400
                      ("Group can have maximum 100 members. Current: "
                       +++ str current_count +++ ", Trying to add: "
                       +++ str (List.length user_ids)))
        else
          added_users <- add_each conversation_id current_user user_ids [] ;;
          match added_users with
          | [] => ret tt
          | _ :: _ =>
              db_add (add_Message conversation_id None
                        (added_message_content
                           (u_display_name current_user)
                           (map u_display_name added_users))
                        None (Some "system") None) ;;
              rows <- flush ;;
              system_message <- the_Message rows ;;
              db_set (set_Conversation_updated_at (c_id conversation)
                        (Some (m_created_at system_message))) ;;
              now <- utcnow ;;
              call module_manager
                (fun broken self =>
                   broadcast_to_conversation broken self
                     (system_event system_message now)
                     conversation_id None) ;;
              rows <- select conversations
                        (fun c => c_id c =? conversation_id) ;;
              conv <- scalar_one rows ;;
              conversation_response <- _build_conversation_response conv ;;
              for_each added_users
                (fun added_user =>
                   now <- utcnow ;;
                   call module_manager
                     (fun broken self =>
                        send_personal_message broken self
                          (new_conversation_event conversation_response now)
                          (u_id added_user)) ;;
                   call module_manager
                     (fun _ self =>
                        (add_user_to_conversation self (u_id added_user)
                           conversation_id, [])))
          end ;;
          _ <- commit ;;
          ret ("Added " +++ str (List.length added_users)
               +++ " participant(s) successfully",
               List.length added_users)
  end.

Definition leave_conversation (conversation_id : UUID) (current_user : User)
    : M unit :=
  rows <- select conversation_participants
            (is_participant conversation_id (u_id current_user)) ;;
  participant <- scalar_one_or_none rows ;;
  match participant with
  | None =>
      raise (HTTPException 404
               "You are not a participant in this conversation")
  | Some participant =>
      rows <- select conversations (fun c => c_id c =? conversation_id) ;;
      conversation <- scalar_one rows ;;
      db_delete (delete_ConversationParticipant
                   (cp_conversation_id participant)
                   (cp_user_id participant)) ;;
      match c_type conversation with
      | group =>
          db_add (add_Message conversation_id None
                    (u_display_name current_user +++ " đã rời khỏi nhóm")
                    None (Some "system") None) ;;
          rows <- flush ;;
          system_message <- the_Message rows ;;
          db_set (set_Conversation_updated_at (c_id conversation)
                    (Some (m_created_at system_message))) ;;
          remaining <- select conversation_participants
                         (in_conversation conversation_id) ;;
          let remaining_count := List.length remaining in
          if remaining_count =? 1
          then
            last_participant <- scalar_one remaining ;;
            db_add (add_Message conversation_id None
                      "Nhóm đã tự động giải tán vì chỉ còn lại bạn"
                      None (Some "system") None) ;;
            rows <- flush ;;
            disband_message <- the_Message rows ;;
            now <- utcnow ;;
            let disband_ws_msg := system_event disband_message now in
            _ <- commit ;;
            call module_manager
              (fun broken self =>
                 send_personal_message broken self disband_ws_msg
                   (cp_user_id last_participant)) ;;
            rows <- select conversations
                      (fun c => c_id c =? conversation_id) ;;
            conversation <- scalar_one rows ;;
            db_delete (delete_Conversation (c_id conversation)) ;;
            _ <- commit ;;
            ret tt
          else
            now <- utcnow ;;
            call module_manager
              (fun broken self =>
                 broadcast_to_conversation broken self
                   (system_event system_message now)
                   conversation_id (Some (u_id current_user))) ;;
            _ <- commit ;;
            ret tt
      | direct =>
          _ <- commit ;;
          ret tt
      end
  end.

(** ** The web-socket endpoint (backend/app/api/endpoints/websocket.py)

    [websocket_endpoint] up to its receive loop, for a token that
    [get_user_from_token] resolved to [user] ([None]: rejected), and its
    handler of [WebSocketDisconnect]. *)

Definition load_user_conversations (user_id : UUID) : M unit :=
  rows <- select conversation_participants
            (fun p => cp_user_id p =? user_id) ;;
  let conversation_ids := map cp_conversation_id rows in
  for_each conversation_ids
    (fun conv_id =>
       call package_manager
         (fun _ self =>
            (add_user_to_conversation self user_id conv_id, []))).

Definition websocket_endpoint (websocket : WebSocket) (user : option User)
    : M unit :=
  match user with
  | None =>
      call package_manager
        (fun _ self =>
           (self, [ws_close websocket 1008 "Authentication failed"]))
  | Some user =>
      call package_manager
        (fun _ self => connect self websocket (u_id user)) ;;
      load_user_conversations (u_id user) ;;
      now <- utcnow ;;
      call package_manager
        (fun broken self =>
           send_personal_message broken self
             {| ws_type := CONNECTED;
                ws_data :=
                  WSConnected (u_id user) (u_username user)
                    ("Connected successfully as " +++ u_username user);
                ws_timestamp := now |}
             (u_id user)) ;;
      now <- utcnow ;;
      call package_manager
        (fun broken self =>
           broadcast_to_all broken self
             {| ws_type := USER_ONLINE;
                ws_data :=
                  WSUserStatus (u_id user) (u_username user) "online" None;
                ws_timestamp := now |}
             (Some (u_id user)))
  end.

Definition websocket_disconnected (user : User) : M unit :=
  call package_manager (fun _ self => (disconnect self (u_id user), [])) ;;
  last_seen_at <- utcnow ;;
  now <- utcnow ;;
  call package_manager
    (fun broken self =>
       broadcast_to_all broken self
         {| ws_type := USER_OFFLINE;
            ws_data :=
              WSUserStatus (u_id user) (u_username user) "offline"
                (Some last_seen_at);
            ws_timestamp := now |}
         None).

(** ** A small world for concrete runs *)

Definition mk_user (id : UUID) (username display_name : string) : User :=
  {| u_id := id; u_username := username; u_display_name := display_name;
     u_is_active := true |}.

Definition alice := mk_user 1 "alice" "Alice".
Definition bob := mk_user 2 "bob" "Bob".
Definition carol := mk_user 3 "carol" "Carol".
Definition dave := mk_user 4 "dave" "Dave".

Definition mk_group (id : UUID) (title : string) (creator : UUID)
    : Conversation :=
  {| c_id := id; c_type := group; c_title := Some title;
     c_created_by := creator; c_created_at := 0; c_updated_at := 0 |}.

Definition mk_participant (conversation_id user_id : UUID)
    : ConversationParticipant :=
  {| cp_conversation_id := conversation_id; cp_user_id := user_id;
     cp_joined_at := 0; cp_last_read_message_id := None |}.

Definition mk_message (id conversation_id : UUID) (sender : option UUID)
    (content : string) : Message :=
  {| m_id := id; m_conversation_id := conversation_id;
     m_sender_id := sender; m_content := content;
     m_file_url := None; m_file_type := None; m_file_name := None;
     m_created_at := 0; m_edited_at := None; m_is_deleted := "false";
     m_delivered_at := None; m_read_at := None;
     m_read_by_user_id := None |}.

Definition mk_friendship (id user_id friend_id : UUID)
    (status : FriendshipStatus) : Friendship :=
  {| f_id := id; f_user_id := user_id; f_friend_id := friend_id;
     f_status := status; f_created_at := 0; f_updated_at := 0 |}.

(** Groups 10 = {alice, bob, carol} and 11 = {alice, bob}, both created by
    alice; in group 10 a message of bob with a picture (20), a system
    message (21) and a message bob has deleted (22); alice reacted to 20. *)
Definition demo_db : Database :=
  {| users := [alice; bob; carol; dave];
     conversations := [mk_group 10 "G" 1; mk_group 11 "H" 1];
     conversation_participants :=
       [mk_participant 10 1; mk_participant 10 2; mk_participant 10 3;
        mk_participant 11 1; mk_participant 11 2];
     messages :=
       [{| m_id := 20; m_conversation_id := 10; m_sender_id := Some 2;
           m_content := "hello"; m_file_url := Some "/files/cat.png";
           m_file_type := Some "image/png"; m_file_name := Some "cat.png";
           m_created_at := 0; m_edited_at := None; m_is_deleted := "false";
           m_delivered_at := None; m_read_at := None;
           m_read_by_user_id := None |};
        {| m_id := 21; m_conversation_id := 10; m_sender_id := None;
           m_content := "Alice đã thêm Carol vào nhóm";
           m_file_url := None; m_file_type := Some "system";
           m_file_name := None;
           m_created_at := 0; m_edited_at := None; m_is_deleted := "false";
           m_delivered_at := None; m_read_at := None;
           m_read_by_user_id := None |};
        Message_soft_delete (mk_message 22 10 (Some 2) "oops")];
     message_reactions :=
       [{| mr_id := 40; mr_message_id := 20; mr_user_id := 1;
           mr_emoji := "+1"; mr_created_at := 0 |}];
     friendships :=
       [mk_friendship 30 1 2 accepted; mk_friendship 31 3 1 rejected;
        mk_friendship 32 2 3 pending; mk_friendship 33 4 1 blocked] |}.

Definition demo : Server :=
  {| database := demo_db;
     pkg_manager := ConnectionManager_init;
     mod_manager := ConnectionManager_init;
     wire := [];
     broken_sockets := [];
     clock := 1000;
     next_uuid := 500 |}.

(** The server after a request. *)
Definition after {A} (handler : M A) (s : Server) : Server :=
  snd (endpoint handler s).

(** alice on socket 101 and bob on socket 102 are connected. *)
Definition demo_online : Server :=
  after (websocket_endpoint 102 (Some bob))
    (after (websocket_endpoint 101 (Some alice)) demo).

(** Is [user_id] a participant of [conversation_id] in the database? *)
Definition member (s : Server) (conversation_id user_id : UUID) : bool :=
  existsb (is_participant conversation_id user_id)
    (conversation_participants (database s)).

(** The messages the server wrote on the session of [user_id]. *)
Definition received (s : Server) (user_id : UUID) : list WSMessage :=
  flat_map
    (fun w =>
       match w with
       | ws_send_json u _ message =>
           if u =? user_id then [message] else []
       | _ => []
       end)
    (wire s).

(** 101 users, and a request for a group of the first with the others. *)
Definition crowd : list User :=
  map (fun n => mk_user n "user" "User") (seq 1 101).

Definition crowded : Server :=
  {| database :=
       {| users := crowd; conversations := [];
          conversation_participants := []; messages := [];
          message_reactions := []; friendships := [] |};
     pkg_manager := ConnectionManager_init;
     mod_manager := ConnectionManager_init;
     wire := []; broken_sockets := []; clock := 1000; next_uuid := 500 |}.

Definition big_group : ConversationCreate :=
  {| cc_type := group; cc_title := Some "everyone";
     cc_participant_ids := seq 2 100 |}.

(** A plain text message for a conversation. *)
Definition hi (conversation_id : UUID) : MessageCreate :=
  {| mc_conversation_id := conversation_id; mc_content := "hi";
     mc_file_url := None; mc_file_type := None; mc_file_name := None |}.

(** Does the directory of [self] list [conversation_id] for [user_id]? *)
Definition tracks (self : ConnectionManager) (user_id conversation_id : UUID)
    : bool :=
  existsb
    (fun entry => (fst entry =? user_id)
                  && set_mem conversation_id (snd entry))
    (user_conversations self).

(** ** Further endpoints

    The handlers below use the same session layer as the ones above. *)

(** *** backend/app/api/friendships.py *)

(** [action] is declared [Literal["accept", "reject", "block"]]. *)
Inductive FriendAction := accept | reject | block.

Definition action_value (a : FriendAction) : string :=
  match a with
  | accept => "accept"
  | reject => "reject"
  | block => "block"
  end.

(** The check constraint [check_valid_status] on a status text. *)
Definition status_of_string (text : string) : option FriendshipStatus :=
  if String.eqb text "pending" then Some pending
  else if String.eqb text "accepted" then Some accepted
  else if String.eqb text "rejected" then Some rejected
  else if String.eqb text "blocked" then Some blocked
  else None.

(** The text of a status, as the column stores it. *)
Definition status_value (status : FriendshipStatus) : string :=
  match status with
  | pending => "pending"
  | accepted => "accepted"
  | rejected => "rejected"
  | blocked => "blocked"
  end.

Definition Friendship_with_status (f : Friendship)
    (status : FriendshipStatus) : Friendship :=
  {| f_id := f_id f; f_user_id := f_user_id f;
     f_friend_id := f_friend_id f; f_status := status;
     f_created_at := f_created_at f; f_updated_at := f_updated_at f |}.

Definition respond_to_friend_request (friendship_id : UUID)
    (action : FriendAction) (current_user : User) : M Friendship :=
  rows <- select friendships (fun f => f_id f =? friendship_id) ;;
  friendship <- scalar_one_or_none rows ;;
  match friendship with
  | None => raise (HTTPException 404 "Friend request not found")
  | Some friendship =>
      if negb (f_friend_id friendship =? u_id current_user)
      then raise (HTTPException 403
                    "You can only respond to friend requests sent to you")
      else if negb (status_eqb (f_status friendship) pending)
      then raise (HTTPException 400
                    ("Friend request is already "
                     +++ status_value (f_status friendship)))
      else
        (* friendship.status = response.action + "ed" *)
        match status_of_string (action_value action +++ "ed") with
        | None => raise (IntegrityError "check_valid_status")
        | Some status =>
            db_set (update_Friendship
                      (Friendship_with_status friendship status)) ;;
            _ <- commit ;;
            refresh friendships (fun f => f_id f =? f_id friendship)
        end
  end.

Record FriendshipStatusResponse := {
  fs_are_friends : bool;
  fs_status : option FriendshipStatus;
  fs_friendship_id : option UUID;
  fs_initiated_by : option UUID
}.

Definition check_friendship_status (user_id : UUID) (current_user : User)
    : M FriendshipStatusResponse :=
  rows <- select friendships (between (u_id current_user) user_id) ;;
  friendship <- scalar_one_or_none rows ;;
  match friendship with
  | None =>
      ret {| fs_are_friends := false; fs_status := None;
             fs_friendship_id := None; fs_initiated_by := None |}
  | Some friendship =>
      ret {| fs_are_friends := status_eqb (f_status friendship) accepted;
             fs_status := Some (f_status friendship);
             fs_friendship_id := Some (f_id friendship);
             fs_initiated_by := Some (f_user_id friendship) |}
  end.

(** *** backend/app/api/endpoints/conversations.py *)

Definition delete_conversation (conversation_id : UUID)
    (current_user : User) : M unit :=
  rows <- select conversations (fun c => c_id c =? conversation_id) ;;
  conversation <- scalar_one_or_none rows ;;
  match conversation with
  | None => raise (HTTPException 404 "Conversation not found")
  | Some conversation =>
      if negb (c_created_by conversation =? u_id current_user)
      then raise (HTTPException 403 "Only conversation creator can delete")
      else
        db_delete (delete_Conversation (c_id conversation)) ;;
        _ <- commit ;;
        ret tt
  end.

(** The join of users and participant rows of a conversation. *)
Definition participants_with_users (conversation_id : UUID) (db : Database)
    : list ConversationParticipantResponse :=
  flat_map
    (fun p =>
       map (fun user =>
              {| pr_user_id := u_id user;
                 pr_username := u_username user;
                 pr_display_name := u_display_name user;
                 pr_joined_at := cp_joined_at p |})
         (filter (fun u => u_id u =? cp_user_id p) (users db)))
    (filter (in_conversation conversation_id)
       (conversation_participants db)).

Definition get_participants (conversation_id : UUID) (current_user : User)
    : M (list ConversationParticipantResponse) :=
  rows <- select conversation_participants
            (is_participant conversation_id (u_id current_user)) ;;
  membership <- scalar_one_or_none rows ;;
  match membership with
  | None =>
      raise (HTTPException 403
               "You are not a participant in this conversation")
  | Some _ =>
      fun st => (Ok (participants_with_users conversation_id (view st)), st)
  end.

(** *** backend/app/api/endpoints/reactions.py: the summary *)

Record Reactor := {
  reactor_user_id : string;
  reactor_username : string;
  reactor_display_name : string
}.

Record ReactionSummary := {
  rs_emoji : string;
  rs_count : nat;
  rs_users : list Reactor;
  rs_reacted_by_me : bool
}.

Record MessageWithReactions := {
  mwr_message_id : UUID;
  mwr_reactions : list ReactionSummary;
  mwr_total_reactions : nat
}.

(** One value of [emoji_map]; the default factory gives [emoji_default]. *)
Record EmojiData := {
  ed_count : nat;
  ed_users : list Reactor;
  ed_reacted_by_me : bool
}.

Definition emoji_default : EmojiData :=
  {| ed_count := 0; ed_users := []; ed_reacted_by_me := false |}.

(** [emoji_map]: a dictionary keyed by the emoji, in insertion order. *)
Fixpoint emoji_get (emoji : string) (d : list (string * EmojiData))
    : option EmojiData :=
  match d with
  | [] => None
  | (k, v) :: d' => if String.eqb emoji k then Some v else emoji_get emoji d'
  end.

Fixpoint emoji_set (emoji : string) (v : EmojiData)
    (d : list (string * EmojiData)) : list (string * EmojiData) :=
  match d with
  | [] => [(emoji, v)]
  | (k, v') :: d' =>
      if String.eqb emoji k then (k, v) :: d'
      else (k, v') :: emoji_set emoji v d'
  end.

(** The body of [for reaction in reactions]. *)
Definition aggregate_step (me : UUID) (emoji_map : list (string * EmojiData))
    (row : MessageReaction * option User) : list (string * EmojiData) :=
  let (reaction, user) := row in
  let emoji_data :=
    match emoji_get (mr_emoji reaction) emoji_map with
    | Some d => d
    | None => emoji_default
    end in
  emoji_set (mr_emoji reaction)
    {| ed_count := ed_count emoji_data + 1;
       ed_users :=
         ed_users emoji_data
         ++ [{| reactor_user_id := str (mr_user_id reaction);
                reactor_username := sender_username user;
                reactor_display_name := sender_display_name user |}];
       ed_reacted_by_me :=
         if mr_user_id reaction =? me then true
         else ed_reacted_by_me emoji_data |}
    emoji_map.

Definition aggregate (me : UUID) (rows : list (MessageReaction * option User))
    : list (string * EmojiData) :=
  fold_left (aggregate_step me) rows [].

Definition reaction_summaries (me : UUID)
    (rows : list (MessageReaction * option User)) : list ReactionSummary :=
  map (fun entry =>
         {| rs_emoji := fst entry;
            rs_count := ed_count (snd entry);
            rs_users := ed_users (snd entry);
            rs_reacted_by_me := ed_reacted_by_me (snd entry) |})
    (aggregate me rows).

Definition get_message_reactions (message_id : UUID) (current_user : User)
    : M MessageWithReactions :=
  rows <- select messages (fun m => m_id m =? message_id) ;;
  message <- scalar_one_or_none rows ;;
  match message with
  | None => raise (HTTPException 404 "Message not found")
  | Some message =>
      rows <- select conversation_participants
                (is_participant (m_conversation_id message)
                   (u_id current_user)) ;;
      membership <- scalar_one_or_none rows ;;
      match membership with
      | None =>
          raise (HTTPException 403
                   "You are not a participant in this conversation")
      | Some _ =>
          reactions <- select message_reactions
                         (fun r => mr_message_id r =? message_id) ;;
          loaded <- map_M (fun r =>
                             user <- related_user (Some (mr_user_id r)) ;;
                             ret (r, user))
                      reactions ;;
          ret {| mwr_message_id := message_id;
                 mwr_reactions :=
                   reaction_summaries (u_id current_user) loaded;
                 mwr_total_reactions := List.length reactions |}
      end
  end.

(** ** Well-formed managers and small readers for the statements *)

(** Both dictionaries of a manager have one entry per key. *)
Definition unique_keys (self : ConnectionManager) : Prop :=
  NoDup (dict_keys (active_connections self))
  /\ NoDup (dict_keys (user_conversations self)).

(** How many messages [calls] wrote to the session of [user_id]. *)
Definition deliveries (calls : list Wire) (user_id : UUID) : nat :=
  List.length
    (filter
       (fun w =>
          match w with
          | ws_send_json u _ _ => u =? user_id
          | _ => false
          end)
       calls).

(** The rows of a conversation that a delete must take along. *)
Definition rows_of_conversation (db : Database) (conversation_id : UUID)
    : nat :=
  List.length (filter (fun c => c_id c =? conversation_id) (conversations db))
  + List.length (filter (in_conversation conversation_id)
                   (conversation_participants db))
  + List.length (filter (message_in conversation_id) (messages db)).

(** A manager with alice on socket 101 and bob on socket 102, both listed
    for group 10; bob also for group 11. *)
Definition two_online : ConnectionManager :=
  {| active_connections := [(1, 101); (2, 102)];
     user_conversations := [(1, [10]); (2, [10; 11])] |}.

(** [add_user_to_conversation] for each of [conversation_ids], in order. *)
Definition add_all (user_id : UUID) (conversation_ids : list UUID)
    (self : ConnectionManager) : ConnectionManager :=
  fold_left (fun m c => add_user_to_conversation m user_id c)
    conversation_ids self.

(** A request in progress whose package manager is [m]. *)
Definition with_pkg (m : ConnectionManager) (st : State) : State :=
  {| server :=
       {| database := database (server st);
          pkg_manager := m;
          mod_manager := mod_manager (server st);
          wire := wire (server st);
          broken_sockets := broken_sockets (server st);
          clock := clock (server st);
          next_uuid := next_uuid (server st) |};
     view := view st;
     unflushed := unflushed st |}.

(** The small world with one more conversation: 12, direct, between alice
    and bob. *)
Definition demo_direct : Server :=
  with_database
    (with_participants
       (with_conversations demo_db
          (conversations demo_db
           ++ [{| c_id := 12; c_type := direct; c_title := None;
                  c_created_by := 1; c_created_at := 0;
                  c_updated_at := 0 |}]))
       (conversation_participants demo_db
        ++ [mk_participant 12 1; mk_participant 12 2]))
    demo.

(** Three reaction rows of one message with their users: two thumbs, one
    heart. *)
Definition demo_reactions : list (MessageReaction * option User) :=
  [({| mr_id := 40; mr_message_id := 20; mr_user_id := 1;
       mr_emoji := "+1"; mr_created_at := 0 |}, Some alice);
   ({| mr_id := 41; mr_message_id := 20; mr_user_id := 2;
       mr_emoji := "heart"; mr_created_at := 1 |}, Some bob);
   ({| mr_id := 42; mr_message_id := 20; mr_user_id := 3;
       mr_emoji := "+1"; mr_created_at := 2 |}, None)].

(** The small world with one more conversation: 13, a group of alice
    alone. *)
Definition demo_solo : Server :=
  with_database
    (with_participants
       (with_conversations demo_db
          (conversations demo_db ++ [mk_group 13 "Solo" 1]))
       (conversation_participants demo_db ++ [mk_participant 13 1]))
    demo.


(** alice on socket 101 and bob on socket 102 are connected to the world
    with alice's group 13. *)
Definition demo_solo_online : Server :=
  after (websocket_endpoint 102 (Some bob))
    (after (websocket_endpoint 101 (Some alice)) demo_solo).

(** The small world with the sessions and the directory of
    [two_online]. *)
Definition demo_listening : Server :=
  {| database := demo_db;
     pkg_manager := two_online;
     mod_manager := ConnectionManager_init;
     wire := [];
     broken_sockets := [];
     clock := 1000;
     next_uuid := 500 |}.

(** [last_read_message_id] of the participant rows of a user in a
    conversation. *)
Definition last_read (s : Server) (conversation_id user_id : UUID)
    : list (option UUID) :=
  map cp_last_read_message_id
    (filter (is_participant conversation_id user_id)
       (conversation_participants (database s))).

(** * Properties *)

(** ** Dictionaries *)

Section DictFacts.
Variable V : Type.
Implicit Types d : dict V.

Lemma dict_keys_set k v d :
  dict_keys (dict_set k v d)
  = if dict_mem k d then dict_keys d else dict_keys d ++ [k].
Proof.
  unfold dict_mem, dict_keys.
  induction d as [|[k' v'] d IH]; cbn; [reflexivity|].
  destruct (Nat.eqb_spec k k') as [->|Hne]; cbn; [reflexivity|].
  rewrite IH. destruct (dict_get k d); reflexivity.
Qed.

Lemma dict_get_In k d : dict_mem k d = true <-> In k (dict_keys d).
Proof.
  unfold dict_mem, dict_keys. induction d as [|[k' v'] d IH]; cbn.
  - split; [discriminate | tauto].
  - destruct (Nat.eqb_spec k k') as [->|Hne].
    + split; auto.
    + rewrite IH. split; [auto | intros [E|H]; [congruence | exact H]].
Qed.

Lemma dict_keys_del_incl k d x :
  In x (dict_keys (dict_del k d)) -> In x (dict_keys d).
Proof.
  unfold dict_keys. induction d as [|[k' v'] d IH]; cbn; [tauto|].
  destruct (k =? k'); cbn; intuition.
Qed.

Lemma NoDup_dict_set k v d :
  NoDup (dict_keys d) -> NoDup (dict_keys (dict_set k v d)).
Proof.
  intros H. rewrite dict_keys_set.
  destruct (dict_mem k d) eqn:E; [exact H|].
  apply NoDup_app; [exact H | repeat constructor; cbn; tauto |].
  intros x Hx [<-|[]].
  apply dict_get_In in Hx. congruence.
Qed.

Lemma NoDup_dict_del k d :
  NoDup (dict_keys d) -> NoDup (dict_keys (dict_del k d)).
Proof.
  induction d as [|[k' v'] d IH]; cbn; intros H; [constructor|].
  inversion H as [|? ? Hnot Hrest]; subst.
  destruct (k =? k'); cbn; [exact Hrest|].
  constructor; [|auto].
  intros Hin. apply Hnot. eapply dict_keys_del_incl; exact Hin.
Qed.

Lemma entries_absent k d :
  ~ In k (dict_keys d) -> filter (fun e => fst e =? k) d = [].
Proof.
  induction d as [|[k' v'] d IH]; cbn; intros H; [reflexivity|].
  destruct (Nat.eqb_spec k' k) as [->|Hne]; [tauto|].
  apply IH. tauto.
Qed.

Lemma entries_unique k d :
  NoDup (dict_keys d) -> entries k d <= 1.
Proof.
  unfold entries.
  induction d as [|[k' v'] d IH]; cbn; intros H; [lia|].
  inversion H as [|? ? Hnot Hrest]; subst.
  destruct (Nat.eqb_spec k' k) as [->|Hne]; [|auto].
  rewrite entries_absent by assumption. cbn. lia.
Qed.

Lemma dict_get_set k v d : dict_get k (dict_set k v d) = Some v.
Proof.
  induction d as [|[k' v'] d IH]; cbn.
  - now rewrite Nat.eqb_refl.
  - destruct (Nat.eqb_spec k k') as [->|Hne]; cbn.
    + now rewrite Nat.eqb_refl.
    + destruct (Nat.eqb_spec k k'); [contradiction | exact IH].
Qed.

Lemma entries_set k v d :
  NoDup (dict_keys d) ->
  filter (fun e => fst e =? k) (dict_set k v d) = [(k, v)].
Proof.
  induction d as [|[k' v'] d IH]; cbn; intros H.
  - now rewrite Nat.eqb_refl.
  - inversion H as [|? ? Hnot Hrest]; subst.
    destruct (Nat.eqb_spec k k') as [->|Hne]; cbn.
    + rewrite Nat.eqb_refl. now rewrite entries_absent.
    + destruct (Nat.eqb_spec k' k); [congruence | auto].
Qed.

Lemma dict_get_del_other k k' d :
  k <> k' -> dict_get k (dict_del k' d) = dict_get k d.
Proof.
  intros Hne. induction d as [|[k0 v0] d IH]; cbn; [reflexivity|].
  destruct (Nat.eqb_spec k' k0) as [->|Hne'].
  - destruct (Nat.eqb_spec k k0); [contradiction | reflexivity].
  - cbn. now rewrite IH.
Qed.
End DictFacts.

(** ** Presence registry *)

Lemma presence_unique ops self :
  NoDup (dict_keys (active_connections self)) ->
  NoDup (dict_keys (active_connections (presence_run ops self))).
Proof.
  unfold presence_run. revert self.
  induction ops as [|op ops IH]; cbn; intros self H; [exact H|].
  apply IH. destruct op; cbn.
  - now apply NoDup_dict_set.
  - now apply NoDup_dict_del.
Qed.

(** C3. Whatever the sequence of [connect] and [disconnect] calls on a
    fresh manager, a user has at most one entry in [active_connections];
    and when [connect] meets a user who has a session, it closes that
    socket and the new socket becomes the user's only entry. *)
Theorem C3_single_session :
  forall (ops : list presence_op) (user_id : UUID),
    let self := presence_run ops ConnectionManager_init in
    entries user_id (active_connections self) <= 1
    /\ forall (websocket old_ws : WebSocket),
         dict_get user_id (active_connections self) = Some old_ws ->
         In (ws_close old_ws 1000 "New connection established")
            (snd (connect self websocket user_id))
         /\ filter (fun e => fst e =? user_id)
              (active_connections (fst (connect self websocket user_id)))
            = [(user_id, websocket)].
Proof.
  intros ops user_id self.
  assert (Hu : NoDup (dict_keys (active_connections self))).
  { apply presence_unique. constructor. }
  split.
  - now apply entries_unique.
  - intros websocket old_ws Hold. unfold connect. rewrite Hold. cbn. split.
    + right. left. reflexivity.
    + now apply entries_set.
Qed.

Lemma C3_single_session_witness :
  In (ws_close 101 1000 "New connection established")
     (snd (connect (presence_run [op_connect 101 1] ConnectionManager_init)
             102 1))
  /\ filter (fun e => fst e =? 1)
       (active_connections
          (fst (connect (presence_run [op_connect 101 1]
                           ConnectionManager_init) 102 1)))
     = [(1, 102)].
Proof.
  apply (C3_single_session [op_connect 101 1] 1). reflexivity.
Defined.

(** ** Rows: looking up, replacing *)

Section RowFacts.
Variable A : Type.
Variable P : A -> bool.
Variable x : A.

Lemma filter_replace_none l :
  filter P l = [] ->
  filter P (map (fun a => if P a then x else a) l) = [].
Proof.
  induction l as [|a l IH]; cbn; [reflexivity|].
  destruct (P a) eqn:E; [discriminate|].
  rewrite E. exact IH.
Qed.

Lemma filter_replace l m :
  P x = true -> filter P l = [m] ->
  filter P (map (fun a => if P a then x else a) l) = [x].
Proof.
  intros Hx. induction l as [|a l IH]; cbn; [discriminate|].
  destruct (P a) eqn:E.
  - intros H. injection H as _ H. rewrite Hx.
    now rewrite filter_replace_none.
  - rewrite E. exact IH.
Qed.

Lemma filter_one_holds l m : filter P l = [m] -> P m = true.
Proof.
  intros H. assert (Hin : In m (filter P l)) by (rewrite H; now left).
  apply filter_In in Hin. tauto.
Qed.

Lemma filter_one_only l m a :
  filter P l = [m] -> In a l -> P a = true -> a = m.
Proof.
  intros H Hin Ha.
  assert (Hf : In a (filter P l)) by (apply filter_In; tauto).
  rewrite H in Hf. destruct Hf as [E|[]]. now symmetry.
Qed.
End RowFacts.

Lemma opt_eqb_refl (a : UUID) : opt_eqb (Some a) (Some a) = true.
Proof. cbn. apply Nat.eqb_refl. Qed.

(** ** Messages *)

(** C10. A message without sender cannot be edited and cannot be deleted,
    whoever asks: both handlers answer 403 and leave the server as it was. *)
Theorem C10_system_message_immutable :
  forall (s : Server) (message_id : UUID) (m : Message) (content : string)
         (current_user : User),
    filter (fun m0 => m_id m0 =? message_id) (messages (database s)) = [m] ->
    m_sender_id m = None ->
    endpoint (edit_message message_id content current_user) s
    = (Raise (HTTPException 403 "You can only edit your own messages"), s)
    /\ endpoint (delete_message message_id current_user) s
       = (Raise (HTTPException 403 "You can only delete your own messages"),
          s).
Proof.
  intros s message_id m content current_user Hm Hs. split.
  - unfold endpoint, edit_message, bind, select. cbn. rewrite Hm. cbn.
    rewrite Hs. reflexivity.
  - unfold endpoint, delete_message, bind, select. cbn. rewrite Hm. cbn.
    rewrite Hs. reflexivity.
Qed.

Lemma C10_system_message_immutable_witness :
  endpoint (edit_message 21 "edited" alice) demo
  = (Raise (HTTPException 403 "You can only edit your own messages"), demo)
  /\ endpoint (delete_message 21 alice) demo
     = (Raise (HTTPException 403 "You can only delete your own messages"),
        demo).
Proof.
  eapply C10_system_message_immutable; reflexivity.
Defined.

(** C5, as the claim states it, fails: after a soft delete the content of
    the message does not read back empty. *)
Lemma C5_content_not_empty :
  let s := after (delete_message 20 bob) demo in
  exists m,
    filter (fun m0 => m_id m0 =? 20) (messages (database s)) = [m]
    /\ m_is_deleted m = "true"
    /\ m_content m = "This message was deleted"
    /\ m_content m <> "".
Proof.
  eexists. vm_compute. repeat split. discriminate.
Qed.

(** C5, amended. A soft-deleted message rejects every further edit and
    delete, and nothing changes: 400 for its sender, 403 for anyone else.
    A delete by the sender of a message that is not yet deleted marks it
    deleted; it then reads back with the notice "This message was deleted"
    as content and without file fields. *)
Theorem C5_soft_deleted :
  forall (s : Server) (message_id : UUID) (m : Message)
         (current_user : User),
    filter (fun m0 => m_id m0 =? message_id) (messages (database s)) = [m] ->
    (m_is_deleted m = "true" ->
     (forall content,
        endpoint (edit_message message_id content current_user) s
        = (Raise (if opt_eqb (m_sender_id m) (Some (u_id current_user))
                  then HTTPException 400 "Cannot edit deleted messages"
                  else HTTPException 403
                         "You can only edit your own messages"), s))
     /\ endpoint (delete_message message_id current_user) s
        = (Raise (if opt_eqb (m_sender_id m) (Some (u_id current_user))
                  then HTTPException 400 "Message already deleted"
                  else HTTPException 403
                         "You can only delete your own messages"), s))
    /\ (m_is_deleted m <> "true" ->
        m_sender_id m = Some (u_id current_user) ->
        exists s' m',
          endpoint (delete_message message_id current_user) s
          = (Ok "Message deleted successfully", s')
          /\ filter (fun m0 => m_id m0 =? message_id)
               (messages (database s')) = [m']
          /\ m_is_deleted m' = "true"
          /\ m_content m' = "This message was deleted"
          /\ m_file_url m' = None
          /\ m_file_type m' = None
          /\ m_file_name m' = None).
Proof.
  intros s message_id m current_user Hm. split.
  - intros Hdel. split; [intros content|].
    + unfold endpoint, edit_message, bind, select. cbn. rewrite Hm. cbn.
      destruct (opt_eqb (m_sender_id m) (Some (u_id current_user)));
        cbn; [|reflexivity].
      rewrite Hdel. reflexivity.
    + unfold endpoint, delete_message, bind, select. cbn. rewrite Hm. cbn.
      destruct (opt_eqb (m_sender_id m) (Some (u_id current_user)));
        cbn; [|reflexivity].
      rewrite Hdel. reflexivity.
  - intros Hlive Hsender.
    apply String.eqb_neq in Hlive.
    exists (after (delete_message message_id current_user) s),
           (Message_soft_delete m).
    assert (Hid : m_id m = message_id).
    { apply Nat.eqb_eq.
      exact (filter_one_holds (fun m0 => m_id m0 =? message_id) _ Hm). }
    subst message_id.
    unfold after, endpoint, delete_message, bind, select, refresh,
      bind, select.
    cbn. rewrite Hm. cbn. rewrite Hsender, opt_eqb_refl. cbn.
    rewrite Hlive. cbn.
    rewrite (filter_replace (fun m0 => m_id m0 =? m_id m)
               (Message_soft_delete m) (messages (database s)) (m:=m));
      [|cbn; apply Nat.eqb_refl|exact Hm].
    cbn. rewrite Hsender. cbn.
    rewrite (filter_replace (fun m0 => m_id m0 =? m_id m)
               (Message_soft_delete m) (messages (database s)) (m:=m));
      [|cbn; apply Nat.eqb_refl|exact Hm].
    repeat split.
Qed.

Lemma C5_soft_deleted_witness :
  ((forall content,
      endpoint (edit_message 22 content bob) demo
      = (Raise (HTTPException 400 "Cannot edit deleted messages"), demo))
   /\ endpoint (delete_message 22 bob) demo
      = (Raise (HTTPException 400 "Message already deleted"), demo))
  /\ exists s' m',
       endpoint (delete_message 20 bob) demo
       = (Ok "Message deleted successfully", s')
       /\ filter (fun m0 => m_id m0 =? 20) (messages (database s')) = [m']
       /\ m_is_deleted m' = "true"
       /\ m_content m' = "This message was deleted"
       /\ m_file_url m' = None
       /\ m_file_type m' = None
       /\ m_file_name m' = None.
Proof.
  split.
  - apply (C5_soft_deleted demo 22 (m:=Message_soft_delete
                                         (mk_message 22 10 (Some 2) "oops"))
             bob); reflexivity.
  - apply (C5_soft_deleted demo 20 bob (m:=hd (mk_message 0 0 None "")
                                             (messages demo_db)));
      [reflexivity | discriminate | reflexivity].
Defined.

(** ** Broadcast *)

Section BroadcastFacts.
Variable broken : list WebSocket.
Variable message : WSMessage.

Lemma send_personal_message_wire self user_id w :
  In w (snd (send_personal_message broken self message user_id)) ->
  exists websocket,
    w = ws_send_json user_id websocket message
    /\ dict_get user_id (active_connections self) = Some websocket.
Proof.
  unfold send_personal_message.
  destruct (dict_get user_id (active_connections self)) as [ws|];
    [|intros []].
  destruct (raises broken ws); cbn; [intros []|].
  intros [<-|[]]. now exists ws.
Qed.

Lemma broadcast_to_users_sound user_ids : forall self v ws msg,
  In (ws_send_json v ws msg)
     (snd (broadcast_to_users broken self message user_ids)) ->
  In v user_ids /\ msg = message.
Proof.
  induction user_ids as [|u rest IH]; cbn; intros self v ws msg;
    [intros []|].
  destruct (send_personal_message broken self message u) as [self1 w1]
    eqn:E1.
  destruct (broadcast_to_users broken self1 message rest) as [self2 w2]
    eqn:E2.
  cbn. intros Hin. apply in_app_or in Hin. destruct Hin as [Hin|Hin].
  - assert (Hw : In (ws_send_json v ws msg)
                   (snd (send_personal_message broken self message u)))
      by now rewrite E1.
    apply send_personal_message_wire in Hw.
    destruct Hw as (ws' & Heq & _). injection Heq as -> _ ->. auto.
  - specialize (IH self1 v ws msg). rewrite E2 in IH.
    destruct (IH Hin). auto.
Qed.

Lemma broadcast_to_users_complete user_ids : forall self v ws,
  In v user_ids ->
  dict_get v (active_connections self) = Some ws ->
  raises broken ws = false ->
  In (ws_send_json v ws message)
     (snd (broadcast_to_users broken self message user_ids)).
Proof.
  induction user_ids as [|u rest IH]; cbn; intros self v ws Hin Hget Hok;
    [contradiction|].
  destruct (send_personal_message broken self message u) as [self1 w1]
    eqn:E1.
  destruct (broadcast_to_users broken self1 message rest) as [self2 w2]
    eqn:E2.
  cbn. apply in_or_app.
  destruct (Nat.eq_dec u v) as [->|Hne].
  - left. unfold send_personal_message in E1. rewrite Hget, Hok in E1.
    injection E1 as <- <-. now left.
  - right. destruct Hin as [->|Hin]; [contradiction|].
    specialize (IH self1 v ws Hin). rewrite E2 in IH. apply IH; [|exact Hok].
    unfold send_personal_message in E1.
    destruct (dict_get u (active_connections self)) as [wsu|];
      [|now injection E1 as <- _].
    destruct (raises broken wsu); injection E1 as <- _; [|exact Hget].
    cbn. rewrite dict_get_del_other; auto.
Qed.

Lemma target_users_spec self conversation_id exclude v :
  In v (target_users self conversation_id exclude)
  <-> tracks self v conversation_id = true /\ eq_opt v exclude = false.
Proof.
  unfold target_users, tracks. rewrite in_map_iff. split.
  - intros ([u convs] & <- & Hin). apply filter_In in Hin.
    destruct Hin as [Hin Hc]. cbn in *.
    apply andb_true_iff in Hc. destruct Hc as [Hc Hx].
    split; [|now apply negb_true_iff].
    apply existsb_exists. exists (u, convs). cbn.
    now rewrite Nat.eqb_refl, Hc.
  - intros [Ht Hx]. apply existsb_exists in Ht.
    destruct Ht as ([u convs] & Hin & Hc). cbn in Hc.
    apply andb_true_iff in Hc. destruct Hc as [Hu Hc].
    apply Nat.eqb_eq in Hu. subst u.
    exists (v, convs). split; [reflexivity|].
    apply filter_In. cbn. now rewrite Hc, Hx.
Qed.

(** A broadcast to a conversation writes only [message], only to users
    the directory lists for the conversation, and never to the excluded
    user. *)
Lemma broadcast_to_conversation_sound self conversation_id exclude
    v ws msg :
  In (ws_send_json v ws msg)
     (snd (broadcast_to_conversation broken self message
             conversation_id exclude)) ->
  msg = message
  /\ tracks self v conversation_id = true
  /\ exclude <> Some v.
Proof.
  unfold broadcast_to_conversation. intros H.
  apply broadcast_to_users_sound in H. destruct H as [Hin ->].
  apply target_users_spec in Hin. destruct Hin as [Ht Hx].
  repeat split; [exact Ht|].
  intros ->. cbn in Hx. now rewrite Nat.eqb_refl in Hx.
Qed.

(** It reaches every listed user other than the excluded one who has a
    session on a socket that takes the message. *)
Lemma broadcast_to_conversation_complete self conversation_id exclude
    v ws :
  tracks self v conversation_id = true ->
  exclude <> Some v ->
  dict_get v (active_connections self) = Some ws ->
  raises broken ws = false ->
  In (ws_send_json v ws message)
     (snd (broadcast_to_conversation broken self message
             conversation_id exclude)).
Proof.
  intros Ht Hx Hget Hok. unfold broadcast_to_conversation.
  apply broadcast_to_users_complete; [|exact Hget|exact Hok].
  apply target_users_spec. split; [exact Ht|].
  destruct exclude as [x|]; cbn; [|reflexivity].
  apply Nat.eqb_neq. congruence.
Qed.
End BroadcastFacts.

Lemma opt_eqb_false (a : option UUID) (u : UUID) :
  a <> Some u -> opt_eqb a (Some u) = false.
Proof.
  destruct a as [x|]; cbn; [|reflexivity].
  intros H. apply Nat.eqb_neq. congruence.
Qed.

(** [mark_message_as_read] for a participant of the conversation of the
    message.  The sender of the message is refused (400) and nothing
    changes.  For anyone else the message row takes the time of the
    request as [read_at] and the caller as [read_by_user_id], the
    caller's participant row takes the message as
    [last_read_message_id], whatever it held, and the MESSAGE_READ event
    is handed to [broadcast_to_conversation] of the package manager with
    the caller excluded: it is written to the users that manager lists
    for the conversation, and to them only. *)
Lemma mark_message_as_read_effect :
  forall (s : Server) (message_id : UUID) (m : Message)
         (p : ConversationParticipant) (current_user : User),
    filter (fun m0 => m_id m0 =? message_id) (messages (database s)) = [m] ->
    filter (is_participant (m_conversation_id m) (u_id current_user))
      (conversation_participants (database s)) = [p] ->
    (m_sender_id m = Some (u_id current_user) ->
     endpoint (mark_message_as_read message_id current_user) s
     = (Raise (HTTPException 400 "Cannot mark your own message as read"),
        s))
    /\ (m_sender_id m <> Some (u_id current_user) ->
        let read_event :=
          {| ws_type := MESSAGE_READ;
             ws_data :=
               WSMessageRead (m_conversation_id m) message_id
                 (u_id current_user) (u_username current_user) (clock s);
             ws_timestamp := S (clock s) |} in
        let delivery :=
          broadcast_to_conversation (broken_sockets s) (pkg_manager s)
            read_event (m_conversation_id m) (Some (u_id current_user)) in
        let read_message :=
          {| m_id := m_id m; m_conversation_id := m_conversation_id m;
             m_sender_id := m_sender_id m; m_content := m_content m;
             m_file_url := m_file_url m; m_file_type := m_file_type m;
             m_file_name := m_file_name m; m_created_at := m_created_at m;
             m_edited_at := m_edited_at m; m_is_deleted := m_is_deleted m;
             m_delivered_at := m_delivered_at m;
             m_read_at := Some (clock s);
             m_read_by_user_id := Some (u_id current_user) |} in
        let read_participant :=
          {| cp_conversation_id := cp_conversation_id p;
             cp_user_id := cp_user_id p; cp_joined_at := cp_joined_at p;
             cp_last_read_message_id := Some message_id |} in
        endpoint (mark_message_as_read message_id current_user) s
        = (Ok {| rr_message_id := message_id; rr_read_at := clock s;
                 rr_read_by_user_id := u_id current_user |},
           {| database :=
                with_participants
                  (with_messages (database s)
                     (map (fun m0 =>
                             if m_id m0 =? message_id then read_message
                             else m0)
                        (messages (database s))))
                  (map (fun p0 =>
                          if is_participant (m_conversation_id m)
                               (u_id current_user) p0
                          then read_participant
                          else p0)
                     (conversation_participants (database s)));
              pkg_manager := fst delivery;
              mod_manager := mod_manager s;
              wire := wire s ++ snd delivery;
              broken_sockets := broken_sockets s;
              clock := S (S (clock s));
              next_uuid := next_uuid s |})
        /\ (forall v ws msg,
              In (ws_send_json v ws msg) (snd delivery) ->
              msg = read_event
              /\ tracks (pkg_manager s) v (m_conversation_id m) = true
              /\ v <> u_id current_user)
        /\ (forall v ws,
              tracks (pkg_manager s) v (m_conversation_id m) = true ->
              v <> u_id current_user ->
              dict_get v (active_connections (pkg_manager s)) = Some ws ->
              raises (broken_sockets s) ws = false ->
              In (ws_send_json v ws read_event) (snd delivery))).
Proof.
  intros s message_id m p current_user Hm Hp.
  assert (Hid : m_id m = message_id).
  { apply Nat.eqb_eq.
    exact (filter_one_holds (fun m0 => m_id m0 =? message_id) _ Hm). }
  subst message_id.
  assert (Hrow : cp_conversation_id p = m_conversation_id m
                 /\ cp_user_id p = u_id current_user).
  { pose proof (filter_one_holds
                  (is_participant (m_conversation_id m) (u_id current_user))
                  _ Hp) as H.
    unfold is_participant in H. apply andb_true_iff in H.
    destruct H as [H1 H2]. split; now apply Nat.eqb_eq. }
  destruct Hrow as [E1 E2]. split.
  - intros Hsender.
    unfold endpoint, mark_message_as_read, bind, select. cbn.
    rewrite Hm. cbn. rewrite Hp. cbn. rewrite Hsender, opt_eqb_refl.
    reflexivity.
  - intros Hother read_event delivery read_message read_participant.
    split; [|split].
    + unfold endpoint, mark_message_as_read, bind, select, refresh,
        bind, select.
      cbn. rewrite Hm. cbn. rewrite Hp. cbn.
      rewrite (opt_eqb_false Hother). cbn.
      rewrite (filter_replace (fun m0 => m_id m0 =? m_id m)
                 (Message_read m (clock s) (u_id current_user))
                 (messages (database s)) (m:=m));
        [|cbn; apply Nat.eqb_refl|exact Hm].
      cbn. rewrite E1, E2. reflexivity.
    + intros v ws msg Hin.
      apply broadcast_to_conversation_sound in Hin.
      destruct Hin as (-> & Ht & Hx). repeat split; [exact Ht|].
      congruence.
    + intros v ws Ht Hne Hget Hok.
      apply broadcast_to_conversation_complete; try assumption.
      congruence.
Qed.

(** The same member marks the same message read twice, and the second
    call succeeds like the first; it overwrites the read time and bob is
    sent a second MESSAGE_READ. *)
Lemma mark_message_as_read_twice :
  let s1 := after (mark_message_as_read 20 alice) demo_online in
  let s2 := after (mark_message_as_read 20 alice) s1 in
  fst (endpoint (mark_message_as_read 20 alice) demo_online)
  = Ok {| rr_message_id := 20; rr_read_at := 1004;
          rr_read_by_user_id := 1 |}
  /\ fst (endpoint (mark_message_as_read 20 alice) s1)
     = Ok {| rr_message_id := 20; rr_read_at := 1006;
             rr_read_by_user_id := 1 |}
  /\ map m_read_at (messages (database s1)) = [Some 1004; None; None]
  /\ map m_read_at (messages (database s2)) = [Some 1006; None; None]
  /\ map ws_type (received s2 2) = [CONNECTED; MESSAGE_READ; MESSAGE_READ].
Proof.
  vm_compute. repeat split.
Qed.

(** C4 fails on the code.  The MESSAGE_READ event does not go to the
    members of the conversation other than the reader; it goes to the
    users the package manager lists for the conversation, and that list
    follows neither a leave nor an addition.
    - alice and bob are connected and in group 10 (with carol).  alice
      leaves; bob then marks message 21 read: the event is written to the
      socket of alice, who is no longer a member.
    - alice and bob are connected; alice adds bob to her group 13, which
      stores message 500; alice marks it read: bob, a member and
      connected, gets nothing.
    Nor is the pointer only advanced: alice marks 21, then 20, then 21
    again, and [last_read_message_id] follows each call, back and forth. *)
Theorem C4_read_event_misses_members :
  let s1 := after (leave_conversation 10 alice) demo_online in
  let s2 := after (mark_message_as_read 21 bob) s1 in
  let t1 := after (add_participant 13 2 alice) demo_solo_online in
  let t2 := after (mark_message_as_read 500 alice) t1 in
  let p1 := after (mark_message_as_read 21 alice) demo in
  let p2 := after (mark_message_as_read 20 alice) p1 in
  let p3 := after (mark_message_as_read 21 alice) p2 in
  (member s1 10 1 = false
   /\ member s1 10 2 = true
   /\ fst (endpoint (mark_message_as_read 21 bob) s1)
      = Ok {| rr_message_id := 21; rr_read_at := 1005;
              rr_read_by_user_id := 2 |}
   /\ map (fun m => (m_read_at m, m_read_by_user_id m))
        (filter (fun m => m_id m =? 21) (messages (database s2)))
      = [(Some 1005, Some 2)]
   /\ received s2 1
      = received s1 1
        ++ [{| ws_type := MESSAGE_READ;
               ws_data := WSMessageRead 10 21 2 "bob" 1005;
               ws_timestamp := 1006 |}])
  /\ (member t1 13 1 = true
      /\ member t1 13 2 = true
      /\ is_user_online (pkg_manager t1) 2 = true
      /\ map m_conversation_id
           (filter (fun m => m_id m =? 500) (messages (database t1)))
         = [13]
      /\ fst (endpoint (mark_message_as_read 500 alice) t1)
         = Ok {| rr_message_id := 500; rr_read_at := 1006;
                 rr_read_by_user_id := 1 |}
      /\ received t2 2 = received t1 2)
  /\ (last_read demo 10 1 = [None]
      /\ last_read p1 10 1 = [Some 21]
      /\ last_read p2 10 1 = [Some 20]
      /\ last_read p3 10 1 = [Some 21]).
Proof.
  vm_compute. repeat split.
Qed.

(** ** Reactions *)

Lemma filter_comm {A} (P Q : A -> bool) l :
  filter P (filter Q l) = filter Q (filter P l).
Proof.
  induction l as [|a l IH]; cbn; [reflexivity|].
  destruct (Q a) eqn:EQ, (P a) eqn:EP; cbn;
    rewrite ?EQ, ?EP, IH; reflexivity.
Qed.

(** C7, as the claim states it, fails: alice has reacted "+1" to message
    20 of group 10 and then leaves the group.  The triple is stored, and
    adding it again does not return the stored row: the request is
    refused (403), because the membership check comes first. *)
Lemma C7_former_member_refused :
  let s1 := after (leave_conversation 10 alice) demo in
  member s1 10 1 = false
  /\ filter (same_reaction 20 1 "+1") (message_reactions (database s1))
     = [{| mr_id := 40; mr_message_id := 20; mr_user_id := 1;
           mr_emoji := "+1"; mr_created_at := 0 |}]
  /\ endpoint (add_reaction 20 "+1" alice) s1
     = (Raise (HTTPException 403
                 "You are not a participant in this conversation"), s1).
Proof.
  vm_compute. repeat split.
Qed.

(** C7, amended. For a message that exists.  Adding: a user who is not a
    participant of the conversation of the message is refused (403) and
    nothing changes, whether the triple is stored or not; a participant
    who adds a reaction that is stored already gets the stored row back,
    and nothing changes, so that nothing is sent; a participant who adds
    one that is not stored gets one new row, the only one of that triple,
    and the REACTION_ADDED event is written to the session of every user
    the package manager lists for the conversation whose socket takes it,
    the caller included, and to nobody else.  Removing, which asks for no
    membership: a reaction that is not stored is refused with 404 and
    nothing changes; a stored one loses its row, and REACTION_REMOVED is
    written to the same sessions. *)
Theorem C7_reactions :
  forall (s : Server) (message_id : UUID) (m : Message) (emoji : string)
         (current_user : User),
    filter (fun m0 => m_id m0 =? message_id) (messages (database s)) = [m] ->
    let stored :=
      filter (same_reaction message_id (u_id current_user) emoji)
        (message_reactions (database s)) in
    let conversation_id := m_conversation_id m in
    (* add, by someone who is not a participant *)
    (filter (is_participant conversation_id (u_id current_user))
       (conversation_participants (database s)) = [] ->
     endpoint (add_reaction message_id emoji current_user) s
     = (Raise (HTTPException 403
                 "You are not a participant in this conversation"), s))
    (* add, by a participant *)
    /\ (forall p,
          filter (is_participant conversation_id (u_id current_user))
            (conversation_participants (database s)) = [p] ->
          (forall r,
             stored = [r] ->
             endpoint (add_reaction message_id emoji current_user) s
             = (Ok {| rresp_reaction := r;
                      rresp_user_username := u_username current_user;
                      rresp_user_display_name :=
                        u_display_name current_user |},
                s))
          /\ (stored = [] ->
              let r := {| mr_id := next_uuid s; mr_message_id := message_id;
                          mr_user_id := u_id current_user; mr_emoji := emoji;
                          mr_created_at := clock s |} in
              let event :=
                {| ws_type := REACTION_ADDED;
                   ws_data :=
                     WSReactionAdded conversation_id message_id
                       (u_id current_user) (u_username current_user) emoji
                       (clock s);
                   ws_timestamp := clock s |} in
              let delivery :=
                broadcast_to_conversation (broken_sockets s) (pkg_manager s)
                  event conversation_id None in
              let s' :=
                {| database :=
                     with_reactions (database s)
                       (message_reactions (database s) ++ [r]);
                   pkg_manager := fst delivery;
                   mod_manager := mod_manager s;
                   wire := wire s ++ snd delivery;
                   broken_sockets := broken_sockets s;
                   clock := S (clock s);
                   next_uuid := S (next_uuid s) |} in
              endpoint (add_reaction message_id emoji current_user) s
              = (Ok {| rresp_reaction := r;
                       rresp_user_username := u_username current_user;
                       rresp_user_display_name :=
                         u_display_name current_user |},
                 s')
              /\ filter (same_reaction message_id (u_id current_user) emoji)
                   (message_reactions (database s')) = [r]
              /\ (forall v ws,
                    tracks (pkg_manager s) v conversation_id = true ->
                    dict_get v (active_connections (pkg_manager s))
                    = Some ws ->
                    raises (broken_sockets s) ws = false ->
                    In (ws_send_json v ws event) (snd delivery))
              /\ (forall v ws msg,
                    In (ws_send_json v ws msg) (snd delivery) ->
                    msg = event
                    /\ tracks (pkg_manager s) v conversation_id = true)))
    (* remove *)
    /\ (stored = [] ->
        endpoint (remove_reaction message_id emoji current_user) s
        = (Raise (HTTPException 404 "Reaction not found"), s))
    /\ (forall r,
          stored = [r] ->
          let event :=
            {| ws_type := REACTION_REMOVED;
               ws_data :=
                 WSReactionRemoved conversation_id message_id
                   (u_id current_user) emoji;
               ws_timestamp := clock s |} in
          let delivery :=
            broadcast_to_conversation (broken_sockets s) (pkg_manager s)
              event conversation_id None in
          let s' :=
            {| database :=
                 with_reactions (database s)
                   (filter (fun r0 => negb (mr_id r0 =? mr_id r))
                      (message_reactions (database s)));
               pkg_manager := fst delivery;
               mod_manager := mod_manager s;
               wire := wire s ++ snd delivery;
               broken_sockets := broken_sockets s;
               clock := S (clock s);
               next_uuid := next_uuid s |} in
          endpoint (remove_reaction message_id emoji current_user) s
          = (Ok "Reaction removed successfully", s')
          /\ filter (same_reaction message_id (u_id current_user) emoji)
               (message_reactions (database s')) = []
          /\ (forall v ws,
                tracks (pkg_manager s) v conversation_id = true ->
                dict_get v (active_connections (pkg_manager s)) = Some ws ->
                raises (broken_sockets s) ws = false ->
                In (ws_send_json v ws event) (snd delivery))
          /\ (forall v ws msg,
                In (ws_send_json v ws msg) (snd delivery) ->
                msg = event
                /\ tracks (pkg_manager s) v conversation_id = true)).
Proof.
  intros s message_id m emoji current_user Hm stored conversation_id.
  subst stored conversation_id.
  assert (Hcomplete :
            forall event v ws,
              tracks (pkg_manager s) v (m_conversation_id m) = true ->
              dict_get v (active_connections (pkg_manager s)) = Some ws ->
              raises (broken_sockets s) ws = false ->
              In (ws_send_json v ws event)
                 (snd (broadcast_to_conversation (broken_sockets s)
                         (pkg_manager s) event (m_conversation_id m) None))).
  { intros event v ws Ht Hget Hok.
    apply broadcast_to_conversation_complete; try assumption.
    discriminate. }
  assert (Hsound :
            forall event v ws msg,
              In (ws_send_json v ws msg)
                 (snd (broadcast_to_conversation (broken_sockets s)
                         (pkg_manager s) event (m_conversation_id m) None)) ->
              msg = event
              /\ tracks (pkg_manager s) v (m_conversation_id m) = true).
  { intros event v ws msg Hin.
    apply broadcast_to_conversation_sound in Hin.
    destruct Hin as (-> & Ht & _). split; [reflexivity|exact Ht]. }
  destruct s as [db pm mm w bs c n].
  cbn in Hm, Hcomplete, Hsound |- *. split; [|split; [|split]].
  - intros Hout.
    unfold endpoint, add_reaction, bind, select. cbn.
    rewrite Hm. cbn. rewrite Hout. reflexivity.
  - intros p Hp. split.
    + intros r Hr.
      unfold endpoint, add_reaction, bind, select. cbn.
      rewrite Hm. cbn. rewrite Hp. cbn. rewrite Hr. reflexivity.
    + intros Hnone. split; [|split; [|split]].
      * unfold endpoint, add_reaction, bind, select. cbn.
        rewrite Hm. cbn. rewrite Hp. cbn. rewrite Hnone. reflexivity.
      * rewrite filter_app, Hnone. cbn.
        unfold same_reaction. cbn.
        now rewrite !Nat.eqb_refl, String.eqb_refl.
      * apply Hcomplete.
      * apply Hsound.
  - intros Hnone.
    unfold endpoint, remove_reaction, bind, select. cbn.
    rewrite Hm. cbn. rewrite Hnone. reflexivity.
  - intros r Hr. split; [|split; [|split]].
    + unfold endpoint, remove_reaction, bind, select. cbn.
      rewrite Hm. cbn. rewrite Hr. reflexivity.
    + cbn. rewrite filter_comm, Hr. cbn.
      now rewrite Nat.eqb_refl.
    + apply Hcomplete.
    + apply Hsound.
Qed.

Lemma C7_reactions_witness :
  endpoint (add_reaction 20 "+1" dave) demo
  = (Raise (HTTPException 403
              "You are not a participant in this conversation"), demo)
  /\ endpoint (add_reaction 20 "+1" alice) demo
     = (Ok {| rresp_reaction :=
                {| mr_id := 40; mr_message_id := 20; mr_user_id := 1;
                   mr_emoji := "+1"; mr_created_at := 0 |};
              rresp_user_username := "alice";
              rresp_user_display_name := "Alice" |},
        demo)
  /\ fst (endpoint (add_reaction 20 "+1" bob) demo)
     = Ok {| rresp_reaction :=
               {| mr_id := 500; mr_message_id := 20; mr_user_id := 2;
                  mr_emoji := "+1"; mr_created_at := 1000 |};
             rresp_user_username := "bob";
             rresp_user_display_name := "Bob" |}
  /\ endpoint (remove_reaction 20 "+1" bob) demo
     = (Raise (HTTPException 404 "Reaction not found"), demo)
  /\ fst (endpoint (remove_reaction 20 "+1" alice) demo)
     = Ok "Reaction removed successfully"
  /\ In (ws_send_json 1 101
           {| ws_type := REACTION_ADDED;
              ws_data := WSReactionAdded 10 20 2 "bob" "+1" 1000;
              ws_timestamp := 1000 |})
        (wire (after (add_reaction 20 "+1" bob) demo_listening))
  /\ In (ws_send_json 2 102
           {| ws_type := REACTION_REMOVED;
              ws_data := WSReactionRemoved 10 20 1 "+1";
              ws_timestamp := 1000 |})
        (wire (after (remove_reaction 20 "+1" alice) demo_listening)).
Proof.
  pose (m := hd (mk_message 0 0 None "") (messages demo_db)).
  pose proof (C7_reactions demo 20 (m:=m) "+1" dave eq_refl) as Hd.
  pose proof (C7_reactions demo 20 (m:=m) "+1" alice eq_refl) as Ha.
  pose proof (C7_reactions demo 20 (m:=m) "+1" bob eq_refl) as Hb.
  pose proof (C7_reactions demo_listening 20 (m:=m) "+1" bob eq_refl) as Lb.
  pose proof (C7_reactions demo_listening 20 (m:=m) "+1" alice eq_refl)
    as La.
  cbv zeta in Hd, Ha, Hb, Lb, La.
  destruct Hd as (Hd_out & _).
  destruct Ha as (_ & Ha_add & _ & Ha_rm).
  destruct Hb as (_ & Hb_add & Hb_rm & _).
  destruct Lb as (_ & Lb_add & _).
  destruct La as (_ & _ & _ & La_rm).
  destruct (proj2 (Lb_add (mk_participant 10 2) eq_refl) eq_refl)
    as (Lb_run & _ & Lb_sent & _).
  destruct (La_rm _ eq_refl) as (La_run & _ & La_sent & _).
  repeat apply conj.
  - exact (Hd_out eq_refl).
  - exact (proj1 (Ha_add (mk_participant 10 1) eq_refl) _ eq_refl).
  - exact (f_equal fst
             (proj1 (proj2 (Hb_add (mk_participant 10 2) eq_refl) eq_refl))).
  - exact (Hb_rm eq_refl).
  - exact (f_equal fst (proj1 (Ha_rm _ eq_refl))).
  - unfold after. rewrite Lb_run. cbn [snd wire]. apply in_or_app. right.
    exact (Lb_sent 1 101 eq_refl eq_refl eq_refl).
  - unfold after. rewrite La_run. cbn [snd wire]. apply in_or_app. right.
    exact (La_sent 2 102 eq_refl eq_refl eq_refl).
Defined.

(** ** Friend requests *)

Lemma filter_all_false {A} (P : A -> bool) l :
  (forall a, In a l -> P a = false) -> filter P l = [].
Proof.
  induction l as [|a l IH]; cbn; intros H; [reflexivity|].
  rewrite (H a) by now left. apply IH. intros b Hb. apply H. now right.
Qed.

Lemma no_other_row (l : list Friendship) (f : Friendship) (a b : UUID) :
  filter (between a b) l = [f] ->
  filter (fun f0 => negb (f_id f0 =? f_id f)
                    && (f_user_id f0 =? a) && (f_friend_id f0 =? b)) l
  = [].
Proof.
  intros Hf. apply filter_all_false. intros x Hx.
  destruct (f_user_id x =? a) eqn:Ea, (f_friend_id x =? b) eqn:Eb;
    rewrite ?andb_false_r; try reflexivity.
  assert (x = f) as ->.
  { apply (filter_one_only (between a b) l); [exact Hf|exact Hx|].
    unfold between. now rewrite Ea, Eb. }
  now rewrite Nat.eqb_refl.
Qed.

(** C8. When the two users already share a friendship row, a request to
    an existing user is refused if the row is pending (400), accepted
    (400) or blocked (403), and nothing changes; if the row is rejected,
    that same row is rewritten, with the caller as requester, the target
    as recipient and status pending, and no row is added. *)
Theorem C8_friend_request :
  forall (s : Server) (friend_id : UUID) (current_user target : User)
         (f : Friendship),
    friend_id <> u_id current_user ->
    filter (fun u => u_id u =? friend_id) (users (database s)) = [target] ->
    filter (between (u_id current_user) friend_id)
      (friendships (database s)) = [f] ->
    filter (fun f0 => f_id f0 =? f_id f) (friendships (database s)) = [f] ->
    match f_status f with
    | pending =>
        endpoint (send_friend_request friend_id current_user) s
        = (Raise (HTTPException 400
                    "Friend request already sent or received"), s)
    | accepted =>
        endpoint (send_friend_request friend_id current_user) s
        = (Raise (HTTPException 400 "Already friends with this user"), s)
    | blocked =>
        endpoint (send_friend_request friend_id current_user) s
        = (Raise (HTTPException 403
                    "Cannot send friend request to this user"), s)
    | rejected =>
        let f' := {| f_id := f_id f; f_user_id := u_id current_user;
                     f_friend_id := friend_id; f_status := pending;
                     f_created_at := f_created_at f;
                     f_updated_at := clock s |} in
        let rows :=
          map (fun f0 => if f_id f0 =? f_id f then f' else f0)
            (friendships (database s)) in
        endpoint (send_friend_request friend_id current_user) s
        = (Ok f',
           {| database := with_friendships (database s) rows;
              pkg_manager := pkg_manager s;
              mod_manager := mod_manager s;
              wire := wire s;
              broken_sockets := broken_sockets s;
              clock := clock s;
              next_uuid := next_uuid s |})
        /\ List.length rows = List.length (friendships (database s))
        /\ filter (between (u_id current_user) friend_id) rows = [f']
    end.
Proof.
  intros s friend_id current_user target f Hself Htarget Hf Hpk.
  assert (Hne : (friend_id =? u_id current_user) = false)
    by now apply Nat.eqb_neq.
  assert (Hne' : (u_id current_user =? friend_id) = false)
    by (apply Nat.eqb_neq; congruence).
  destruct (f_status f) eqn:Hst.
  - unfold endpoint, send_friend_request, bind, select. cbn.
    rewrite Hne. cbn. rewrite Htarget. cbn. rewrite Hf. cbn.
    rewrite Hst. reflexivity.
  - unfold endpoint, send_friend_request, bind, select. cbn.
    rewrite Hne. cbn. rewrite Htarget. cbn. rewrite Hf. cbn.
    rewrite Hst. reflexivity.
  - cbv zeta. split; [|split].
    + destruct s as [db pm mm w bs c n]. cbn in *.
      unfold endpoint, send_friend_request, bind, select, refresh,
        bind, select.
      cbn. rewrite Hne. cbn. rewrite Htarget. cbn. rewrite Hf. cbn.
      rewrite Hst. cbn. unfold commit, flush, bind. cbn. rewrite Hne'.
      rewrite (@no_other_row _ _ _ _ Hf). cbn.
      rewrite (filter_replace (fun f0 => f_id f0 =? f_id f) _ _ (m:=f));
        [reflexivity | cbn; apply Nat.eqb_refl | exact Hpk].
    + apply length_map.
    + assert (Hbetween : forall x, (fun f0 => f_id f0 =? f_id f) x = true ->
                                   In x (friendships (database s)) ->
                                   between (u_id current_user) friend_id x
                                   = true).
      { intros x Hx Hin.
        rewrite (filter_one_only _ _ x Hpk Hin Hx).
        exact (filter_one_holds _ _ Hf). }
      revert Hf Hpk Hbetween.
      generalize (friendships (database s)) as l.
      induction l as [|a l IH]; cbn; [discriminate|].
      intros Hf Hpk Hb.
      destruct (f_id a =? f_id f) eqn:Ea.
      * rewrite (Hb a Ea (or_introl eq_refl)) in Hf.
        injection Hf as _ Hf. injection Hpk as _ Hpk.
        unfold between at 1. cbn. rewrite !Nat.eqb_refl. cbn. f_equal.
        apply filter_all_false. intros x Hx. apply in_map_iff in Hx.
        destruct Hx as (y & <- & Hy).
        assert (Hyid : (f_id y =? f_id f) = false).
        { destruct (f_id y =? f_id f) eqn:E; [|reflexivity].
          assert (In y (filter (fun f0 => f_id f0 =? f_id f) l))
            by (apply filter_In; auto).
          rewrite Hpk in H. destruct H. }
        rewrite Hyid.
        destruct (between (u_id current_user) friend_id y) eqn:E;
          [|reflexivity].
        assert (In y (filter (between (u_id current_user) friend_id) l))
          by (apply filter_In; auto).
        rewrite Hf in H. destruct H.
      * destruct (between (u_id current_user) friend_id a) eqn:Eb.
        -- injection Hf as -> _. now rewrite Nat.eqb_refl in Ea.
        -- apply IH; [exact Hf|exact Hpk|].
           intros x Hx Hin. apply Hb; [exact Hx|now right].
  - unfold endpoint, send_friend_request, bind, select. cbn.
    rewrite Hne. cbn. rewrite Htarget. cbn. rewrite Hf. cbn.
    rewrite Hst. reflexivity.
Qed.

Lemma C8_friend_request_witness :
  endpoint (send_friend_request 2 alice) demo
  = (Raise (HTTPException 400 "Already friends with this user"), demo)
  /\ endpoint (send_friend_request 3 bob) demo
     = (Raise (HTTPException 400 "Friend request already sent or received"),
        demo)
  /\ endpoint (send_friend_request 4 alice) demo
     = (Raise (HTTPException 403 "Cannot send friend request to this user"),
        demo)
  /\ fst (endpoint (send_friend_request 3 alice) demo)
     = Ok {| f_id := 31; f_user_id := 1; f_friend_id := 3;
             f_status := pending; f_created_at := 0;
             f_updated_at := 1000 |}.
Proof.
  split; [|split; [|split]].
  - exact (C8_friend_request demo (friend_id:=2) alice (target:=bob)
             (f:=mk_friendship 30 1 2 accepted)
             ltac:(discriminate) eq_refl eq_refl eq_refl).
  - exact (C8_friend_request demo (friend_id:=3) bob (target:=carol)
             (f:=mk_friendship 32 2 3 pending)
             ltac:(discriminate) eq_refl eq_refl eq_refl).
  - exact (C8_friend_request demo (friend_id:=4) alice (target:=dave)
             (f:=mk_friendship 33 4 1 blocked)
             ltac:(discriminate) eq_refl eq_refl eq_refl).
  - exact (f_equal fst
             (proj1 (C8_friend_request demo (friend_id:=3) alice
                       (target:=carol) (f:=mk_friendship 31 3 1 rejected)
                       ltac:(discriminate) eq_refl eq_refl eq_refl))).
Defined.

(** ** Membership and delivery *)

(** C1 fails on the code. alice and bob are connected and both in group
    10.  alice leaves; the database no longer has her as a participant,
    but the directory of the manager still lists group 10 for her
    ([remove_user_from_conversation] is never called), and when bob then
    reacts to a message of the group the event is written to her socket.
    The same happens to carol after the creator removed her. *)
Theorem C1_left_member_still_receives :
  let s1 := after (leave_conversation 10 alice) demo_online in
  let s2 := after (add_reaction 20 "+1" bob) s1 in
  let t0 := after (websocket_endpoint 103 (Some carol)) demo_online in
  let t1 := after (remove_participant 10 3 alice) t0 in
  let t2 := after (add_reaction 20 "+1" bob) t1 in
  (member demo_online 10 1 = true
   /\ member s1 10 1 = false
   /\ member s2 10 1 = false
   /\ tracks (pkg_manager s2) 1 10 = true
   /\ received s2 1
      = received s1 1
        ++ [{| ws_type := REACTION_ADDED;
               ws_data := WSReactionAdded 10 20 2 "bob" "+1" 1005;
               ws_timestamp := 1005 |}])
  /\ (member t0 10 3 = true
      /\ member t1 10 3 = false
      /\ received t2 3
         = received t1 3
           ++ [{| ws_type := REACTION_ADDED;
                  ws_data := WSReactionAdded 10 20 2 "bob" "+1" 1006;
                  ws_timestamp := 1006 |}]).
Proof.
  vm_compute. repeat split.
Qed.

(** C2 fails on the code. [create_conversation] counts nothing: a request
    for a group with 100 other users is served, and the new group has 101
    participants. *)
Theorem C2_create_group_exceeds_cap :
  let creator := mk_user 1 "user" "User" in
  let s := after (create_conversation big_group creator) crowded in
  (exists r,
     fst (endpoint (create_conversation big_group creator) crowded) = Ok r
     /\ cr_id r = 500
     /\ List.length (cr_participants r) = 101)
  /\ List.length
       (filter (in_conversation 500)
          (conversation_participants (database s))) = 101.
Proof.
  vm_compute. split; [eexists|]; repeat split.
Qed.

(** The two other ways into a group do count: a group that has 100
    participants takes no further one, and nothing changes. *)
Lemma add_participant_full (s : Server) (conversation_id user_id : UUID)
    (c : Conversation) (current_user : User) :
  filter (fun c0 => c_id c0 =? conversation_id) (conversations (database s))
  = [c] ->
  c_type c = group ->
  c_created_by c = u_id current_user ->
  100 <= List.length
           (filter (in_conversation conversation_id)
              (conversation_participants (database s))) ->
  endpoint (add_participant conversation_id user_id current_user) s
  = (Raise (HTTPException 400 "Group has reached maximum 100 members"), s).
Proof.
  intros Hc Hg Hown Hfull.
  unfold endpoint, add_participant, bind, select.
  cbn -[Nat.leb]. rewrite Hc. cbn -[Nat.leb].
  rewrite Hg, Hown, Nat.eqb_refl. cbn -[Nat.leb].
  apply Nat.leb_le in Hfull. now rewrite Hfull.
Qed.

Lemma add_participants_batch_full (s : Server) (conversation_id : UUID)
    (user_ids : list UUID) (c : Conversation) (current_user : User) :
  filter (fun c0 => c_id c0 =? conversation_id) (conversations (database s))
  = [c] ->
  c_type c = group ->
  c_created_by c = u_id current_user ->
  100 < List.length
          (filter (in_conversation conversation_id)
             (conversation_participants (database s)))
        + List.length user_ids ->
  exists detail,
    endpoint (add_participants_batch conversation_id user_ids current_user) s
    = (Raise (HTTPException 400 detail), s).
Proof.
  intros Hc Hg Hown Hfull.
  unfold endpoint, add_participants_batch, bind, select.
  cbn -[Nat.ltb]. rewrite Hc. cbn -[Nat.ltb].
  rewrite Hg, Hown, Nat.eqb_refl. cbn -[Nat.ltb].
  apply Nat.ltb_lt in Hfull. rewrite Hfull. eexists. reflexivity.
Qed.

(** C6 fails on the code. alice, creator of group 11 = {alice, bob},
    removes bob through [remove_participant]: the group is left with one
    member and stays; no system message is stored, nothing is sent, and a
    fetch of the group succeeds. *)
Theorem C6_remove_leaves_one_member :
  let s := after (remove_participant 11 2 alice) demo_online in
  fst (endpoint (remove_participant 11 2 alice) demo_online) = Ok tt
  /\ map cp_user_id
       (filter (in_conversation 11)
          (conversation_participants (database s))) = [1]
  /\ map c_id (conversations (database s)) = [10; 11]
  /\ messages (database s) = messages (database demo_online)
  /\ wire s = wire demo_online
  /\ exists r,
       fst (endpoint (get_conversation 11 alice) s) = Ok r
       /\ map pr_user_id (cr_participants r) = [1].
Proof.
  vm_compute. repeat split. eexists. split; reflexivity.
Qed.

(** Through [leave_conversation] the group does disband, and a fetch then
    answers 404; but the notice for the last member is handed to the
    manager of the module backend/app/websocket/manager.py, which holds no
    session: bob is connected, and his socket gets nothing. *)
Lemma leave_conversation_disbands :
  let s := after (leave_conversation 11 alice) demo_online in
  fst (endpoint (leave_conversation 11 alice) demo_online) = Ok tt
  /\ map c_id (conversations (database s)) = [10]
  /\ filter (in_conversation 11) (conversation_participants (database s))
     = []
  /\ filter (message_in 11) (messages (database s)) = []
  /\ fst (endpoint (get_conversation 11 bob) s)
     = Raise (HTTPException 404
                "Conversation not found or you are not a participant")
  /\ is_user_online (pkg_manager s) 2 = true
  /\ received s 2 = received demo_online 2.
Proof.
  vm_compute. repeat split.
Qed.

(** ** Sending *)

(** Whoever is not a participant is refused, and nothing changes. *)
Lemma send_message_requires_membership (s : Server)
    (message_data : MessageCreate) (current_user : User) :
  filter (is_participant (mc_conversation_id message_data)
            (u_id current_user))
    (conversation_participants (database s)) = [] ->
  endpoint (send_message message_data current_user) s
  = (Raise (HTTPException 403
              "You are not a participant in this conversation"), s).
Proof.
  intros Hp. unfold endpoint, send_message, bind, select. cbn.
  rewrite Hp. reflexivity.
Qed.

(** A participant is refused too.  The handler assigns
    [new_message.created_at] to [conversation.updated_at] before anything
    was flushed, so it assigns [None]; the column does not take it and the
    commit raises.  No message is stored and nothing is broadcast. *)
Lemma send_message_never_commits (s : Server) (message_data : MessageCreate)
    (current_user : User) (p : ConversationParticipant) (c : Conversation) :
  filter (is_participant (mc_conversation_id message_data)
            (u_id current_user))
    (conversation_participants (database s)) = [p] ->
  filter (fun c0 => c_id c0 =? mc_conversation_id message_data)
    (conversations (database s)) = [c] ->
  endpoint (send_message message_data current_user) s
  = (Raise (IntegrityError "conversations.updated_at is not null"), s).
Proof.
  intros Hp Hc. unfold endpoint, send_message, bind, select. cbn.
  rewrite Hp. cbn. rewrite Hc. reflexivity.
Qed.

(** C9 fails on the code. bob, connected and a participant of group 10,
    sends "hi" to it: the request ends in an exception, the database
    and the sockets are as before. *)
Theorem C9_send_message_fails :
  member demo_online 10 2 = true
  /\ is_user_online (pkg_manager demo_online) 2 = true
  /\ endpoint (send_message (hi 10) bob) demo_online
     = (Raise (IntegrityError "conversations.updated_at is not null"),
        demo_online).
Proof.
  split; [reflexivity|]. split; [reflexivity|].
  eapply send_message_never_commits; reflexivity.
Qed.

(** A conversation made while its members are connected is entered in the
    directory of the manager of the module, not in that of the manager
    which holds the sessions and through which messages, edits and
    reactions are broadcast: alice, connected, makes a group with bob,
    connected, and carol; a broadcast to the new group has no target, and
    NEW_CONVERSATION reaches no socket. *)
Lemma create_conversation_registers_elsewhere :
  let request := {| cc_type := group; cc_title := Some "trio";
                    cc_participant_ids := [2; 3] |} in
  let s := after (create_conversation request alice) demo_online in
  map c_id (conversations (database s)) = [10; 11; 500]
  /\ member s 500 1 = true /\ member s 500 2 = true
  /\ tracks (mod_manager s) 1 500 = true
  /\ tracks (mod_manager s) 2 500 = true
  /\ active_connections (mod_manager s) = []
  /\ target_users (pkg_manager s) 500 None = []
  /\ wire s = wire demo_online.
Proof.
  vm_compute. repeat split.
Qed.

(** * Further properties *)

(** ** The manager *)

Lemma dict_mem_In {V} (k : UUID) (d : dict V) :
  dict_get k d = None <-> ~ In k (dict_keys d).
Proof.
  rewrite <- dict_get_In. unfold dict_mem.
  destruct (dict_get k d); split; intros H; congruence.
Qed.

Lemma dict_get_del_same {V} (k : UUID) (d : dict V) :
  NoDup (dict_keys d) -> dict_get k (dict_del k d) = None.
Proof.
  intros H. apply dict_mem_In. revert H. unfold dict_keys.
  induction d as [|[k' v'] d IH]; cbn; intros H; [tauto|].
  inversion H as [|? ? Hnot Hrest]; subst.
  destruct (Nat.eqb_spec k k') as [->|Hne]; cbn; [exact Hnot|].
  intros [E|Hin]; [congruence|]. now apply IH.
Qed.

Lemma dict_get_set_other {V} (k k' : UUID) (v : V) (d : dict V) :
  k <> k' -> dict_get k (dict_set k' v d) = dict_get k d.
Proof.
  intros Hne. induction d as [|[k0 v0] d IH]; cbn.
  - destruct (Nat.eqb_spec k k'); [contradiction|reflexivity].
  - destruct (Nat.eqb_spec k' k0) as [->|Hne']; cbn.
    + destruct (Nat.eqb_spec k k0); [contradiction|reflexivity].
    + now rewrite IH.
Qed.

Lemma tracks_get (self : ConnectionManager) (user_id conversation_id : UUID) :
  NoDup (dict_keys (user_conversations self)) ->
  tracks self user_id conversation_id
  = match dict_get user_id (user_conversations self) with
    | Some s => set_mem conversation_id s
    | None => false
    end.
Proof.
  unfold tracks, dict_keys. generalize (user_conversations self) as d.
  induction d as [|[k s] d IH]; cbn -[set_mem]; intros H; [reflexivity|].
  inversion H as [|? ? Hnot Hrest]; subst.
  rewrite (Nat.eqb_sym k user_id).
  destruct (Nat.eqb_spec user_id k) as [->|Hne]; cbn -[set_mem];
    [|now apply IH].
  destruct (set_mem conversation_id s); cbn -[set_mem]; [reflexivity|].
  rewrite IH by assumption.
  apply dict_mem_In in Hnot. now rewrite Hnot.
Qed.

Lemma set_mem_add (x y : UUID) (s : uuid_set) :
  set_mem x (set_add y s) = (x =? y) || set_mem x s.
Proof.
  unfold set_add. destruct (set_mem y s) eqn:E.
  - destruct (Nat.eqb_spec x y) as [->|]; [now rewrite E|reflexivity].
  - unfold set_mem. rewrite existsb_app. cbn.
    rewrite orb_false_r. apply orb_comm.
Qed.

Lemma set_mem_discard (x y : UUID) (s : uuid_set) :
  set_mem x (set_discard y s) = negb (x =? y) && set_mem x s.
Proof.
  unfold set_mem, set_discard. induction s as [|a s IH]; cbn.
  - now rewrite andb_false_r.
  - destruct (Nat.eqb_spec a y) as [->|Hne]; cbn.
    + rewrite IH. destruct (Nat.eqb_spec x y); cbn; reflexivity.
    + rewrite IH. destruct (Nat.eqb_spec x a) as [->|]; cbn.
      * destruct (Nat.eqb_spec a y); [contradiction|reflexivity].
      * reflexivity.
Qed.

Lemma unique_connect self websocket user_id :
  unique_keys self -> unique_keys (fst (connect self websocket user_id)).
Proof.
  intros [Ha Hd]. split; cbn; [now apply NoDup_dict_set|exact Hd].
Qed.

Lemma unique_disconnect self user_id :
  unique_keys self -> unique_keys (disconnect self user_id).
Proof.
  intros [Ha Hd]. split; cbn; now apply NoDup_dict_del.
Qed.

Lemma unique_send broken self message user_id :
  unique_keys self ->
  unique_keys (fst (send_personal_message broken self message user_id)).
Proof.
  intros H. unfold send_personal_message.
  destruct (dict_get user_id (active_connections self)) as [ws|];
    [|exact H].
  destruct (raises broken ws); cbn; [now apply unique_disconnect|exact H].
Qed.

Lemma unique_broadcast broken message user_ids : forall self,
  unique_keys self ->
  unique_keys (fst (broadcast_to_users broken self message user_ids)).
Proof.
  induction user_ids as [|u rest IH]; cbn; intros self H; [exact H|].
  pose proof (unique_send broken message u H) as H1.
  destruct (send_personal_message broken self message u) as [self1 w1].
  specialize (IH self1 H1).
  destruct (broadcast_to_users broken self1 message rest) as [self2 w2].
  exact IH.
Qed.

(** A Python dict holds one value per key.  The association lists that
    stand for the two dictionaries of a manager have this as an invariant
    ([unique_keys]), and every method keeps it; the statements below that
    assume it lose nothing. *)
Lemma unique_keys_kept :
  forall (broken : list WebSocket) (self : ConnectionManager),
    unique_keys self ->
    (forall websocket user_id,
       unique_keys (fst (connect self websocket user_id)))
    /\ (forall user_id, unique_keys (disconnect self user_id))
    /\ (forall user_id conversation_id,
          unique_keys (add_user_to_conversation self user_id conversation_id))
    /\ (forall user_id conversation_id,
          unique_keys
            (remove_user_from_conversation self user_id conversation_id))
    /\ (forall message user_id,
          unique_keys
            (fst (send_personal_message broken self message user_id)))
    /\ (forall message user_ids,
          unique_keys (fst (broadcast_to_users broken self message user_ids)))
    /\ (forall message conversation_id exclude,
          unique_keys
            (fst (broadcast_to_conversation broken self message
                    conversation_id exclude)))
    /\ (forall message exclude,
          unique_keys (fst (broadcast_to_all broken self message exclude))).
Proof.
  intros broken self H. repeat apply conj; intros.
  - now apply unique_connect.
  - now apply unique_disconnect.
  - destruct H as [Ha Hd]. split; cbn; [exact Ha|now apply NoDup_dict_set].
  - destruct H as [Ha Hd]. unfold remove_user_from_conversation.
    destruct (dict_get user_id (user_conversations self));
      split; cbn; try assumption.
    now apply NoDup_dict_set.
  - now apply unique_send.
  - now apply unique_broadcast.
  - now apply unique_broadcast.
  - now apply unique_broadcast.
Qed.

Lemma unique_two_online : unique_keys two_online.
Proof.
  split; cbn; repeat constructor; cbn; intuition discriminate.
Qed.

Lemma dict_del_absent {V} (k : UUID) (d : dict V) :
  ~ In k (dict_keys d) -> dict_del k d = d.
Proof.
  unfold dict_keys. induction d as [|[k' v'] d IH]; cbn; intros H;
    [reflexivity|].
  destruct (Nat.eqb_spec k k') as [->|Hne]; [tauto|].
  rewrite IH; tauto.
Qed.

Lemma dict_del_twice {V} (k : UUID) (d : dict V) :
  NoDup (dict_keys d) -> dict_del k (dict_del k d) = dict_del k d.
Proof.
  intros H. apply dict_del_absent. apply dict_mem_In.
  now apply dict_get_del_same.
Qed.

Lemma tracks_disconnect_other self u v c :
  unique_keys self -> v <> u ->
  tracks (disconnect self u) v c = tracks self v c.
Proof.
  intros H Hne.
  rewrite !tracks_get; [|apply H|apply (unique_disconnect u H)].
  cbn. now rewrite dict_get_del_other.
Qed.

Lemma unique_add self user_id conversation_id :
  unique_keys self ->
  unique_keys (add_user_to_conversation self user_id conversation_id).
Proof.
  intros [Ha Hd]. split; cbn; [exact Ha|now apply NoDup_dict_set].
Qed.

Lemma unique_remove self user_id conversation_id :
  unique_keys self ->
  unique_keys (remove_user_from_conversation self user_id conversation_id).
Proof.
  intros [Ha Hd]. unfold remove_user_from_conversation.
  destruct (dict_get user_id (user_conversations self));
    split; cbn; try assumption.
  now apply NoDup_dict_set.
Qed.

Lemma disconnect_clears self user_id :
  unique_keys self ->
  is_user_online (disconnect self user_id) user_id = false
  /\ (forall c, tracks (disconnect self user_id) user_id c = false).
Proof.
  intros H. pose proof H as [Ha Hd]. split.
  - unfold is_user_online, dict_mem. cbn.
    now rewrite dict_get_del_same.
  - intros c. rewrite tracks_get by apply (unique_disconnect user_id H).
    cbn. now rewrite dict_get_del_same.
Qed.

(** X2. A session that has left is forgotten: after [disconnect] the user
    is offline and listed for no conversation, a second [disconnect]
    changes nothing, and the other users keep their session and their
    conversations. *)
Theorem disconnect_forgets :
  forall (self : ConnectionManager) (user_id : UUID),
    unique_keys self ->
    is_user_online (disconnect self user_id) user_id = false
    /\ (forall c, tracks (disconnect self user_id) user_id c = false)
    /\ disconnect (disconnect self user_id) user_id = disconnect self user_id
    /\ (forall v,
          v <> user_id ->
          dict_get v (active_connections (disconnect self user_id))
          = dict_get v (active_connections self)
          /\ forall c, tracks (disconnect self user_id) v c = tracks self v c).
Proof.
  intros self user_id H. pose proof H as [Ha Hd]. repeat apply conj.
  - apply (disconnect_clears user_id H).
  - apply (disconnect_clears user_id H).
  - unfold disconnect. cbn. now rewrite !dict_del_twice.
  - intros v Hne. split.
    + cbn. now apply dict_get_del_other.
    + intros c. now apply tracks_disconnect_other.
Qed.

Lemma disconnect_forgets_witness :
  is_user_online (disconnect two_online 2) 2 = false
  /\ (forall c, tracks (disconnect two_online 2) 2 c = false)
  /\ disconnect (disconnect two_online 2) 2 = disconnect two_online 2
  /\ (forall v,
        v <> 2 ->
        dict_get v (active_connections (disconnect two_online 2))
        = dict_get v (active_connections two_online)
        /\ forall c, tracks (disconnect two_online 2) v c
                     = tracks two_online v c).
Proof.
  exact (disconnect_forgets 2 unique_two_online).
Defined.

(** X3. A send that fails evicts the session: when [send_json] raises on
    the socket of a user, nothing is written, the user is offline and
    listed for no conversation afterwards, and every other user keeps
    session and conversations. *)
Theorem send_failure_evicts :
  forall (broken : list WebSocket) (self : ConnectionManager)
         (message : WSMessage) (user_id : UUID) (websocket : WebSocket),
    unique_keys self ->
    dict_get user_id (active_connections self) = Some websocket ->
    raises broken websocket = true ->
    let result := send_personal_message broken self message user_id in
    snd result = []
    /\ is_user_online (fst result) user_id = false
    /\ (forall c, tracks (fst result) user_id c = false)
    /\ (forall v,
          v <> user_id ->
          dict_get v (active_connections (fst result))
          = dict_get v (active_connections self)
          /\ forall c, tracks (fst result) v c = tracks self v c).
Proof.
  intros broken self message user_id websocket H Hget Hbad result.
  subst result. unfold send_personal_message. rewrite Hget, Hbad.
  cbn [fst snd]. split; [reflexivity|].
  destruct (disconnect_clears user_id H) as (H1 & H2).
  repeat apply conj; [exact H1|exact H2|].
  intros v Hne. split.
  - cbn. now apply dict_get_del_other.
  - intros c. now apply tracks_disconnect_other.
Qed.

Lemma send_failure_evicts_witness :
  let result :=
    send_personal_message [102] two_online
      {| ws_type := PONG; ws_data := WSConnected 2 "bob" "pong";
         ws_timestamp := 0 |} 2 in
  snd result = []
  /\ is_user_online (fst result) 2 = false
  /\ (forall c, tracks (fst result) 2 c = false)
  /\ (forall v,
        v <> 2 ->
        dict_get v (active_connections (fst result))
        = dict_get v (active_connections two_online)
        /\ forall c, tracks (fst result) v c = tracks two_online v c).
Proof.
  exact (send_failure_evicts [102] _ 2 unique_two_online eq_refl eq_refl).
Defined.

(** X4. The directory is a set per user: after
    [add_user_to_conversation] the conversation is listed for the user,
    after [remove_user_from_conversation] it is not, neither touches
    another user or another conversation, nor any session; removing for a
    user without entry leaves the manager as it is. *)
Theorem directory_add_remove :
  forall (self : ConnectionManager) (user_id conversation_id : UUID),
    unique_keys self ->
    let added := add_user_to_conversation self user_id conversation_id in
    let removed :=
      remove_user_from_conversation self user_id conversation_id in
    tracks added user_id conversation_id = true
    /\ tracks removed user_id conversation_id = false
    /\ (forall v c,
          (v <> user_id \/ c <> conversation_id) ->
          tracks added v c = tracks self v c
          /\ tracks removed v c = tracks self v c)
    /\ active_connections added = active_connections self
    /\ active_connections removed = active_connections self
    /\ (dict_get user_id (user_conversations self) = None ->
        removed = self).
Proof.
  intros self user_id conversation_id H added removed.
  assert (Hadd : unique_keys added) by now apply unique_add.
  assert (Hrem : unique_keys removed) by now apply unique_remove.
  destruct H as [Ha Hd], Hadd as [_ Hadd], Hrem as [_ Hrem].
  repeat apply conj.
  - rewrite tracks_get by assumption. subst added. cbn.
    rewrite dict_get_set, set_mem_add, Nat.eqb_refl. reflexivity.
  - rewrite tracks_get by assumption. subst removed.
    unfold remove_user_from_conversation.
    destruct (dict_get user_id (user_conversations self)) as [s|] eqn:E;
      cbn.
    + rewrite dict_get_set, set_mem_discard, Nat.eqb_refl. reflexivity.
    + now rewrite E.
  - intros v c Hother.
    rewrite !tracks_get by assumption. subst added removed.
    unfold remove_user_from_conversation.
    destruct (Nat.eq_dec v user_id) as [->|Hv].
    + assert (Hc : (c =? conversation_id) = false)
        by (apply Nat.eqb_neq; tauto).
      cbn. rewrite dict_get_set, set_mem_add, Hc.
      destruct (dict_get user_id (user_conversations self)) as [s|] eqn:E;
        cbn; [|now rewrite E].
      now rewrite dict_get_set, set_mem_discard, Hc.
    + cbn. rewrite dict_get_set_other by assumption.
      destruct (dict_get user_id (user_conversations self)); cbn;
        [|tauto].
      now rewrite dict_get_set_other.
  - reflexivity.
  - subst removed. unfold remove_user_from_conversation.
    now destruct (dict_get user_id (user_conversations self)).
  - intros E. subst removed. unfold remove_user_from_conversation.
    now rewrite E.
Qed.

Lemma directory_add_remove_witness :
  tracks (add_user_to_conversation two_online 1 11) 1 11 = true
  /\ tracks (remove_user_from_conversation two_online 2 11) 2 11 = false
  /\ remove_user_from_conversation two_online 3 10 = two_online.
Proof.
  destruct (directory_add_remove 1 11 unique_two_online)
    as (H1 & _).
  destruct (directory_add_remove 2 11 unique_two_online)
    as (_ & H2 & _).
  destruct (directory_add_remove 3 10 unique_two_online)
    as (_ & _ & _ & _ & _ & H3).
  split; [exact H1|]. split; [exact H2|]. exact (H3 eq_refl).
Defined.

Lemma In_keys_get {V} (k : UUID) (d : dict V) :
  In k (dict_keys d) <-> exists v, dict_get k d = Some v.
Proof.
  rewrite <- dict_get_In. unfold dict_mem.
  destruct (dict_get k d) as [v|]; split; intros H;
    try congruence; [now exists v|].
  destruct H as [v H]. discriminate.
Qed.

(** X5. [broadcast_to_all] writes the message, and only it, to users who
    have a session, never to the excluded user, and it reaches every other
    user whose socket takes the message. *)
Theorem broadcast_to_all_recipients :
  forall (broken : list WebSocket) (self : ConnectionManager)
         (message : WSMessage) (exclude : option UUID),
    (forall v ws msg,
       In (ws_send_json v ws msg)
          (snd (broadcast_to_all broken self message exclude)) ->
       msg = message /\ exclude <> Some v
       /\ is_user_online self v = true)
    /\ (forall v ws,
          dict_get v (active_connections self) = Some ws ->
          raises broken ws = false ->
          exclude <> Some v ->
          In (ws_send_json v ws message)
             (snd (broadcast_to_all broken self message exclude))).
Proof.
  intros broken self message exclude. unfold broadcast_to_all. split.
  - intros v ws msg Hin. apply broadcast_to_users_sound in Hin.
    destruct Hin as [Hin ->]. apply filter_In in Hin.
    destruct Hin as [Hkey Hx]. repeat split.
    + intros ->. cbn in Hx. now rewrite Nat.eqb_refl in Hx.
    + now apply dict_get_In.
  - intros v ws Hget Hok Hx.
    apply broadcast_to_users_complete; [|exact Hget|exact Hok].
    apply filter_In. split.
    + apply In_keys_get. now exists ws.
    + destruct exclude as [x|]; cbn; [|reflexivity].
      apply negb_true_iff, Nat.eqb_neq. congruence.
Qed.

Lemma broadcast_to_all_recipients_witness :
  let message := {| ws_type := USER_ONLINE;
                    ws_data := WSUserStatus 2 "bob" "online" None;
                    ws_timestamp := 0 |} in
  In (ws_send_json 1 101 message)
     (snd (broadcast_to_all [] two_online message (Some 2))).
Proof.
  intros message.
  exact (proj2 (broadcast_to_all_recipients [] two_online message (Some 2))
           1 101 eq_refl eq_refl ltac:(discriminate)).
Defined.

Lemma length_dict_set {V} (k : UUID) (v : V) (d : dict V) :
  List.length (dict_set k v d)
  = if dict_mem k d then List.length d else S (List.length d).
Proof.
  unfold dict_mem. induction d as [|[k' v'] d IH]; cbn; [reflexivity|].
  destruct (Nat.eqb_spec k k'); cbn; [reflexivity|].
  rewrite IH. now destruct (dict_get k d).
Qed.

(** X6. Connecting a user who has no session adds one connection;
    connecting a user who has one keeps the number of connections. *)
Theorem connect_counts :
  forall (self : ConnectionManager) (websocket : WebSocket) (user_id : UUID),
    get_connection_count (fst (connect self websocket user_id))
    = if is_user_online self user_id
      then get_connection_count self
      else S (get_connection_count self).
Proof.
  intros. unfold get_connection_count, is_user_online. cbn.
  apply length_dict_set.
Qed.

(** ** Exactly once *)

Lemma deliveries_app (a b : list Wire) (v : UUID) :
  deliveries (a ++ b) v = deliveries a v + deliveries b v.
Proof.
  unfold deliveries. now rewrite filter_app, length_app.
Qed.

Lemma deliveries_send_other broken self message u v :
  u <> v ->
  deliveries (snd (send_personal_message broken self message u)) v = 0.
Proof.
  intros Hne. unfold send_personal_message.
  destruct (dict_get u (active_connections self)) as [ws|]; [|reflexivity].
  destruct (raises broken ws); [reflexivity|].
  unfold deliveries. cbn.
  destruct (Nat.eqb_spec u v); [contradiction|reflexivity].
Qed.

Lemma deliveries_send_le broken self message u v :
  deliveries (snd (send_personal_message broken self message u)) v <= 1.
Proof.
  unfold send_personal_message.
  destruct (dict_get u (active_connections self)) as [ws|]; [|cbn; lia].
  destruct (raises broken ws); [cbn; lia|].
  unfold deliveries. cbn. destruct (u =? v); cbn; lia.
Qed.

Lemma deliveries_absent broken message v user_ids : forall self,
  ~ In v user_ids ->
  deliveries (snd (broadcast_to_users broken self message user_ids)) v = 0.
Proof.
  induction user_ids as [|u rest IH]; cbn; intros self Hnot; [reflexivity|].
  pose proof (@deliveries_send_other broken self message u v) as H1.
  destruct (send_personal_message broken self message u) as [self1 w1].
  specialize (IH self1).
  destruct (broadcast_to_users broken self1 message rest) as [self2 w2].
  cbn [snd] in *. rewrite deliveries_app, H1, IH; tauto.
Qed.

Lemma deliveries_le broken message v user_ids : forall self,
  NoDup user_ids ->
  deliveries (snd (broadcast_to_users broken self message user_ids)) v <= 1.
Proof.
  induction user_ids as [|u rest IH]; cbn; intros self Hnd; [lia|].
  inversion Hnd as [|? ? Hnot Hrest]; subst.
  pose proof (@deliveries_send_other broken self message u v) as H0.
  pose proof (deliveries_send_le broken self message u v) as H1.
  pose proof (fun self1 => @deliveries_absent broken message v rest self1)
    as Habs.
  destruct (send_personal_message broken self message u) as [self1 w1].
  specialize (IH self1 Hrest). specialize (Habs self1).
  destruct (broadcast_to_users broken self1 message rest) as [self2 w2].
  cbn [snd] in *. rewrite deliveries_app.
  destruct (Nat.eq_dec u v) as [->|Hne].
  - rewrite Habs by assumption. lia.
  - rewrite H0 by assumption. lia.
Qed.

Lemma deliveries_ge broken message v ws user_ids : forall self,
  In v user_ids ->
  dict_get v (active_connections self) = Some ws ->
  raises broken ws = false ->
  1 <= deliveries (snd (broadcast_to_users broken self message user_ids)) v.
Proof.
  intros self Hin Hget Hok.
  pose proof (@broadcast_to_users_complete broken message user_ids self
                v ws Hin Hget Hok) as H.
  unfold deliveries.
  assert (Hf : In (ws_send_json v ws message)
                 (filter (fun w => match w with
                                   | ws_send_json u _ _ => u =? v
                                   | _ => false
                                   end)
                    (snd (broadcast_to_users broken self message
                            user_ids)))).
  { apply filter_In. split; [exact H|]. apply Nat.eqb_refl. }
  destruct (filter _ _); [destruct Hf|cbn; lia].
Qed.

Lemma NoDup_map_filter {A B} (f : A -> B) (P : A -> bool) (l : list A) :
  NoDup (map f l) -> NoDup (map f (filter P l)).
Proof.
  induction l as [|a l IH]; cbn; intros H; [constructor|].
  inversion H as [|? ? Hnot Hrest]; subst.
  destruct (P a); cbn; [|auto].
  constructor; [|auto].
  intros Hin. apply Hnot. apply in_map_iff in Hin.
  destruct Hin as (x & Hx & Hf). apply filter_In in Hf.
  apply in_map_iff. exists x. tauto.
Qed.

(** X7. With one directory entry per user, a broadcast to a conversation
    writes at most one message to any user, and exactly one to every
    listed user, other than the excluded one, whose socket takes it. *)
Theorem broadcast_to_conversation_once :
  forall (broken : list WebSocket) (self : ConnectionManager)
         (message : WSMessage) (conversation_id : UUID)
         (exclude : option UUID),
    unique_keys self ->
    let calls :=
      snd (broadcast_to_conversation broken self message conversation_id
             exclude) in
    (forall v, deliveries calls v <= 1)
    /\ (forall v ws,
          tracks self v conversation_id = true ->
          exclude <> Some v ->
          dict_get v (active_connections self) = Some ws ->
          raises broken ws = false ->
          deliveries calls v = 1).
Proof.
  intros broken self message conversation_id exclude [Ha Hd] calls.
  subst calls. unfold broadcast_to_conversation.
  assert (Hnd : NoDup (target_users self conversation_id exclude)).
  { unfold target_users. now apply NoDup_map_filter. }
  split.
  - intros v. now apply (@deliveries_le broken message v _ self).
  - intros v ws Ht Hx Hget Hok.
    assert (Hin : In v (target_users self conversation_id exclude)).
    { apply target_users_spec. split; [exact Ht|].
      destruct exclude as [x|]; cbn; [|reflexivity].
      apply Nat.eqb_neq. congruence. }
    pose proof (@deliveries_le broken message v _ self Hnd).
    pose proof (@deliveries_ge broken message v ws _ self Hin Hget Hok).
    lia.
Qed.

Lemma broadcast_to_conversation_once_witness :
  let message := {| ws_type := TYPING;
                    ws_data := WSUserStatus 2 "bob" "typing" None;
                    ws_timestamp := 0 |} in
  deliveries
    (snd (broadcast_to_conversation [] two_online message 10 (Some 2))) 1
  = 1.
Proof.
  intros message.
  exact (proj2 (broadcast_to_conversation_once [] message 10 (Some 2)
                  unique_two_online)
           1 101 eq_refl ltac:(discriminate) eq_refl eq_refl).
Defined.

(** ** The web-socket endpoint *)

Lemma tracks_add self user_id conversation_id v c :
  unique_keys self ->
  tracks (add_user_to_conversation self user_id conversation_id) v c
  = tracks self v c || ((v =? user_id) && (c =? conversation_id)).
Proof.
  intros H. pose proof (unique_add user_id conversation_id H) as H'.
  rewrite !tracks_get; [|apply H|apply H']. cbn.
  destruct (Nat.eqb_spec v user_id) as [->|Hne]; cbn.
  - rewrite dict_get_set, set_mem_add.
    destruct (dict_get user_id (user_conversations self)); cbn;
      [apply orb_comm|now rewrite orb_false_r].
  - rewrite dict_get_set_other by assumption. now rewrite orb_false_r.
Qed.

Lemma add_all_spec user_id conversation_ids : forall self,
  unique_keys self ->
  unique_keys (add_all user_id conversation_ids self)
  /\ active_connections (add_all user_id conversation_ids self)
     = active_connections self
  /\ forall v c,
       tracks (add_all user_id conversation_ids self) v c
       = tracks self v c
         || ((v =? user_id) && set_mem c conversation_ids).
Proof.
  unfold add_all.
  induction conversation_ids as [|c0 rest IH]; cbn; intros self H.
  - repeat split; try apply H. intros v c.
    now rewrite andb_false_r, orb_false_r.
  - destruct (IH _ (unique_add user_id c0 H)) as (IH1 & IH2 & IH3).
    repeat split; try apply IH1; [exact IH2|].
    intros v c. rewrite IH3, tracks_add by assumption.
    rewrite <- orb_assoc. f_equal.
    destruct (v =? user_id); cbn; reflexivity.
Qed.

Lemma load_user_conversations_run conversation_ids user_id : forall st,
  for_each conversation_ids
    (fun conv_id =>
       call package_manager
         (fun _ self => (add_user_to_conversation self user_id conv_id, [])))
    st
  = (Ok tt,
     with_pkg (add_all user_id conversation_ids (pkg_manager (server st)))
       st).
Proof.
  unfold add_all.
  induction conversation_ids as [|c rest IH]; intros [[db pm mm w bs ck n] vw un].
  - reflexivity.
  - cbn [for_each]. unfold bind at 1. cbn -[for_each fold_left].
    rewrite IH. unfold with_pkg, with_manager. cbn. now rewrite app_nil_r.
Qed.

Lemma broadcast_spares broken message u user_ids : forall self,
  ~ In u user_ids ->
  dict_get u (active_connections
                (fst (broadcast_to_users broken self message user_ids)))
  = dict_get u (active_connections self)
  /\ dict_get u (user_conversations
                   (fst (broadcast_to_users broken self message user_ids)))
     = dict_get u (user_conversations self).
Proof.
  induction user_ids as [|x rest IH]; cbn; intros self Hnot; [auto|].
  assert (Hne : u <> x) by (intros ->; tauto).
  assert (Hs : dict_get u (active_connections
                  (fst (send_personal_message broken self message x)))
               = dict_get u (active_connections self)
               /\ dict_get u (user_conversations
                     (fst (send_personal_message broken self message x)))
                  = dict_get u (user_conversations self)).
  { unfold send_personal_message.
    destruct (dict_get x (active_connections self)) as [ws|]; [|auto].
    destruct (raises broken ws); cbn; [|auto].
    now rewrite !dict_get_del_other. }
  destruct (send_personal_message broken self message x) as [self1 w1].
  specialize (IH self1).
  destruct (broadcast_to_users broken self1 message rest) as [self2 w2].
  cbn in *. destruct IH as [I1 I2]; [tauto|].
  destruct Hs as [S1 S2]. split; congruence.
Qed.

Lemma member_loaded (parts : list ConversationParticipant) (u c : UUID) :
  set_mem c (map cp_conversation_id
               (filter (fun p => cp_user_id p =? u) parts))
  = existsb (is_participant c u) parts.
Proof.
  unfold set_mem, is_participant.
  induction parts as [|p parts IH]; cbn; [reflexivity|].
  destruct (cp_user_id p =? u); cbn.
  - rewrite IH, andb_true_r. now rewrite (Nat.eqb_sym c).
  - now rewrite andb_false_r.
Qed.

Lemma loads_memberships :
  forall (s : Server) (websocket : WebSocket) (user : User),
    unique_keys (pkg_manager s) ->
    raises (broken_sockets s) websocket = false ->
    let s' := after (websocket_endpoint websocket (Some user)) s in
    dict_get (u_id user) (active_connections (pkg_manager s'))
    = Some websocket
    /\ (forall c,
          tracks (pkg_manager s') (u_id user) c
          = tracks (pkg_manager s) (u_id user) c || member s c (u_id user))
    /\ database s' = database s.
Proof.
  intros [db pm mm w bs ck n] websocket user Hu Hok s'.
  cbn [pkg_manager broken_sockets] in Hu, Hok.
  subst s'. unfold after, endpoint, websocket_endpoint,
    load_user_conversations, bind, select.
  cbn -[for_each]. rewrite load_user_conversations_run.
  cbn -[add_all broadcast_to_all send_personal_message].
  set (ids := map cp_conversation_id
                (filter (fun p => cp_user_id p =? u_id user)
                   (conversation_participants db))).
  set (m0 := {| active_connections :=
                  dict_set (u_id user) websocket (active_connections pm);
                user_conversations := user_conversations pm |}).
  assert (H0 : unique_keys m0).
  { destruct Hu as [Ha Hd]. split; cbn; [now apply NoDup_dict_set|exact Hd]. }
  destruct (add_all_spec (u_id user) ids H0) as (H1 & Hact & Htr).
  set (m1 := add_all (u_id user) ids m0) in *.
  assert (Hget : dict_get (u_id user) (active_connections m1)
                 = Some websocket).
  { rewrite Hact. cbn. apply dict_get_set. }
  set (connected := {| ws_type := CONNECTED; ws_data := _;
                       ws_timestamp := ck |}).
  assert (Hsend : send_personal_message bs m1 connected (u_id user)
                  = (m1, [ws_send_json (u_id user) websocket connected])).
  { unfold send_personal_message. now rewrite Hget, Hok. }
  rewrite Hsend. cbn [fst snd].
  set (online := {| ws_type := USER_ONLINE; ws_data := _;
                    ws_timestamp := S ck |}).
  assert (Hnot : ~ In (u_id user)
                   (filter (fun v => negb (eq_opt v (Some (u_id user))))
                      (dict_keys (active_connections m1)))).
  { intros Hin. apply filter_In in Hin. destruct Hin as [_ Hx].
    cbn in Hx. now rewrite Nat.eqb_refl in Hx. }
  destruct (broadcast_spares bs online (u_id user) _ m1 Hnot) as [B1 B2].
  fold (broadcast_to_all bs m1 online (Some (u_id user))) in B1, B2.
  pose proof (unique_broadcast bs online
                (filter (fun v => negb (eq_opt v (Some (u_id user))))
                   (dict_keys (active_connections m1))) H1) as H2.
  fold (broadcast_to_all bs m1 online (Some (u_id user))) in H2.
  unfold commit, flush, bind. cbn -[broadcast_to_all].
  repeat apply conj.
  - now rewrite B1.
  - intros c. rewrite tracks_get by apply H2. rewrite B2.
    rewrite <- tracks_get by apply H1. rewrite Htr.
    rewrite Nat.eqb_refl. cbn [andb]. f_equal.
    subst ids. unfold member. cbn [database]. apply member_loaded.
  - reflexivity.
Qed.

(** X8. Opening a socket loads the memberships from storage: after
    [websocket_endpoint] for an authenticated user on a socket that takes
    messages, the user is online on that socket, and a conversation is
    listed for the user exactly if it was listed before or the database
    has the user as its participant; the database is untouched.  For a
    user without directory entry the list is the membership in
    storage. *)
Theorem websocket_endpoint_loads_memberships :
  forall (s : Server) (websocket : WebSocket) (user : User),
    unique_keys (pkg_manager s) ->
    raises (broken_sockets s) websocket = false ->
    let s' := after (websocket_endpoint websocket (Some user)) s in
    dict_get (u_id user) (active_connections (pkg_manager s'))
    = Some websocket
    /\ (forall c,
          tracks (pkg_manager s') (u_id user) c
          = tracks (pkg_manager s) (u_id user) c || member s c (u_id user))
    /\ database s' = database s.
Proof.
  exact loads_memberships.
Qed.

Lemma websocket_endpoint_loads_memberships_witness :
  let s' := after (websocket_endpoint 103 (Some carol)) demo in
  dict_get 3 (active_connections (pkg_manager s')) = Some 103
  /\ (forall c,
        tracks (pkg_manager s') 3 c
        = tracks (pkg_manager demo) 3 c || member demo c 3)
  /\ database s' = database demo.
Proof.
  apply (websocket_endpoint_loads_memberships demo 103 carol).
  - split; constructor.
  - reflexivity.
Defined.

Lemma disconnected_clears (s : Server) (user : User) :
  unique_keys (pkg_manager s) ->
  let s' := after (websocket_disconnected user) s in
  unique_keys (pkg_manager s')
  /\ dict_get (u_id user) (active_connections (pkg_manager s')) = None
  /\ dict_get (u_id user) (user_conversations (pkg_manager s')) = None
  /\ database s' = database s
  /\ broken_sockets s' = broken_sockets s.
Proof.
  destruct s as [db pm mm w bs ck n]. intros Hu s'.
  cbn [pkg_manager] in Hu. subst s'.
  unfold after, endpoint, websocket_disconnected, bind.
  cbn -[broadcast_to_all disconnect].
  unfold commit, flush, bind. cbn -[broadcast_to_all disconnect].
  set (offline := {| ws_type := USER_OFFLINE; ws_data := _;
                     ws_timestamp := S ck |}).
  pose proof (unique_disconnect (u_id user) Hu) as Hd.
  destruct Hu as [Ha Hc].
  assert (Hgone : dict_get (u_id user)
                    (active_connections (disconnect pm (u_id user))) = None)
    by (cbn; now apply dict_get_del_same).
  assert (Hgone' : dict_get (u_id user)
                     (user_conversations (disconnect pm (u_id user))) = None)
    by (cbn; now apply dict_get_del_same).
  assert (Hnot : ~ In (u_id user)
                   (filter (fun v => negb (eq_opt v None))
                      (dict_keys (active_connections
                                    (disconnect pm (u_id user)))))).
  { intros Hin. apply filter_In in Hin. destruct Hin as [Hin _].
    apply In_keys_get in Hin. destruct Hin as [x Hx]. congruence. }
  destruct (broadcast_spares bs offline (u_id user) _
              (disconnect pm (u_id user)) Hnot) as [B1 B2].
  pose proof (unique_broadcast bs offline
                (filter (fun v => negb (eq_opt v None))
                   (dict_keys (active_connections
                                 (disconnect pm (u_id user))))) Hd) as H2.
  unfold broadcast_to_all.
  repeat apply conj; try reflexivity; try apply H2; congruence.
Qed.

(** X9. Closing a socket forgets the user: after the endpoint handled
    [WebSocketDisconnect] the user is offline and listed for no
    conversation, and the database is untouched. *)
Theorem websocket_disconnected_forgets :
  forall (s : Server) (user : User),
    unique_keys (pkg_manager s) ->
    let s' := after (websocket_disconnected user) s in
    is_user_online (pkg_manager s') (u_id user) = false
    /\ (forall c, tracks (pkg_manager s') (u_id user) c = false)
    /\ database s' = database s.
Proof.
  intros s user Hu s'.
  destruct (@disconnected_clears s user Hu) as (H1 & H2 & H3 & H4 & _).
  fold s' in H1, H2, H3, H4. repeat apply conj.
  - unfold is_user_online, dict_mem. now rewrite H2.
  - intros c. rewrite tracks_get by apply H1. now rewrite H3.
  - exact H4.
Qed.

Lemma websocket_disconnected_forgets_witness :
  let s' := after (websocket_disconnected bob) demo_online in
  is_user_online (pkg_manager s') 2 = false
  /\ (forall c, tracks (pkg_manager s') 2 c = false)
  /\ database s' = database demo_online.
Proof.
  apply (websocket_disconnected_forgets demo_online bob).
  split; vm_compute; repeat constructor; cbn; intuition discriminate.
Defined.

(** X10. Reconnecting repairs the directory: after a disconnect and a new
    connection, the conversations listed for the user are exactly those
    the database has the user in, whatever the directory held before. *)
Theorem reconnect_rebuilds_directory :
  forall (s : Server) (websocket : WebSocket) (user : User),
    unique_keys (pkg_manager s) ->
    raises (broken_sockets s) websocket = false ->
    let s1 := after (websocket_disconnected user) s in
    let s2 := after (websocket_endpoint websocket (Some user)) s1 in
    dict_get (u_id user) (active_connections (pkg_manager s2))
    = Some websocket
    /\ forall c, tracks (pkg_manager s2) (u_id user) c = member s c (u_id user).
Proof.
  intros s websocket user Hu Hok s1 s2.
  destruct (@disconnected_clears s user Hu) as (H1 & H2 & H3 & H4 & H5).
  fold s1 in H1, H2, H3, H4, H5.
  assert (Hok1 : raises (broken_sockets s1) websocket = false)
    by now rewrite H5.
  destruct (@loads_memberships s1 websocket user H1 Hok1) as (L1 & L2 & _).
  fold s2 in L1, L2. split; [exact L1|].
  intros c. rewrite L2.
  rewrite tracks_get by apply H1. rewrite H3. cbn [orb].
  unfold member. now rewrite H4.
Qed.

Lemma reconnect_rebuilds_directory_witness :
  let s0 := after (leave_conversation 10 alice) demo_online in
  let s1 := after (websocket_disconnected alice) s0 in
  let s2 := after (websocket_endpoint 105 (Some alice)) s1 in
  dict_get 1 (active_connections (pkg_manager s2)) = Some 105
  /\ forall c, tracks (pkg_manager s2) 1 c = member s0 c 1.
Proof.
  apply (reconnect_rebuilds_directory
           (after (leave_conversation 10 alice) demo_online) 105 alice).
  - split; vm_compute; repeat constructor; cbn; intuition discriminate.
  - reflexivity.
Defined.

(** ** Friendships *)

Lemma filter_weaker {A} (P Q : A -> bool) (l : list A) :
  (forall a, Q a = true -> P a = true) ->
  filter P l = [] -> filter Q l = [].
Proof.
  intros Himp Hnone. apply filter_all_false. intros a Hin.
  destruct (Q a) eqn:E; [|reflexivity].
  assert (Hf : In a (filter P l)) by (apply filter_In; auto).
  rewrite Hnone in Hf. destruct Hf.
Qed.

Lemma no_other_pair (l : list Friendship) (f : Friendship) :
  filter (fun f0 => (f_user_id f0 =? f_user_id f)
                    && (f_friend_id f0 =? f_friend_id f)) l = [f] ->
  filter (fun f0 => negb (f_id f0 =? f_id f)
                    && (f_user_id f0 =? f_user_id f)
                    && (f_friend_id f0 =? f_friend_id f)) l = [].
Proof.
  intros Hf. apply filter_all_false. intros x Hx.
  destruct (f_user_id x =? f_user_id f) eqn:Ea,
           (f_friend_id x =? f_friend_id f) eqn:Eb;
    rewrite ?andb_false_r; try reflexivity.
  assert (x = f) as ->.
  { eapply filter_one_only; [exact Hf|exact Hx|]. cbn.
    now rewrite Ea, Eb. }
  now rewrite Nat.eqb_refl.
Qed.

(** X11. Answering a friend request: anyone but the recipient of the row
    is refused (403), a row that is not pending is refused (400), both
    without change; the recipient of a pending row succeeds, and the row,
    and only it, takes the status accepted, rejected or blocked that
    belongs to the action. *)
Theorem respond_to_friend_request_rules :
  forall (s : Server) (friendship_id : UUID) (action : FriendAction)
         (current_user : User) (f : Friendship),
    filter (fun f0 => f_id f0 =? friendship_id) (friendships (database s))
    = [f] ->
    (f_friend_id f <> u_id current_user ->
     endpoint (respond_to_friend_request friendship_id action current_user) s
     = (Raise (HTTPException 403
                 "You can only respond to friend requests sent to you"), s))
    /\ (f_friend_id f = u_id current_user ->
        f_status f <> pending ->
        endpoint (respond_to_friend_request friendship_id action
                    current_user) s
        = (Raise (HTTPException 400
                    ("Friend request is already "
                     +++ status_value (f_status f))), s))
    /\ (f_friend_id f = u_id current_user ->
        f_status f = pending ->
        f_user_id f <> f_friend_id f ->
        filter (fun f0 => (f_user_id f0 =? f_user_id f)
                          && (f_friend_id f0 =? f_friend_id f))
          (friendships (database s)) = [f] ->
        let f' :=
          {| f_id := f_id f; f_user_id := f_user_id f;
             f_friend_id := f_friend_id f;
             f_status := match action with
                         | accept => accepted
                         | reject => rejected
                         | block => blocked
                         end;
             f_created_at := f_created_at f;
             f_updated_at := clock s |} in
        endpoint (respond_to_friend_request friendship_id action
                    current_user) s
        = (Ok f',
           {| database :=
                with_friendships (database s)
                  (map (fun f0 => if f_id f0 =? f_id f then f' else f0)
                     (friendships (database s)));
              pkg_manager := pkg_manager s;
              mod_manager := mod_manager s;
              wire := wire s;
              broken_sockets := broken_sockets s;
              clock := clock s;
              next_uuid := next_uuid s |})).
Proof.
  intros s friendship_id action current_user f Hf.
  assert (Hid : f_id f = friendship_id).
  { apply Nat.eqb_eq.
    exact (filter_one_holds (fun f0 => f_id f0 =? friendship_id) _ Hf). }
  subst friendship_id. repeat apply conj.
  - intros Hother. apply Nat.eqb_neq in Hother.
    unfold endpoint, respond_to_friend_request, bind, select. cbn.
    rewrite Hf. cbn. rewrite Hother. reflexivity.
  - intros Hme Hst.
    unfold endpoint, respond_to_friend_request, bind, select. cbn.
    rewrite Hf. cbn. rewrite Hme, Nat.eqb_refl. cbn.
    destruct (f_status f); try reflexivity. congruence.
  - intros Hme Hst Hself Hpair f'. subst f'.
    apply Nat.eqb_neq in Hself.
    destruct s as [db pm mm w bs ck n]. cbn in Hf, Hpair |- *.
    unfold endpoint, respond_to_friend_request, bind, select, refresh,
      bind, select.
    cbn. rewrite Hf. cbn. rewrite Hme, Nat.eqb_refl. cbn.
    rewrite Hst. cbn.
    destruct action; cbn; unfold commit, flush, bind; cbn;
      rewrite <- Hme, Hself, (no_other_pair _ Hpair); cbn;
      (rewrite (filter_replace (fun f0 => f_id f0 =? f_id f) _ _ (m:=f));
       [reflexivity | cbn; apply Nat.eqb_refl | exact Hf]).
Qed.

Lemma respond_to_friend_request_rules_witness :
  endpoint (respond_to_friend_request 32 accept bob) demo
  = (Raise (HTTPException 403
              "You can only respond to friend requests sent to you"), demo)
  /\ endpoint (respond_to_friend_request 30 reject bob) demo
     = (Raise (HTTPException 400 "Friend request is already accepted"),
        demo)
  /\ fst (endpoint (respond_to_friend_request 32 block carol) demo)
     = Ok {| f_id := 32; f_user_id := 2; f_friend_id := 3;
             f_status := blocked; f_created_at := 0;
             f_updated_at := 1000 |}.
Proof.
  repeat apply conj.
  - exact (proj1 (@respond_to_friend_request_rules demo 32 accept bob
                    (mk_friendship 32 2 3 pending) eq_refl)
             ltac:(discriminate)).
  - exact (proj1 (proj2 (@respond_to_friend_request_rules demo 30 reject bob
                           (mk_friendship 30 1 2 accepted) eq_refl))
             eq_refl ltac:(discriminate)).
  - exact (f_equal fst
             (proj2 (proj2 (@respond_to_friend_request_rules demo 32 block
                              carol (mk_friendship 32 2 3 pending) eq_refl))
                eq_refl eq_refl ltac:(discriminate) eq_refl)).
Defined.

Lemma between_sym (a b : UUID) (f : Friendship) :
  between a b f = between b a f.
Proof.
  unfold between. apply orb_comm.
Qed.

(** X12. The friendship status does not depend on who asks: each of two
    users gets the same answer about the other. *)
Theorem check_friendship_status_symmetric :
  forall (s : Server) (a b : User),
    fst (endpoint (check_friendship_status (u_id b) a) s)
    = fst (endpoint (check_friendship_status (u_id a) b) s).
Proof.
  intros [db pm mm w bs ck n] a b.
  unfold endpoint, check_friendship_status, bind, select. cbn.
  rewrite (filter_ext (between (u_id a) (u_id b))
             (between (u_id b) (u_id a)))
    by (intros f; apply between_sym).
  destruct (filter (between (u_id b) (u_id a)) (friendships db))
    as [|f [|g rest]]; reflexivity.
Qed.

(** X13. A friend request is made once: when the two users share no row
    and the target exists, the request stores one pending row from the
    caller to the target; asking again, from either side, is then refused
    (400) and changes nothing. *)
Theorem friend_request_once :
  forall (s : Server) (current_user target : User),
    u_id target <> u_id current_user ->
    filter (fun u => u_id u =? u_id target) (users (database s)) = [target] ->
    filter (fun u => u_id u =? u_id current_user) (users (database s))
    = [current_user] ->
    filter (between (u_id current_user) (u_id target))
      (friendships (database s)) = [] ->
    let row := {| f_id := next_uuid s; f_user_id := u_id current_user;
                  f_friend_id := u_id target; f_status := pending;
                  f_created_at := clock s; f_updated_at := clock s |} in
    let s1 := after (send_friend_request (u_id target) current_user) s in
    fst (endpoint (send_friend_request (u_id target) current_user) s)
    = Ok row
    /\ friendships (database s1) = friendships (database s) ++ [row]
    /\ endpoint (send_friend_request (u_id target) current_user) s1
       = (Raise (HTTPException 400
                   "Friend request already sent or received"), s1)
    /\ endpoint (send_friend_request (u_id current_user) target) s1
       = (Raise (HTTPException 400
                   "Friend request already sent or received"), s1).
Proof.
  intros [db pm mm w bs ck n] current_user target Hne Ht Hc Hnone row s1.
  cbn in Ht, Hc, Hnone, row.
  assert (E1 : (u_id target =? u_id current_user) = false)
    by now apply Nat.eqb_neq.
  assert (E2 : (u_id current_user =? u_id target) = false)
    by (apply Nat.eqb_neq; congruence).
  assert (Hpair : filter (fun f => (f_user_id f =? u_id current_user)
                                   && (f_friend_id f =? u_id target))
                    (friendships db) = []).
  { apply (filter_weaker (between (u_id current_user) (u_id target)));
      [|exact Hnone].
    intros f Hf. unfold between. now rewrite Hf. }
  assert (Hrun : endpoint (send_friend_request (u_id target) current_user)
                   {| database := db; pkg_manager := pm; mod_manager := mm;
                      wire := w; broken_sockets := bs; clock := ck;
                      next_uuid := n |}
                 = (Ok row,
                    {| database :=
                         with_friendships db (friendships db ++ [row]);
                       pkg_manager := pm; mod_manager := mm; wire := w;
                       broken_sockets := bs; clock := ck;
                       next_uuid := S n |})).
  { unfold endpoint, send_friend_request, bind, select. cbn.
    rewrite E1. cbn. rewrite Ht. cbn. rewrite Hnone. cbn.
    unfold commit, flush, bind. cbn. rewrite E2, Hpair. reflexivity. }
  subst s1. unfold after. rewrite Hrun. cbn [fst snd database].
  assert (Hrow : filter (between (u_id current_user) (u_id target))
                   (friendships db ++ [row]) = [row]).
  { rewrite filter_app, Hnone. cbn. unfold between. cbn.
    now rewrite !Nat.eqb_refl. }
  repeat apply conj; try reflexivity.
  - unfold endpoint, send_friend_request, bind, select. cbn.
    rewrite E1. cbn. rewrite Ht. cbn. rewrite Hrow. reflexivity.
  - unfold endpoint, send_friend_request, bind, select. cbn.
    rewrite E2. cbn. rewrite Hc. cbn.
    rewrite (filter_ext (between (u_id target) (u_id current_user))
               (between (u_id current_user) (u_id target)))
      by (intros f; apply between_sym).
    rewrite Hrow. reflexivity.
Qed.

Lemma friend_request_once_witness :
  let s1 := after (send_friend_request 4 bob) demo in
  fst (endpoint (send_friend_request 4 bob) demo)
  = Ok {| f_id := 500; f_user_id := 2; f_friend_id := 4;
          f_status := pending; f_created_at := 1000;
          f_updated_at := 1000 |}
  /\ endpoint (send_friend_request 2 dave) s1
     = (Raise (HTTPException 400
                 "Friend request already sent or received"), s1).
Proof.
  destruct (@friend_request_once demo bob dave ltac:(discriminate)
              eq_refl eq_refl eq_refl) as (H1 & _ & _ & H4).
  split; [exact H1|exact H4].
Defined.

(** ** Conversations *)

Lemma filter_negb_same {A} (P : A -> bool) (l : list A) :
  filter P (filter (fun a => negb (P a)) l) = [].
Proof.
  apply filter_all_false. intros a Hin. apply filter_In in Hin.
  destruct Hin as [_ H]. now apply negb_true_iff.
Qed.

Lemma existsb_filter_nil {A} (P : A -> bool) (l : list A) :
  filter P l = [] -> existsb P l = false.
Proof.
  induction l as [|a l IH]; cbn; [reflexivity|].
  destruct (P a); [discriminate|exact IH].
Qed.

Lemma participants_after_delete (id : UUID) (db : Database) :
  filter (in_conversation id)
    (conversation_participants (cascade_delete_conversation id db)) = [].
Proof.
  cbn. apply filter_all_false. intros p Hin. apply in_map_iff in Hin.
  destruct Hin as (q & Hq & Hin). apply filter_In in Hin.
  destruct Hin as [_ Hneg]. apply negb_true_iff in Hneg.
  assert (Hsame : cp_conversation_id p = cp_conversation_id q).
  { destruct (cp_last_read_message_id q); [|now subst].
    destruct (set_mem _ _); now subst. }
  unfold in_conversation in *. now rewrite Hsame.
Qed.

Lemma nothing_left_after_delete (id : UUID) (db : Database) :
  rows_of_conversation (cascade_delete_conversation id db) id = 0.
Proof.
  unfold rows_of_conversation. rewrite participants_after_delete.
  cbn.
  rewrite (filter_negb_same (fun c => c_id c =? id)).
  rewrite (filter_negb_same (message_in id)).
  reflexivity.
Qed.

Lemma get_conversation_gone (s : Server) (id : UUID) (u : User) :
  filter (fun c => c_id c =? id) (conversations (database s)) = [] ->
  endpoint (get_conversation id u) s
  = (Raise (HTTPException 404
              "Conversation not found or you are not a participant"), s).
Proof.
  intros Hnone. unfold endpoint, get_conversation, bind, select_join. cbn.
  rewrite (filter_weaker (fun c => c_id c =? id)); [reflexivity| |exact Hnone].
  intros c Hc. apply andb_true_iff in Hc. tauto.
Qed.

(** X14. Deleting a conversation: anyone but its creator is refused (403)
    and nothing changes; for the creator the conversation is removed with
    all its participants and messages, other conversations stay, and a
    later fetch by anyone answers 404. *)
Theorem delete_conversation_rules :
  forall (s : Server) (conversation_id : UUID) (c : Conversation)
         (current_user : User),
    filter (fun c0 => c_id c0 =? conversation_id) (conversations (database s))
    = [c] ->
    (c_created_by c <> u_id current_user ->
     endpoint (delete_conversation conversation_id current_user) s
     = (Raise (HTTPException 403 "Only conversation creator can delete"), s))
    /\ (c_created_by c = u_id current_user ->
        let s' := after (delete_conversation conversation_id current_user) s in
        fst (endpoint (delete_conversation conversation_id current_user) s)
        = Ok tt
        /\ rows_of_conversation (database s') conversation_id = 0
        /\ conversations (database s')
           = filter (fun c0 => negb (c_id c0 =? conversation_id))
               (conversations (database s))
        /\ messages (database s')
           = filter (fun m => negb (message_in conversation_id m))
               (messages (database s))
        /\ wire s' = wire s
        /\ forall u,
             endpoint (get_conversation conversation_id u) s'
             = (Raise (HTTPException 404
                         "Conversation not found or you are not a participant"),
                s')).
Proof.
  intros s conversation_id c current_user Hc.
  assert (Hid : c_id c = conversation_id).
  { apply Nat.eqb_eq.
    exact (filter_one_holds (fun c0 => c_id c0 =? conversation_id) _ Hc). }
  subst conversation_id. split.
  - intros Hother. apply Nat.eqb_neq in Hother.
    unfold endpoint, delete_conversation, bind, select. cbn.
    rewrite Hc. cbn. rewrite Hother. reflexivity.
  - intros Hown s'.
    assert (Hrun : endpoint (delete_conversation (c_id c) current_user) s
                   = (Ok tt,
                      with_database
                        (cascade_delete_conversation (c_id c) (database s))
                        s)).
    { destruct s as [db pm mm w bs ck n]. cbn in Hc |- *.
      unfold endpoint, delete_conversation, bind, select. cbn.
      rewrite Hc. cbn. rewrite Hown, Nat.eqb_refl. reflexivity. }
    subst s'. unfold after. rewrite Hrun. cbn [fst snd].
    repeat apply conj; try reflexivity.
    + apply nothing_left_after_delete.
    + intros u. apply get_conversation_gone. cbn.
      apply (filter_negb_same (fun c0 => c_id c0 =? c_id c)).
Qed.

Lemma delete_conversation_rules_witness :
  endpoint (delete_conversation 10 bob) demo
  = (Raise (HTTPException 403 "Only conversation creator can delete"), demo)
  /\ rows_of_conversation
       (database (after (delete_conversation 10 alice) demo)) 10 = 0.
Proof.
  pose proof (@delete_conversation_rules demo 10 (mk_group 10 "G" 1) bob
                eq_refl) as [Hb _].
  pose proof (@delete_conversation_rules demo 10 (mk_group 10 "G" 1) alice
                eq_refl) as [_ Ha].
  split.
  - exact (Hb ltac:(discriminate)).
  - exact (proj1 (proj2 (Ha eq_refl))).
Defined.

Lemma participant_ids (conversation_id user_id : UUID)
    (l : list ConversationParticipant) (p : ConversationParticipant) :
  filter (is_participant conversation_id user_id) l = [p] ->
  cp_conversation_id p = conversation_id /\ cp_user_id p = user_id.
Proof.
  intros H. apply filter_one_holds in H. unfold is_participant in H.
  apply andb_true_iff in H. destruct H as [H1 H2].
  split; now apply Nat.eqb_eq.
Qed.

(** X15. Leaving: who is not a participant is refused (404) and nothing
    changes; leaving a direct conversation deletes the caller's
    participant row and nothing else: the conversation, its messages and
    the other rows stay, and nothing is sent. *)
Theorem leave_conversation_direct :
  forall (s : Server) (conversation_id : UUID) (current_user : User),
    (filter (is_participant conversation_id (u_id current_user))
       (conversation_participants (database s)) = [] ->
     endpoint (leave_conversation conversation_id current_user) s
     = (Raise (HTTPException 404
                 "You are not a participant in this conversation"), s))
    /\ (forall p c,
          filter (is_participant conversation_id (u_id current_user))
            (conversation_participants (database s)) = [p] ->
          filter (fun c0 => c_id c0 =? conversation_id)
            (conversations (database s)) = [c] ->
          c_type c = direct ->
          endpoint (leave_conversation conversation_id current_user) s
          = (Ok tt,
             with_database
               (with_participants (database s)
                  (filter
                     (fun p0 =>
                        negb (is_participant conversation_id
                                (u_id current_user) p0))
                     (conversation_participants (database s))))
               s)).
Proof.
  intros s conversation_id current_user. split.
  - intros Hnone.
    unfold endpoint, leave_conversation, bind, select. cbn.
    rewrite Hnone. reflexivity.
  - intros p c Hp Hc Hdirect.
    destruct (participant_ids _ _ _ Hp) as [E1 E2].
    destruct s as [db pm mm w bs ck n]. cbn in Hp, Hc |- *.
    unfold endpoint, leave_conversation, bind, select. cbn.
    rewrite Hp. cbn. rewrite Hc. cbn. rewrite Hdirect. cbn.
    rewrite E1, E2. reflexivity.
Qed.

Lemma leave_conversation_direct_witness :
  endpoint (leave_conversation 12 carol) demo_direct
  = (Raise (HTTPException 404
              "You are not a participant in this conversation"),
     demo_direct)
  /\ map c_id
       (conversations
          (database (after (leave_conversation 12 bob) demo_direct)))
     = [10; 11; 12].
Proof.
  split.
  - exact (proj1 (leave_conversation_direct demo_direct 12 carol) eq_refl).
  - unfold after.
    rewrite (proj2 (leave_conversation_direct demo_direct 12 bob)
               (mk_participant 12 2) _ eq_refl eq_refl eq_refl).
    reflexivity.
Defined.

(** X16. Removing a participant of a group: a caller who is neither the
    participant nor the creator is refused (403); removing someone who is
    not in the group is refused (404); both change nothing.  Otherwise the
    participant row is deleted and that is all: no message is stored,
    nothing is sent, the directories are untouched, and the group stays
    however few members remain. *)
Theorem remove_participant_rules :
  forall (s : Server) (conversation_id user_id : UUID) (c : Conversation)
         (current_user : User),
    filter (fun c0 => c_id c0 =? conversation_id) (conversations (database s))
    = [c] ->
    c_type c = group ->
    (user_id <> u_id current_user ->
     c_created_by c <> u_id current_user ->
     endpoint (remove_participant conversation_id user_id current_user) s
     = (Raise (HTTPException 403
                 "You can only remove yourself or be the creator to remove others"),
        s))
    /\ ((user_id = u_id current_user \/ c_created_by c = u_id current_user) ->
        (filter (is_participant conversation_id user_id)
           (conversation_participants (database s)) = [] ->
         endpoint (remove_participant conversation_id user_id current_user) s
         = (Raise (HTTPException 404
                     "Participant not found in conversation"), s))
        /\ (forall p,
              filter (is_participant conversation_id user_id)
                (conversation_participants (database s)) = [p] ->
              endpoint (remove_participant conversation_id user_id
                          current_user) s
              = (Ok tt,
                 with_database
                   (with_participants (database s)
                      (filter
                         (fun p0 =>
                            negb (is_participant conversation_id user_id p0))
                         (conversation_participants (database s))))
                   s))).
Proof.
  intros s conversation_id user_id c current_user Hc Hg. split.
  - intros H1 H2. apply Nat.eqb_neq in H1, H2.
    unfold endpoint, remove_participant, bind, select. cbn.
    rewrite Hc. cbn. rewrite Hg, H1, H2. reflexivity.
  - intros Hallowed.
    assert (Hcheck : negb (user_id =? u_id current_user)
                     && negb (c_created_by c =? u_id current_user) = false).
    { destruct Hallowed as [->| ->]; rewrite Nat.eqb_refl; cbn;
        [reflexivity|apply andb_false_r]. }
    split.
    + intros Hnone.
      unfold endpoint, remove_participant, bind, select. cbn.
      rewrite Hc. cbn. rewrite Hg. cbn. rewrite Hcheck. cbn.
      rewrite Hnone. reflexivity.
    + intros p Hp. destruct (participant_ids _ _ _ Hp) as [E1 E2].
      destruct s as [db pm mm w bs ck n]. cbn in Hp, Hc |- *.
      unfold endpoint, remove_participant, bind, select. cbn.
      rewrite Hc. cbn. rewrite Hg. cbn. rewrite Hcheck. cbn.
      rewrite Hp. cbn.
      rewrite E1, E2. reflexivity.
Qed.

Lemma remove_participant_rules_witness :
  endpoint (remove_participant 10 3 bob) demo
  = (Raise (HTTPException 403
              "You can only remove yourself or be the creator to remove others"),
     demo)
  /\ endpoint (remove_participant 11 3 alice) demo
     = (Raise (HTTPException 404 "Participant not found in conversation"),
        demo)
  /\ fst (endpoint (remove_participant 10 3 carol) demo) = Ok tt.
Proof.
  pose proof (@remove_participant_rules demo 10 3 (mk_group 10 "G" 1) bob
                eq_refl eq_refl) as [Hb _].
  pose proof (@remove_participant_rules demo 11 3 (mk_group 11 "H" 1) alice
                eq_refl eq_refl) as [_ Ha].
  pose proof (@remove_participant_rules demo 10 3 (mk_group 10 "G" 1) carol
                eq_refl eq_refl) as [_ Hc].
  repeat apply conj.
  - exact (Hb ltac:(discriminate) ltac:(discriminate)).
  - exact (proj1 (Ha (or_intror eq_refl)) eq_refl).
  - exact (f_equal fst
             (proj2 (Hc (or_introl eq_refl)) (mk_participant 10 3) eq_refl)).
Defined.

(** ** Editing *)

(** X17. The sender of a message that is not deleted can edit it, whether
    or not the sender still takes part in the conversation: the row reads
    back with the new content, with the time of the request as
    [edited_at] and with its other fields as they were; every other
    message, the participants and the module manager are as before, and
    the response carries the edited row. *)
Theorem edit_message_by_sender :
  forall (s : Server) (message_id : UUID) (m : Message) (content : string)
         (current_user : User),
    filter (fun m0 => m_id m0 =? message_id) (messages (database s)) = [m] ->
    m_sender_id m = Some (u_id current_user) ->
    m_is_deleted m <> "true" ->
    let s' := after (edit_message message_id content current_user) s in
    let edited :=
      {| m_id := m_id m; m_conversation_id := m_conversation_id m;
         m_sender_id := m_sender_id m; m_content := content;
         m_file_url := m_file_url m; m_file_type := m_file_type m;
         m_file_name := m_file_name m; m_created_at := m_created_at m;
         m_edited_at := Some (clock s); m_is_deleted := m_is_deleted m;
         m_delivered_at := m_delivered_at m; m_read_at := m_read_at m;
         m_read_by_user_id := m_read_by_user_id m |} in
    (exists resp,
       fst (endpoint (edit_message message_id content current_user) s)
       = Ok resp
       /\ resp_message resp = edited)
    /\ filter (fun m0 => m_id m0 =? message_id) (messages (database s'))
       = [edited]
    /\ filter (fun m0 => negb (m_id m0 =? message_id))
         (messages (database s'))
       = filter (fun m0 => negb (m_id m0 =? message_id))
           (messages (database s))
    /\ conversation_participants (database s')
       = conversation_participants (database s)
    /\ mod_manager s' = mod_manager s.
Proof.
  intros s message_id m content current_user Hm Hsender Hlive s' edited.
  apply String.eqb_neq in Hlive.
  assert (Hid : m_id m = message_id).
  { apply Nat.eqb_eq.
    exact (filter_one_holds (fun m0 => m_id m0 =? message_id) _ Hm). }
  subst message_id.
  assert (Hrow :
            filter (fun m0 => m_id m0 =? m_id m)
              (map (fun m0 => if m_id m0 =? m_id m then edited else m0)
                 (messages (database s))) = [edited]).
  { apply (filter_replace (fun m0 => m_id m0 =? m_id m) edited
             (messages (database s)) (m:=m));
      [cbn; apply Nat.eqb_refl|exact Hm]. }
  assert (Hrest :
            filter (fun m0 => negb (m_id m0 =? m_id m))
              (map (fun m0 => if m_id m0 =? m_id m then edited else m0)
                 (messages (database s)))
            = filter (fun m0 => negb (m_id m0 =? m_id m))
                (messages (database s))).
  { clear. induction (messages (database s)) as [|a l IH]; cbn;
      [reflexivity|].
    destruct (m_id a =? m_id m) eqn:E; cbn.
    - rewrite Nat.eqb_refl. cbn. exact IH.
    - rewrite E. cbn. now rewrite IH. }
  subst s'. unfold after, endpoint, edit_message, bind, select, refresh,
    bind, select.
  cbn. rewrite Hm. cbn. rewrite Hsender, opt_eqb_refl. cbn.
  rewrite Hlive. cbn.
  change (Message_edit m content (clock s)) with edited.
  rewrite Hrow. cbn. rewrite Hsender. cbn.
  repeat apply conj; try reflexivity.
  - eexists. split; reflexivity.
  - exact Hrow.
  - exact Hrest.
Qed.

Lemma edit_message_by_sender_witness :
  let s' := after (edit_message 20 "hello!" bob) demo in
  map m_content (filter (fun m0 => m_id m0 =? 20) (messages (database s')))
  = ["hello!"]
  /\ map m_edited_at
       (filter (fun m0 => m_id m0 =? 20) (messages (database s')))
     = [Some 1000].
Proof.
  pose proof (proj1 (proj2
                (@edit_message_by_sender demo 20
                   (hd (mk_message 0 0 None "") (messages demo_db))
                   "hello!" bob eq_refl eq_refl ltac:(discriminate))))
    as Hrow.
  cbv zeta in Hrow |- *. rewrite Hrow. split; reflexivity.
Defined.

(** ** The reaction summary *)

Lemma emoji_get_set (k k' : string) (v : EmojiData)
    (d : list (string * EmojiData)) :
  emoji_get k (emoji_set k' v d)
  = if String.eqb k k' then Some v else emoji_get k d.
Proof.
  induction d as [|[k0 v0] d IH]; cbn.
  - destruct (String.eqb k k'); reflexivity.
  - destruct (String.eqb k' k0) eqn:E; cbn.
    + apply String.eqb_eq in E. subst k0.
      destruct (String.eqb k k'); reflexivity.
    + rewrite IH. destruct (String.eqb k k') eqn:E'; [|reflexivity].
      apply String.eqb_eq in E'. subst k. now rewrite E.
Qed.

Lemma emoji_keys_set (k : string) (v : EmojiData)
    (d : list (string * EmojiData)) :
  map fst (emoji_set k v d)
  = match emoji_get k d with
    | Some _ => map fst d
    | None => map fst d ++ [k]
    end.
Proof.
  induction d as [|[k0 v0] d IH]; cbn; [reflexivity|].
  destruct (String.eqb k k0); cbn; [reflexivity|].
  rewrite IH. destruct (emoji_get k d); reflexivity.
Qed.

Lemma emoji_get_keys (k : string) (d : list (string * EmojiData)) :
  emoji_get k d = None <-> ~ In k (map fst d).
Proof.
  induction d as [|[k0 v0] d IH]; cbn; [tauto|].
  destruct (String.eqb k k0) eqn:E.
  - apply String.eqb_eq in E. split; [discriminate|]. intros H.
    exfalso. apply H. now left.
  - apply String.eqb_neq in E. rewrite IH. split.
    + intros H [H'|H']; [congruence|tauto].
    + tauto.
Qed.

Lemma emoji_In_get (k : string) (v : EmojiData)
    (d : list (string * EmojiData)) :
  NoDup (map fst d) -> In (k, v) d -> emoji_get k d = Some v.
Proof.
  induction d as [|[k0 v0] d IH]; cbn; [tauto|].
  intros Hnd [H|H].
  - inversion H; subst. now rewrite String.eqb_refl.
  - inversion Hnd as [|? ? Hnot Hnd']; subst.
    destruct (String.eqb k k0) eqn:E; [|now apply IH].
    apply String.eqb_eq in E. subst k0. exfalso. apply Hnot.
    change k with (fst (k, v)). now apply in_map.
Qed.

Lemma emoji_sum_set (k : string) (v : EmojiData)
    (d : list (string * EmojiData)) :
  list_sum (map (fun e => ed_count (snd e)) (emoji_set k v d))
  + ed_count (match emoji_get k d with
              | Some x => x
              | None => emoji_default
              end)
  = list_sum (map (fun e => ed_count (snd e)) d) + ed_count v.
Proof.
  unfold list_sum. induction d as [|[k0 v0] d IH]; [cbn; lia|].
  cbn [emoji_set emoji_get].
  destruct (String.eqb k k0); cbn [map fold_right snd]; lia.
Qed.

(** The entry a reaction row leaves in a summary. *)
Lemma aggregate_snoc (me : UUID) (rows : list (MessageReaction * option User))
    (row : MessageReaction * option User) :
  aggregate me (rows ++ [row]) = aggregate_step me (aggregate me rows) row.
Proof. unfold aggregate. now rewrite fold_left_app. Qed.

Lemma aggregate_keys (me : UUID)
    (rows : list (MessageReaction * option User)) :
  NoDup (map fst (aggregate me rows)).
Proof.
  induction rows as [|row rows IH] using rev_ind; [constructor|].
  rewrite aggregate_snoc. destruct row as [reaction user].
  unfold aggregate_step. rewrite emoji_keys_set.
  destruct (emoji_get (mr_emoji reaction) (aggregate me rows)) eqn:E;
    [exact IH|].
  apply emoji_get_keys in E.
  apply NoDup_rev in IH. rewrite <- (rev_involutive (_ ++ _)).
  apply NoDup_rev. rewrite rev_app_distr. cbn. constructor; [|exact IH].
  now rewrite <- in_rev.
Qed.

Lemma aggregate_sum (me : UUID)
    (rows : list (MessageReaction * option User)) :
  list_sum (map (fun e => ed_count (snd e)) (aggregate me rows))
  = List.length rows.
Proof.
  induction rows as [|row rows IH] using rev_ind; [reflexivity|].
  rewrite aggregate_snoc, length_app. cbn. destruct row as [reaction user].
  unfold aggregate_step.
  pose proof (emoji_sum_set (mr_emoji reaction)
                {| ed_count :=
                     ed_count
                       match emoji_get (mr_emoji reaction)
                               (aggregate me rows) with
                       | Some d => d
                       | None => emoji_default
                       end + 1;
                   ed_users :=
                     ed_users
                       match emoji_get (mr_emoji reaction)
                               (aggregate me rows) with
                       | Some d => d
                       | None => emoji_default
                       end
                     ++ [{| reactor_user_id := str (mr_user_id reaction);
                            reactor_username := sender_username user;
                            reactor_display_name :=
                              sender_display_name user |}];
                   ed_reacted_by_me :=
                     if mr_user_id reaction =? me then true
                     else ed_reacted_by_me
                            match emoji_get (mr_emoji reaction)
                                    (aggregate me rows) with
                            | Some d => d
                            | None => emoji_default
                            end |}
                (aggregate me rows)) as H.
  cbn [ed_count] in H. lia.
Qed.

Lemma aggregate_get (me : UUID) (k : string)
    (rows : list (MessageReaction * option User)) :
  let mine := filter (fun row => String.eqb (mr_emoji (fst row)) k) rows in
  emoji_get k (aggregate me rows)
  = match mine with
    | [] => None
    | _ :: _ =>
        Some {| ed_count := List.length mine;
                ed_users :=
                  map (fun row =>
                         {| reactor_user_id := str (mr_user_id (fst row));
                            reactor_username := sender_username (snd row);
                            reactor_display_name :=
                              sender_display_name (snd row) |})
                    mine;
                ed_reacted_by_me :=
                  existsb (fun row => mr_user_id (fst row) =? me) mine |}
    end.
Proof.
  induction rows as [|row rows IH] using rev_ind; [reflexivity|].
  cbn zeta in *. rewrite aggregate_snoc, filter_app.
  destruct row as [reaction user]. unfold aggregate_step.
  rewrite emoji_get_set. cbn [filter fst snd].
  rewrite (String.eqb_sym k). 
  destruct (String.eqb (mr_emoji reaction) k) eqn:E.
  - apply String.eqb_eq in E. subst k. rewrite IH.
    destruct (filter _ rows) as [|r0 mine]; cbn.
    + destruct (mr_user_id reaction =? me); reflexivity.
    + rewrite length_app, map_app, existsb_app. cbn.
      rewrite orb_false_r. f_equal. f_equal.
      destruct (mr_user_id reaction =? me); cbn;
        [now rewrite !orb_true_r|now rewrite orb_false_r].
  - rewrite app_nil_r. exact IH.
Qed.

(** X18. The summary of the reactions of a message lists every emoji that
    occurs, each once; an entry counts the rows of its emoji, names their
    users in the order of the rows, and is marked [reacted_by_me] exactly
    when one of these rows is the reader's; the counts add up to the number
    of rows. *)
Theorem reaction_summaries_spec :
  forall (me : UUID) (rows : list (MessageReaction * option User)),
    let summaries := reaction_summaries me rows in
    NoDup (map rs_emoji summaries)
    /\ (forall row, In row rows ->
          In (mr_emoji (fst row)) (map rs_emoji summaries))
    /\ (forall r, In r summaries ->
          let mine :=
            filter (fun row => String.eqb (mr_emoji (fst row)) (rs_emoji r))
              rows in
          mine <> []
          /\ rs_count r = List.length mine
          /\ rs_users r
             = map (fun row =>
                      {| reactor_user_id := str (mr_user_id (fst row));
                         reactor_username := sender_username (snd row);
                         reactor_display_name :=
                           sender_display_name (snd row) |})
                 mine
          /\ rs_reacted_by_me r
             = existsb (fun row => mr_user_id (fst row) =? me) mine)
    /\ list_sum (map rs_count summaries) = List.length rows.
Proof.
  intros me rows summaries. subst summaries. unfold reaction_summaries.
  rewrite !map_map. cbn [rs_emoji rs_count].
  repeat apply conj.
  - apply aggregate_keys.
  - intros row Hin.
    destruct (emoji_get (mr_emoji (fst row)) (aggregate me rows)) eqn:E.
    + destruct (in_dec string_dec (mr_emoji (fst row))
                  (map fst (aggregate me rows))) as [H|H]; [exact H|].
      apply emoji_get_keys in H. congruence.
    + exfalso. rewrite aggregate_get in E.
      destruct (filter _ rows) eqn:F; [|discriminate].
      assert (Hf : In row (filter (fun row0 =>
                                     String.eqb (mr_emoji (fst row0))
                                       (mr_emoji (fst row))) rows)).
      { apply filter_In. split; [exact Hin|apply String.eqb_refl]. }
      rewrite F in Hf. exact Hf.
  - intros r Hin. apply in_map_iff in Hin. destruct Hin as [[k v] [Hr Hin]].
    subst r. cbn [rs_emoji rs_count rs_users rs_reacted_by_me fst snd].
    pose proof (@emoji_In_get k v _ (aggregate_keys me rows) Hin) as Hget.
    rewrite aggregate_get in Hget.
    destruct (filter _ rows) as [|r0 mine] eqn:F; [discriminate|].
    inversion Hget; subst v. cbn [ed_count ed_users ed_reacted_by_me].
    repeat apply conj; try reflexivity. discriminate.
  - apply aggregate_sum.
Qed.

Lemma reaction_summaries_spec_witness :
  In "heart" (map rs_emoji (reaction_summaries 2 demo_reactions))
  /\ forall r, In r (reaction_summaries 2 demo_reactions) ->
       rs_count r
       = List.length
           (filter (fun row => String.eqb (mr_emoji (fst row)) (rs_emoji r))
              demo_reactions).
Proof.
  destruct (reaction_summaries_spec 2 demo_reactions) as [_ [Hall [Hone _]]].
  split.
  - exact (Hall (nth 1 demo_reactions (hd (nth 0 demo_reactions
                                              (nth 0 demo_reactions
                                                 ({| mr_id := 0;
                                                     mr_message_id := 0;
                                                     mr_user_id := 0;
                                                     mr_emoji := "";
                                                     mr_created_at := 0 |},
                                                  None)))
                                          demo_reactions))
             (or_intror (or_introl eq_refl))).
  - intros r Hin. exact (proj1 (proj2 (Hone r Hin))).
Defined.

Lemma map_M_pure {A B} (f : A -> M B) (g : State -> A -> B) :
  (forall a st, f a st = (Ok (g st a), st)) ->
  forall xs st, map_M f xs st = (Ok (map (g st) xs), st).
Proof.
  intros Hf xs st. induction xs as [|x xs IH]; [reflexivity|].
  cbn [map_M map]. unfold bind. now rewrite Hf, IH.
Qed.

(** X19. Reading the reactions of a message changes nothing on the server.
    An unknown message is answered with 404 and a reader outside the
    conversation of the message with 403; a participant gets the summary
    of the reaction rows of that message: [total_reactions] is their
    number, the counts of the entries add up to it, and no emoji is listed
    twice. *)
Theorem get_message_reactions_rules :
  forall (s : Server) (message_id : UUID) (current_user : User),
    (filter (fun m0 => m_id m0 =? message_id) (messages (database s)) = [] ->
     endpoint (get_message_reactions message_id current_user) s
     = (Raise (HTTPException 404 "Message not found"), s))
    /\ (forall m,
          filter (fun m0 => m_id m0 =? message_id) (messages (database s))
          = [m] ->
          (filter (is_participant (m_conversation_id m) (u_id current_user))
             (conversation_participants (database s)) = [] ->
           endpoint (get_message_reactions message_id current_user) s
           = (Raise (HTTPException 403
                       "You are not a participant in this conversation"), s))
          /\ (forall p,
                filter (is_participant (m_conversation_id m)
                          (u_id current_user))
                  (conversation_participants (database s)) = [p] ->
                exists resp,
                  endpoint (get_message_reactions message_id current_user) s
                  = (Ok resp, s)
                  /\ mwr_message_id resp = message_id
                  /\ mwr_total_reactions resp
                     = List.length
                         (filter (fun r => mr_message_id r =? message_id)
                            (message_reactions (database s)))
                  /\ list_sum (map rs_count (mwr_reactions resp))
                     = mwr_total_reactions resp
                  /\ NoDup (map rs_emoji (mwr_reactions resp)))).
Proof.
  intros s message_id current_user. split.
  - intros Hm. unfold endpoint, get_message_reactions, bind, select. cbn.
    rewrite Hm. reflexivity.
  - intros m Hm. split.
    + intros Hp. unfold endpoint, get_message_reactions, bind, select. cbn.
      rewrite Hm. cbn. rewrite Hp. reflexivity.
    + intros p Hp. destruct s as [db pm mm w bs ck n]. cbn in Hm, Hp |- *.
      unfold endpoint, get_message_reactions, bind, select. cbn.
      rewrite Hm. cbn. rewrite Hp. cbn.
      rewrite (map_M_pure _
                 (fun st r =>
                    (r, hd_error
                          (filter (fun u => eq_opt (u_id u)
                                              (Some (mr_user_id r)))
                             (users (view st))))))
        by reflexivity.
      cbn. eexists. split; [reflexivity|].
      cbn [mwr_message_id mwr_reactions mwr_total_reactions].
      repeat apply conj.
      * reflexivity.
      * reflexivity.
      * unfold reaction_summaries. rewrite map_map. cbn [rs_count].
        rewrite aggregate_sum. apply length_map.
      * unfold reaction_summaries. rewrite map_map. cbn [rs_emoji].
        apply aggregate_keys.
Qed.

Lemma get_message_reactions_rules_witness :
  endpoint (get_message_reactions 99 alice) demo
  = (Raise (HTTPException 404 "Message not found"), demo)
  /\ endpoint (get_message_reactions 20 dave) demo
     = (Raise (HTTPException 403
                 "You are not a participant in this conversation"), demo)
  /\ exists resp,
       endpoint (get_message_reactions 20 alice) demo = (Ok resp, demo)
       /\ mwr_message_id resp = 20
       /\ mwr_total_reactions resp
          = List.length
              (filter (fun r => mr_message_id r =? 20)
                 (message_reactions (database demo)))
       /\ list_sum (map rs_count (mwr_reactions resp))
          = mwr_total_reactions resp
       /\ NoDup (map rs_emoji (mwr_reactions resp)).
Proof.
  repeat apply conj.
  - exact (proj1 (get_message_reactions_rules demo 99 alice) eq_refl).
  - exact (proj1 (proj2 (get_message_reactions_rules demo 20 dave)
                    (hd (mk_message 0 0 None "") (messages demo_db))
                    eq_refl) eq_refl).
  - exact (proj2 (proj2 (get_message_reactions_rules demo 20 alice)
                    (hd (mk_message 0 0 None "") (messages demo_db))
                    eq_refl) (mk_participant 10 1) eq_refl).
Defined.

(** ** Outsiders *)

(** X20. A user without a participant row in a conversation gets nothing
    from it and puts nothing into it: fetching it, listing its
    participants, sending to it, marking one of its messages as read and
    reacting to one are all refused, and the server stays as it was.  The
    fetch answers 404, as for a conversation that does not exist; the
    others answer 403. *)
Theorem outsider_is_refused :
  forall (s : Server) (conversation_id : UUID) (current_user : User),
    filter (is_participant conversation_id (u_id current_user))
      (conversation_participants (database s)) = [] ->
    endpoint (get_conversation conversation_id current_user) s
    = (Raise (HTTPException 404
                "Conversation not found or you are not a participant"), s)
    /\ endpoint (get_participants conversation_id current_user) s
       = (Raise (HTTPException 403
                   "You are not a participant in this conversation"), s)
    /\ (forall message_data,
          mc_conversation_id message_data = conversation_id ->
          endpoint (send_message message_data current_user) s
          = (Raise (HTTPException 403
                      "You are not a participant in this conversation"), s))
    /\ (forall message_id m,
          filter (fun m0 => m_id m0 =? message_id) (messages (database s))
          = [m] ->
          m_conversation_id m = conversation_id ->
          endpoint (mark_message_as_read message_id current_user) s
          = (Raise (HTTPException 403
                      "You are not a participant in this conversation"), s)
          /\ forall emoji,
               endpoint (add_reaction message_id emoji current_user) s
               = (Raise (HTTPException 403
                           "You are not a participant in this conversation"),
                  s)).
Proof.
  intros s conversation_id current_user Hout.
  split; [|split; [|split; [|intros message_id m Hm Hc; split]]].
  - unfold endpoint, get_conversation, bind, select_join. cbn.
    rewrite filter_all_false; [reflexivity|].
    intros c _. destruct (c_id c =? conversation_id) eqn:E; [|reflexivity].
    apply Nat.eqb_eq in E. rewrite E. cbn.
    now apply existsb_filter_nil.
  - unfold endpoint, get_participants, bind, select. cbn.
    rewrite Hout. reflexivity.
  - intros message_data <-. unfold endpoint, send_message, bind, select.
    cbn. rewrite Hout. reflexivity.
  - subst conversation_id.
    unfold endpoint, mark_message_as_read, bind, select. cbn.
    rewrite Hm. cbn. rewrite Hout. reflexivity.
  - intros emoji. subst conversation_id.
    unfold endpoint, add_reaction, bind, select. cbn.
    rewrite Hm. cbn. rewrite Hout. reflexivity.
Qed.

Lemma outsider_is_refused_witness :
  endpoint (get_conversation 10 dave) demo
  = (Raise (HTTPException 404
              "Conversation not found or you are not a participant"), demo)
  /\ endpoint (send_message (hi 10) dave) demo
     = (Raise (HTTPException 403
                 "You are not a participant in this conversation"), demo)
  /\ endpoint (add_reaction 20 "+1" dave) demo
     = (Raise (HTTPException 403
                 "You are not a participant in this conversation"), demo).
Proof.
  destruct (@outsider_is_refused demo 10 dave eq_refl)
    as (Hget & _ & Hsend & Hmsg).
  repeat apply conj.
  - exact Hget.
  - exact (Hsend (hi 10) eq_refl).
  - exact (proj2 (Hmsg 20 (hd (mk_message 0 0 None "") (messages demo_db))
                    eq_refl eq_refl) "+1").
Defined.

(** X21. A participant who lists the participants of a conversation gets,
    in some order, one entry for every participant row of the conversation
    joined with its user row, carrying the user's names and the joining
    time, and nothing else; the server stays as it was. *)
Theorem get_participants_lists_members :
  forall (s : Server) (conversation_id : UUID) (current_user : User)
         (p : ConversationParticipant),
    filter (is_participant conversation_id (u_id current_user))
      (conversation_participants (database s)) = [p] ->
    exists l,
      endpoint (get_participants conversation_id current_user) s = (Ok l, s)
      /\ (forall r,
            In r l
            <-> exists q user,
                  In q (conversation_participants (database s))
                  /\ cp_conversation_id q = conversation_id
                  /\ In user (users (database s))
                  /\ u_id user = cp_user_id q
                  /\ r = {| pr_user_id := u_id user;
                            pr_username := u_username user;
                            pr_display_name := u_display_name user;
                            pr_joined_at := cp_joined_at q |})
      /\ (forall user,
            In user (users (database s)) ->
            member s conversation_id (u_id user) = true ->
            In (u_id user) (map pr_user_id l)).
Proof.
  intros s conversation_id current_user p Hp.
  exists (participants_with_users conversation_id (database s)).
  assert (Hspec :
            forall r,
              In r (participants_with_users conversation_id (database s))
              <-> exists q user,
                    In q (conversation_participants (database s))
                    /\ cp_conversation_id q = conversation_id
                    /\ In user (users (database s))
                    /\ u_id user = cp_user_id q
                    /\ r = {| pr_user_id := u_id user;
                              pr_username := u_username user;
                              pr_display_name := u_display_name user;
                              pr_joined_at := cp_joined_at q |}).
  { intros r. unfold participants_with_users. rewrite in_flat_map. split.
    - intros (q & Hq & Hr). apply filter_In in Hq. destruct Hq as [Hq Hc].
      apply in_map_iff in Hr. destruct Hr as (user & Hr & Hu).
      apply filter_In in Hu. destruct Hu as [Hu Hid].
      exists q, user. unfold in_conversation in Hc.
      apply Nat.eqb_eq in Hc, Hid. auto.
    - intros (q & user & Hq & Hc & Hu & Hid & ->). exists q. split.
      + apply filter_In. split; [exact Hq|].
        unfold in_conversation. now apply Nat.eqb_eq.
      + apply in_map_iff. exists user. split; [reflexivity|].
        apply filter_In. split; [exact Hu|now apply Nat.eqb_eq]. }
  repeat apply conj.
  - destruct s as [db pm mm w bs ck n]. cbn in Hp |- *.
    unfold endpoint, get_participants, bind, select. cbn.
    rewrite Hp. reflexivity.
  - exact Hspec.
  - intros user Hu Hmem. unfold member in Hmem.
    apply existsb_exists in Hmem. destruct Hmem as (q & Hq & Hmem).
    unfold is_participant in Hmem. apply andb_true_iff in Hmem.
    destruct Hmem as [Hc Hid]. apply Nat.eqb_eq in Hc, Hid.
    apply in_map_iff.
    exists {| pr_user_id := u_id user;
              pr_username := u_username user;
              pr_display_name := u_display_name user;
              pr_joined_at := cp_joined_at q |}.
    split; [reflexivity|]. apply Hspec. exists q, user. auto.
Qed.

Lemma get_participants_lists_members_witness :
  exists l,
    endpoint (get_participants 11 bob) demo = (Ok l, demo)
    /\ In 1 (map pr_user_id l).
Proof.
  destruct (@get_participants_lists_members demo 11 bob
              (mk_participant 11 2) eq_refl) as (l & Hrun & _ & Hall).
  exists l. split; [exact Hrun|].
  exact (Hall alice (or_introl eq_refl) eq_refl).
Defined.

(** ** Leaving a group *)

Lemma map_c_id_touch (f : Conversation -> Conversation)
    (l : list Conversation) :
  (forall c, c_id (f c) = c_id c) -> map c_id (map f l) = map c_id l.
Proof.
  intros H. rewrite map_map. apply map_ext. exact H.
Qed.

(** X22. A participant of a group who leaves while the group does not
    come down to exactly one other member: the request succeeds, the
    caller's participant row is deleted, one system message without sender
    "<display name> đã rời khỏi nhóm" is appended to the messages, the
    conversations and their ids stay, and the manager that holds the
    sessions is not touched.  This covers the only member of a group: the
    group then stays, without participants. *)
Theorem leave_conversation_group :
  forall (s : Server) (conversation_id : UUID) (current_user : User)
         (p : ConversationParticipant) (c : Conversation),
    filter (is_participant conversation_id (u_id current_user))
      (conversation_participants (database s)) = [p] ->
    filter (fun c0 => c_id c0 =? conversation_id)
      (conversations (database s)) = [c] ->
    c_type c = group ->
    List.length
      (filter (in_conversation conversation_id)
         (filter (fun p0 => negb (is_participant conversation_id
                                    (u_id current_user) p0))
            (conversation_participants (database s)))) <> 1 ->
    let s' := after (leave_conversation conversation_id current_user) s in
    fst (endpoint (leave_conversation conversation_id current_user) s)
    = Ok tt
    /\ conversation_participants (database s')
       = filter (fun p0 => negb (is_participant conversation_id
                                   (u_id current_user) p0))
           (conversation_participants (database s))
    /\ messages (database s')
       = messages (database s)
         ++ [{| m_id := next_uuid s; m_conversation_id := conversation_id;
                m_sender_id := None;
                m_content :=
                  u_display_name current_user +++ " đã rời khỏi nhóm";
                m_file_url := None; m_file_type := Some "system";
                m_file_name := None; m_created_at := clock s;
                m_edited_at := None; m_is_deleted := "false";
                m_delivered_at := None; m_read_at := None;
                m_read_by_user_id := None |}]
    /\ map c_id (conversations (database s'))
       = map c_id (conversations (database s))
    /\ pkg_manager s' = pkg_manager s.
Proof.
  intros s conversation_id current_user p c Hp Hc Hg Hrem s'. subst s'.
  destruct (participant_ids _ _ _ Hp) as [E1 E2].
  apply Nat.eqb_neq in Hrem.
  destruct s as [db pm mm w bs ck n]. cbn in Hp, Hc, Hrem |- *.
  unfold after, endpoint, leave_conversation, bind, select. cbn.
  rewrite Hp. cbn. rewrite Hc. cbn. rewrite Hg. cbn.
  rewrite E1, E2. rewrite Hrem. cbn.
  repeat apply conj; try reflexivity.
  apply map_c_id_touch. intros c0. now destruct (c_id c0 =? c_id c).
Qed.

Lemma leave_conversation_group_witness :
  let s' := after (leave_conversation 10 carol) demo in
  fst (endpoint (leave_conversation 10 carol) demo) = Ok tt
  /\ map cp_user_id
       (filter (in_conversation 10) (conversation_participants (database s')))
     = [1; 2]
  /\ map c_id (conversations (database s')) = [10; 11].
Proof.
  destruct (@leave_conversation_group demo 10 carol (mk_participant 10 3)
              (mk_group 10 "G" 1) eq_refl eq_refl eq_refl
              ltac:(vm_compute; discriminate))
    as (Hok & Hparts & _ & Hconv & _).
  cbn zeta. repeat apply conj.
  - exact Hok.
  - rewrite Hparts. reflexivity.
  - rewrite Hconv. reflexivity.
Defined.

Lemma filter_map_keep {A} (P : A -> bool) (f : A -> A) (l : list A) :
  (forall a, P (f a) = P a) -> filter P (map f l) = map f (filter P l).
Proof.
  intros H. induction l as [|a l IH]; cbn; [reflexivity|].
  rewrite H. destruct (P a); cbn; now rewrite IH.
Qed.

Lemma filter_map_untouched {A} (P : A -> bool) (f : A -> A) (l : list A) :
  (forall a, P a = true -> P (f a) = true) ->
  filter (fun a => negb (P a)) (map (fun a => if P a then f a else a) l)
  = filter (fun a => negb (P a)) l.
Proof.
  intros H. induction l as [|a l IH]; cbn; [reflexivity|].
  destruct (P a) eqn:E; cbn.
  - now rewrite (H a E).
  - rewrite E. cbn. now rewrite IH.
Qed.

(** X23. A participant of a group who leaves and leaves exactly one other
    member behind disbands the group: the request succeeds, the
    conversation is deleted with all its participants and messages (the
    two system messages just written included), the other conversations
    and their messages stay, and the manager that holds the sessions is
    not touched. *)
Theorem leave_conversation_disbands_group :
  forall (s : Server) (conversation_id : UUID) (current_user : User)
         (p q : ConversationParticipant) (c : Conversation),
    filter (is_participant conversation_id (u_id current_user))
      (conversation_participants (database s)) = [p] ->
    filter (fun c0 => c_id c0 =? conversation_id)
      (conversations (database s)) = [c] ->
    c_type c = group ->
    filter (in_conversation conversation_id)
      (filter (fun p0 => negb (is_participant conversation_id
                                 (u_id current_user) p0))
         (conversation_participants (database s))) = [q] ->
    let s' := after (leave_conversation conversation_id current_user) s in
    fst (endpoint (leave_conversation conversation_id current_user) s)
    = Ok tt
    /\ rows_of_conversation (database s') conversation_id = 0
    /\ conversations (database s')
       = filter (fun c0 => negb (c_id c0 =? conversation_id))
           (conversations (database s))
    /\ messages (database s')
       = filter (fun m => negb (message_in conversation_id m))
           (messages (database s))
    /\ pkg_manager s' = pkg_manager s.
Proof.
  intros s conversation_id current_user p q c Hp Hc Hg Hrem s'. subst s'.
  assert (Hid : c_id c = conversation_id).
  { apply Nat.eqb_eq.
    exact (filter_one_holds (fun c0 => c_id c0 =? conversation_id) _ Hc). }
  subst conversation_id.
  destruct (participant_ids _ _ _ Hp) as [E1 E2].
  destruct s as [db pm mm w bs ck n]. cbn in Hp, Hc, Hrem |- *.
  unfold after, endpoint, leave_conversation, bind, select. cbn.
  rewrite Hp. cbn. rewrite Hc. cbn. rewrite Hg. cbn.
  rewrite E1, E2. rewrite Hrem. cbn.
  rewrite !(filter_map_keep (fun c0 => c_id c0 =? c_id c)), !Hc
    by (intros a; destruct (c_id a =? c_id c) eqn:E; cbn; auto).
  cbn [map]. rewrite !Nat.eqb_refl.
  match goal with
  | |- context [ {| server := _; view := ?v; unflushed := [] |} ] =>
      remember v as view2 eqn:Hview
  end.
  unfold commit, flush, bind. cbn.
  repeat apply conj; try reflexivity.
  - exact (nothing_left_after_delete (c_id c) view2).
  - subst view2. cbn.
    apply (filter_map_untouched (fun c0 => c_id c0 =? c_id c)
             (fun c0 => {| c_id := c_id c0; c_type := c_type c0;
                           c_title := c_title c0;
                           c_created_by := c_created_by c0;
                           c_created_at := c_created_at c0;
                           c_updated_at := ck |})).
    intros a Ha. exact Ha.
  - subst view2. cbn. rewrite !filter_app. cbn.
    unfold message_in. cbn. rewrite Nat.eqb_refl. cbn.
    now rewrite !app_nil_r.
Qed.

Lemma leave_conversation_disbands_group_witness :
  let s' := after (leave_conversation 11 alice) demo in
  fst (endpoint (leave_conversation 11 alice) demo) = Ok tt
  /\ rows_of_conversation (database s') 11 = 0
  /\ map c_id (conversations (database s')) = [10].
Proof.
  destruct (@leave_conversation_disbands_group demo 11 alice
              (mk_participant 11 1) (mk_participant 11 2)
              (mk_group 11 "H" 1) eq_refl eq_refl eq_refl eq_refl)
    as (Hok & Hrows & Hconv & _).
  cbn zeta. repeat apply conj.
  - exact Hok.
  - exact Hrows.
  - rewrite Hconv. reflexivity.
Defined.

(** ** Adding a participant *)

Lemma map_M_state {A B} (f : A -> M B) :
  (forall a st, snd (f a st) = st) ->
  forall xs st, snd (map_M f xs st) = st.
Proof.
  intros Hf xs. induction xs as [|x xs IH]; intros st; [reflexivity|].
  cbn [map_M]. unfold bind.
  pose proof (Hf x st) as H1. destruct (f x st) as [[y|e] st1]; cbn in H1;
    subst st1; [|reflexivity].
  pose proof (IH st) as H2. destruct (map_M f xs st) as [[ys|e] st2];
    cbn in H2; subst st2; reflexivity.
Qed.

(** X24. Whenever [add_participant] succeeds, the request was within the
    rules and did what it says: the conversation is a group created by the
    caller with fewer than 100 participants, the user exists, is an
    accepted friend of the caller and was not a participant; afterwards
    the user is one, with the time of the request as joining time, one
    system message without sender "<caller> đã thêm <user> vào nhóm" is
    appended to the messages, and the manager that holds the sessions is
    not touched. *)
Theorem add_participant_success :
  forall (s : Server) (conversation_id user_id : UUID) (current_user : User)
         (r : string),
    fst (endpoint (add_participant conversation_id user_id current_user) s)
    = Ok r ->
    let s' := after (add_participant conversation_id user_id current_user) s in
    r = "Participant added successfully"
    /\ (exists c,
          filter (fun c0 => c_id c0 =? conversation_id)
            (conversations (database s)) = [c]
          /\ c_type c = group
          /\ c_created_by c = u_id current_user)
    /\ List.length
         (filter (in_conversation conversation_id)
            (conversation_participants (database s))) < 100
    /\ (exists f,
          In f (friendships (database s))
          /\ accepted_between (u_id current_user) user_id f = true)
    /\ member s conversation_id user_id = false
    /\ (exists added,
          filter (fun u => u_id u =? user_id) (users (database s)) = [added]
          /\ messages (database s')
             = messages (database s)
               ++ [{| m_id := next_uuid s;
                      m_conversation_id := conversation_id;
                      m_sender_id := None;
                      m_content :=
                        u_display_name current_user +++ " đã thêm "
                        +++ u_display_name added +++ " vào nhóm";
                      m_file_url := None; m_file_type := Some "system";
                      m_file_name := None; m_created_at := clock s;
                      m_edited_at := None; m_is_deleted := "false";
                      m_delivered_at := None; m_read_at := None;
                      m_read_by_user_id := None |}])
    /\ conversation_participants (database s')
       = conversation_participants (database s)
         ++ [{| cp_conversation_id := conversation_id;
                cp_user_id := user_id; cp_joined_at := clock s;
                cp_last_read_message_id := None |}]
    /\ member s' conversation_id user_id = true
    /\ pkg_manager s' = pkg_manager s.
Proof.
  intros s conversation_id user_id current_user r H s'. subst s'.
  destruct s as [db pm mm w bs ck n].
  unfold member, after. unfold endpoint, add_participant, bind, select in *.
  cbn -[Nat.leb Nat.ltb String.append] in *.
  destruct (filter (fun c => c_id c =? conversation_id) (conversations db))
    as [|c [|c' l]] eqn:Hc; cbn -[Nat.leb String.append] in *;
    try discriminate.
  destruct (type_eqb (c_type c) group) eqn:Hg;
    cbn -[Nat.leb String.append] in *; try discriminate.
  destruct (c_created_by c =? u_id current_user) eqn:Hown;
    cbn -[Nat.leb String.append] in *; try discriminate.
  destruct (100 <=? List.length
                      (filter (in_conversation conversation_id)
                         (conversation_participants db))) eqn:Hcap;
    cbn -[Nat.leb String.append] in *; try discriminate.
  destruct (filter (fun u => u_id u =? user_id) (users db))
    as [|added [|u' lu]] eqn:Hu; cbn -[Nat.leb String.append] in *;
    try discriminate.
  destruct (filter (accepted_between (u_id current_user) user_id)
              (friendships db))
    as [|f [|f' lf]] eqn:Hf; cbn -[Nat.leb String.append] in *;
    try discriminate.
  destruct (filter (is_participant conversation_id user_id)
              (conversation_participants db))
    as [|p0 [|p' lp]] eqn:Hp; cbn -[Nat.leb String.append] in *;
    try discriminate.
  unfold flush, commit, bind in *. cbn -[Nat.leb String.append] in *.
  rewrite Hp in *. cbn -[Nat.leb String.append] in *.
  rewrite Hc in *. cbn -[Nat.leb String.append] in *.
  match goal with
  | |- context [map_M ?g ?xs ?st] =>
      assert (Hst : snd (map_M g xs st) = st)
        by (apply map_M_state; intros a st0;
            destruct (hd_error _); reflexivity);
      destruct (map_M g xs st) as [[resp|e] st3]
  end; cbn in Hst; subst st3; cbn -[Nat.leb String.append] in *;
    [|discriminate].
  repeat apply conj; try reflexivity.
  - congruence.
  - exists c. repeat apply conj; [reflexivity| |now apply Nat.eqb_eq].
    destruct (c_type c); [discriminate|reflexivity].
  - apply Nat.leb_gt in Hcap. exact Hcap.
  - exists f. assert (Hin : In f (filter (accepted_between
                                            (u_id current_user) user_id)
                                     (friendships db)))
      by (rewrite Hf; now left).
    apply filter_In in Hin. exact Hin.
  - now apply existsb_filter_nil.
  - exists added. split; reflexivity.
  - rewrite existsb_app. cbn. unfold is_participant. cbn.
    rewrite !Nat.eqb_refl. apply orb_true_r.
Qed.

Lemma add_participant_success_witness :
  member demo_solo 13 2 = false
  /\ member (after (add_participant 13 2 alice) demo_solo) 13 2 = true.
Proof.
  destruct (@add_participant_success demo_solo 13 2 alice
              "Participant added successfully" eq_refl)
    as (_ & _ & _ & _ & Hbefore & _ & _ & Hafter & _).
  split; [exact Hbefore|exact Hafter].
Defined.

(** ** Creating a conversation *)

Lemma set_mem_In (x : UUID) (s : uuid_set) : set_mem x s = true <-> In x s.
Proof.
  unfold set_mem. rewrite existsb_exists. split.
  - intros (y & Hy & E). apply Nat.eqb_eq in E. now subst.
  - intros H. exists x. split; [exact H|apply Nat.eqb_refl].
Qed.

Lemma found_all (l : list User) (ids : list UUID) :
  NoDup (map u_id l) ->
  List.length (filter (fun u => set_mem (u_id u) ids) l) = List.length ids ->
  NoDup ids /\ incl ids (map u_id l).
Proof.
  intros Hl Hlen.
  pose proof (NoDup_map_filter u_id (fun u => set_mem (u_id u) ids) l Hl)
    as Hfound.
  assert (Hincl : incl (map u_id (filter (fun u => set_mem (u_id u) ids) l))
                    ids).
  { intros x Hx. apply in_map_iff in Hx. destruct Hx as (u & <- & Hu).
    apply filter_In in Hu. now apply set_mem_In. }
  assert (Hle : List.length ids
                <= List.length
                     (map u_id (filter (fun u => set_mem (u_id u) ids) l)))
    by (rewrite length_map; lia).
  split.
  - exact (NoDup_incl_NoDup Hfound Hle Hincl).
  - intros x Hx. pose proof (NoDup_length_incl Hfound Hle Hincl x Hx) as H.
    apply in_map_iff in H. destruct H as (u & <- & Hu).
    apply filter_In in Hu. apply in_map. tauto.
Qed.

(** X25. What [create_conversation] refuses before it writes anything,
    leaving the server as it was: a direct conversation with no or with
    several other participants (400), a direct conversation between two
    users who have one already (400), a group without title or with an
    empty one (400), and a group request that names a user twice or names
    someone who is not a user (404). *)
Theorem create_conversation_validates :
  forall (s : Server) (conversation_data : ConversationCreate)
         (current_user : User),
    let ids := cc_participant_ids conversation_data in
    (cc_type conversation_data = direct ->
     (List.length ids <> 1 ->
      endpoint (create_conversation conversation_data current_user) s
      = (Raise (HTTPException 400
                  "Direct conversation must have exactly 1 other participant"),
         s))
     /\ (forall other c,
           ids = [other] ->
           filter (direct_between (u_id current_user) other (database s))
             (conversations (database s)) = [c] ->
           endpoint (create_conversation conversation_data current_user) s
           = (Raise (HTTPException 400
                       "Direct conversation already exists with this user"),
              s)))
    /\ (cc_type conversation_data = group ->
        (falsy (cc_title conversation_data) = true ->
         endpoint (create_conversation conversation_data current_user) s
         = (Raise (HTTPException 400 "Group conversation must have a title"),
            s))
        /\ (falsy (cc_title conversation_data) = false ->
            NoDup (map u_id (users (database s))) ->
            ~ NoDup ids
            \/ (exists id, In id ids
                           /\ ~ In id (map u_id (users (database s)))) ->
            endpoint (create_conversation conversation_data current_user) s
            = (Raise (HTTPException 404
                        "One or more participants not found"), s))).
Proof.
  intros s conversation_data current_user ids. subst ids. split.
  - intros Hd. split.
    + intros Hlen.
      unfold endpoint, create_conversation, bind. cbn. rewrite Hd.
      destruct (cc_participant_ids conversation_data) as [|a [|b l]];
        cbn in *; try reflexivity. congruence.
    + intros other c Hids Hex.
      unfold endpoint, create_conversation, bind, select_join. cbn.
      rewrite Hd, Hids. cbn. rewrite Hex. reflexivity.
  - intros Hg. split.
    + intros Ht. unfold endpoint, create_conversation, bind. cbn.
      rewrite Hg, Ht. reflexivity.
    + intros Ht Hkeys Hbad.
      assert (Hlen : (List.length
                        (filter (fun u => set_mem (u_id u)
                                            (cc_participant_ids
                                               conversation_data))
                           (users (database s)))
                      =? List.length (cc_participant_ids conversation_data))
                     = false).
      { apply Nat.eqb_neq. intros Hlen.
        destruct (found_all _ _ Hkeys Hlen) as [Hnd Hincl].
        destruct Hbad as [Hdup|(id & Hin & Hnot)]; [now apply Hdup|].
        apply Hnot. now apply Hincl. }
      unfold endpoint, create_conversation, bind, select. cbn.
      rewrite Hg, Ht. cbn. rewrite Hlen. reflexivity.
Qed.

Lemma create_conversation_validates_witness :
  endpoint (create_conversation
              {| cc_type := direct; cc_title := None;
                 cc_participant_ids := [2; 3] |} alice) demo
  = (Raise (HTTPException 400
              "Direct conversation must have exactly 1 other participant"),
     demo)
  /\ endpoint (create_conversation
                 {| cc_type := direct; cc_title := None;
                    cc_participant_ids := [2] |} alice) demo_direct
     = (Raise (HTTPException 400
                 "Direct conversation already exists with this user"),
        demo_direct)
  /\ endpoint (create_conversation
                 {| cc_type := group; cc_title := Some "";
                    cc_participant_ids := [2] |} alice) demo
     = (Raise (HTTPException 400 "Group conversation must have a title"),
        demo)
  /\ endpoint (create_conversation
                 {| cc_type := group; cc_title := Some "pair";
                    cc_participant_ids := [2; 2] |} alice) demo
     = (Raise (HTTPException 404 "One or more participants not found"),
        demo).
Proof.
  repeat apply conj.
  - apply (create_conversation_validates demo
             {| cc_type := direct; cc_title := None;
                cc_participant_ids := [2; 3] |} alice);
      [reflexivity|discriminate].
  - apply (proj2 (proj1 (create_conversation_validates demo_direct
                           {| cc_type := direct; cc_title := None;
                              cc_participant_ids := [2] |} alice)
                    eq_refl)
             2 {| c_id := 12; c_type := direct; c_title := None;
                  c_created_by := 1; c_created_at := 0;
                  c_updated_at := 0 |});
      reflexivity.
  - apply (create_conversation_validates demo
             {| cc_type := group; cc_title := Some "";
                cc_participant_ids := [2] |} alice); reflexivity.
  - apply (create_conversation_validates demo
             {| cc_type := group; cc_title := Some "pair";
                cc_participant_ids := [2; 2] |} alice);
      [reflexivity|reflexivity| |].
    + repeat constructor; cbn; intuition discriminate.
    + left. intros H. inversion H as [|? ? Hnot _]; subst.
      apply Hnot. now left.
Defined.

(** ** Adding several participants *)

Lemma add_each_all_members (conversation_id : UUID) (current_user : User)
    (user_ids : list UUID) :
  forall (added_users : list User) (st : State),
    (forall id, In id user_ids ->
       (exists u, filter (fun u0 => u_id u0 =? id) (users (view st)) = [u])
       /\ (exists f,
             filter (accepted_between (u_id current_user) id)
               (friendships (view st)) = [f])
       /\ (exists p,
             filter (is_participant conversation_id id)
               (conversation_participants (view st)) = [p])) ->
    add_each conversation_id current_user user_ids added_users st
    = (Ok added_users, st).
Proof.
  induction user_ids as [|id rest IH]; intros added_users st Hall;
    [reflexivity|].
  destruct (Hall id (or_introl eq_refl)) as ((u & Hu) & (f & Hf) & (p & Hp)).
  cbn [add_each]. unfold bind, select. cbn.
  rewrite Hu. cbn. rewrite Hf. cbn. rewrite Hp. cbn.
  apply IH. intros id' Hin. apply Hall. now right.
Qed.

(** X26. A batch that names nobody, or only users who are participants
    already, is answered with "Added 0 participant(s) successfully": no
    row is added, no system message is written, nothing is sent. *)
Theorem add_participants_batch_nothing_to_add :
  forall (s : Server) (conversation_id : UUID) (user_ids : list UUID)
         (c : Conversation) (current_user : User),
    filter (fun c0 => c_id c0 =? conversation_id) (conversations (database s))
    = [c] ->
    c_type c = group ->
    c_created_by c = u_id current_user ->
    List.length
      (filter (in_conversation conversation_id)
         (conversation_participants (database s)))
    + List.length user_ids <= 100 ->
    (forall id, In id user_ids ->
       (exists u,
          filter (fun u0 => u_id u0 =? id) (users (database s)) = [u])
       /\ (exists f,
             filter (accepted_between (u_id current_user) id)
               (friendships (database s)) = [f])
       /\ (exists p,
             filter (is_participant conversation_id id)
               (conversation_participants (database s)) = [p])) ->
    endpoint (add_participants_batch conversation_id user_ids current_user) s
    = (Ok ("Added 0 participant(s) successfully", 0), s).
Proof.
  intros s conversation_id user_ids c current_user Hc Hg Hown Hcap Hall.
  assert (Hlt : (100 <? List.length
                          (filter (in_conversation conversation_id)
                             (conversation_participants (database s)))
                        + List.length user_ids) = false)
    by (apply Nat.ltb_ge; exact Hcap).
  destruct s as [db pm mm w bs ck n]. cbn -[Nat.ltb] in Hc, Hlt, Hall |- *.
  unfold endpoint, add_participants_batch, bind, select.
  cbn -[Nat.ltb]. rewrite Hc. cbn -[Nat.ltb].
  rewrite Hg, Hown, Nat.eqb_refl. cbn -[Nat.ltb]. rewrite Hlt.
  rewrite add_each_all_members by exact Hall.
  reflexivity.
Qed.

Lemma add_participants_batch_nothing_to_add_witness :
  endpoint (add_participants_batch 10 [2] alice) demo
  = (Ok ("Added 0 participant(s) successfully", 0), demo)
  /\ endpoint (add_participants_batch 10 [] alice) demo
     = (Ok ("Added 0 participant(s) successfully", 0), demo).
Proof.
  split.
  - apply (@add_participants_batch_nothing_to_add demo 10 [2]
             (mk_group 10 "G" 1) alice eq_refl eq_refl eq_refl).
    + cbn. lia.
    + intros id [<-|[]]. repeat split; eexists; reflexivity.
  - apply (@add_participants_batch_nothing_to_add demo 10 []
             (mk_group 10 "G" 1) alice eq_refl eq_refl eq_refl).
    + cbn. lia.
    + intros id [].
Defined.

Lemma existsb_filter_cons {A} (P : A -> bool) (l : list A) (a : A)
    (rest : list A) :
  filter P l = a :: rest -> existsb P l = true.
Proof.
  intros H. apply existsb_exists. exists a.
  assert (Hin : In a (filter P l)) by (rewrite H; now left).
  apply filter_In in Hin. exact Hin.
Qed.

(** What the loop of a batch leaves in the session: one pending row for
    every id that is not a participant yet, in the order of the request. *)
Lemma add_each_pending (conversation_id : UUID) (current_user : User)
    (user_ids : list UUID) :
  forall (added_users : list User) (st : State) r st',
    add_each conversation_id current_user user_ids added_users st = (r, st') ->
    server st' = server st
    /\ view st' = view st
    /\ exists news,
         unflushed st'
         = unflushed st
           ++ map (add_ConversationParticipant conversation_id) news
         /\ forall added,
              r = Ok added ->
              news
              = filter
                  (fun id =>
                     negb (existsb (is_participant conversation_id id)
                             (conversation_participants (view st))))
                  user_ids
              /\ List.length added
                 = List.length added_users + List.length news.
Proof.
  induction user_ids as [|id rest IH]; intros added_users st r st' H.
  - cbn in H. inversion H; subst. repeat split.
    exists []. cbn. rewrite app_nil_r. split; [reflexivity|].
    intros added E. inversion E; subst. split; [reflexivity|lia].
  - cbn [add_each] in H. unfold bind, select in H. cbn in H.
    assert (Hfail :
              forall e, (Raise e, st) = (r, st') ->
                        server st' = server st
                        /\ view st' = view st
                        /\ exists news,
                             unflushed st'
                             = unflushed st
                               ++ map (add_ConversationParticipant
                                         conversation_id) news
                             /\ forall added,
                                  r = Ok added ->
                                  news
                                  = filter
                                      (fun id0 =>
                                         negb
                                           (existsb
                                              (is_participant
                                                 conversation_id id0)
                                              (conversation_participants
                                                 (view st))))
                                      (id :: rest)
                                  /\ List.length added
                                     = List.length added_users
                                       + List.length news).
    { intros e E. inversion E; subst. repeat split.
      exists []. cbn [map]. rewrite app_nil_r. split; [reflexivity|].
      intros added E'. discriminate. }
    destruct (filter (fun u => u_id u =? id) (users (view st)))
      as [|u [|u' lu]]; cbn in H; try (eapply Hfail; exact H).
    destruct (filter (accepted_between (u_id current_user) id)
                (friendships (view st)))
      as [|f [|f' lf]]; cbn in H; try (eapply Hfail; exact H).
    destruct (filter (is_participant conversation_id id)
                (conversation_participants (view st)))
      as [|p [|p' lp]] eqn:Hp; cbn in H; try (eapply Hfail; exact H).
    + apply IH in H. cbn in H.
      destruct H as (Hs & Hv & news & Hu & Hok).
      split; [exact Hs|]. split; [exact Hv|].
      exists (id :: news). split.
      * rewrite Hu, <- app_assoc. reflexivity.
      * intros added E. destruct (Hok added E) as [Hn Hl].
        cbn [filter]. rewrite (existsb_filter_nil _ _ Hp). cbn [negb].
        split; [now rewrite Hn|].
        rewrite Hl, length_app. cbn. lia.
    + apply IH in H. destruct H as (Hs & Hv & news & Hu & Hok).
      split; [exact Hs|]. split; [exact Hv|].
      exists news. split; [exact Hu|].
      intros added E. destruct (Hok added E) as [Hn Hl].
      cbn [filter]. rewrite (existsb_filter_cons _ _ Hp). cbn [negb].
      split; [exact Hn|exact Hl].
Qed.

(** Two pending rows of one participant, or a pending row of someone who
    is in the table already, make the flush fail. *)
Lemma flush_all_duplicate (conversation_id : UUID) (news : list UUID) :
  forall (now : datetime) (rest : list Pending) (db : Database) (next : UUID),
    ~ NoDup news
    \/ (exists b, In b news
                  /\ existsb (is_participant conversation_id b)
                       (conversation_participants db) = true) ->
    exists e,
      flush_all now
        (map (add_ConversationParticipant conversation_id) news ++ rest)
        db next
      = Raise e.
Proof.
  induction news as [|b news IH]; intros now rest db next Hbad.
  - exfalso. destruct Hbad as [H|(b & [] & _)]. apply H. constructor.
  - cbn [map app flush_all flush_one].
    destruct (filter (is_participant conversation_id b)
                (conversation_participants db)) as [|p lp] eqn:Hp;
      [|eexists; reflexivity].
    destruct (IH now rest
                (with_participants db
                   (conversation_participants db
                    ++ [{| cp_conversation_id := conversation_id;
                           cp_user_id := b; cp_joined_at := now;
                           cp_last_read_message_id := None |}]))
                next) as [e He].
    + destruct (in_dec Nat.eq_dec b news) as [Hin|Hnot].
      * right. exists b. split; [exact Hin|]. cbn.
        rewrite existsb_app. cbn. unfold is_participant at 2. cbn.
        rewrite !Nat.eqb_refl. apply orb_true_r.
      * destruct Hbad as [Hdup|(b' & [<-|Hin] & Hex)].
        -- left. intros Hnd. apply Hdup. now constructor.
        -- rewrite (existsb_filter_nil _ _ Hp) in Hex. discriminate.
        -- right. exists b'. split; [exact Hin|]. cbn.
           rewrite existsb_app, Hex. reflexivity.
    + rewrite He. eexists. reflexivity.
Qed.

(** X27. A batch in which one user who is not a participant yet is named
    twice never goes through: the request ends in an error and the server
    is as before; nobody of the batch is added. *)
Theorem add_participants_batch_duplicate :
  forall (s : Server) (conversation_id : UUID) (user_ids : list UUID)
         (current_user : User),
    ~ NoDup (filter (fun id => negb (member s conversation_id id)) user_ids) ->
    exists e,
      endpoint (add_participants_batch conversation_id user_ids current_user)
        s
      = (Raise e, s).
Proof.
  intros s conversation_id user_ids current_user Hdup.
  destruct s as [db pm mm w bs ck n]. unfold member in Hdup. cbn in Hdup.
  unfold endpoint, add_participants_batch, bind, select.
  cbn -[Nat.ltb String.append str].
  destruct (filter (fun c => c_id c =? conversation_id) (conversations db))
    as [|c [|c' l]]; cbn -[Nat.ltb String.append str];
    try (eexists; reflexivity).
  destruct (type_eqb (c_type c) group); cbn -[Nat.ltb String.append str];
    [|eexists; reflexivity].
  destruct (c_created_by c =? u_id current_user);
    cbn -[Nat.ltb String.append str]; [|eexists; reflexivity].
  destruct (100 <? _); [eexists; reflexivity|].
  destruct (add_each conversation_id current_user user_ids []
              {| server :=
                   {| database := db; pkg_manager := pm; mod_manager := mm;
                      wire := w; broken_sockets := bs; clock := ck;
                      next_uuid := n |};
                 view := db; unflushed := [] |})
    as [[added|e] [sv vw uf]] eqn:Hrun;
    apply add_each_pending in Hrun; cbn in Hrun;
    destruct Hrun as (-> & -> & news & -> & Hok).
  - destruct (Hok added eq_refl) as [Hnews Hlen]. clear Hok.
    assert (Hbad : ~ NoDup news) by now rewrite Hnews.
    destruct added as [|a added].
    + exfalso. apply Hbad. cbn in Hlen.
      destruct news; [constructor|discriminate].
    + cbn -[Nat.ltb String.append str added_message_content].
      unfold flush. cbn -[Nat.ltb String.append str added_message_content].
      destruct (@flush_all_duplicate conversation_id news ck
                  [add_Message conversation_id None
                     (added_message_content (u_display_name current_user)
                        (u_display_name a :: map u_display_name added))
                     None (Some "system") None]
                  db n (or_introl Hbad)) as [e He].
      rewrite He. eexists. reflexivity.
  - eexists. reflexivity.
Qed.

Lemma add_participants_batch_duplicate_witness :
  exists e,
    endpoint (add_participants_batch 13 [2; 2] alice) demo_solo
    = (Raise e, demo_solo).
Proof.
  apply (@add_participants_batch_duplicate demo_solo 13 [2; 2] alice).
  intros H. inversion H as [|? ? Hnot _]; subst. apply Hnot. now left.
Defined.

Lemma found_everyone (l : list User) (ids : list UUID) :
  NoDup (map u_id l) -> NoDup ids -> incl ids (map u_id l) ->
  List.length (filter (fun u => set_mem (u_id u) ids) l) = List.length ids.
Proof.
  intros Hl Hids Hincl.
  pose proof (NoDup_map_filter u_id (fun u => set_mem (u_id u) ids) l Hl)
    as Hfound.
  rewrite <- (length_map u_id). apply Nat.le_antisymm.
  - apply NoDup_incl_length; [exact Hfound|].
    intros x Hx. apply in_map_iff in Hx. destruct Hx as (u & <- & Hu).
    apply filter_In in Hu. now apply set_mem_In.
  - apply NoDup_incl_length; [exact Hids|].
    intros x Hx. pose proof (Hincl x Hx) as Hin.
    apply in_map_iff in Hin. destruct Hin as (u & <- & Hu).
    apply in_map. apply filter_In. split; [exact Hu|].
    now apply set_mem_In.
Qed.

Lemma for_each_db_add (conversation_id : UUID) (ids : list UUID) :
  forall st,
    for_each ids
      (fun participant_id =>
         db_add (add_ConversationParticipant conversation_id participant_id))
      st
    = (Ok tt,
       {| server := server st; view := view st;
          unflushed :=
            unflushed st
            ++ map (add_ConversationParticipant conversation_id) ids |}).
Proof.
  induction ids as [|id ids IH]; intros st.
  - cbn. rewrite app_nil_r. now destruct st.
  - cbn [for_each map]. unfold bind, db_add at 1. rewrite IH. cbn.
    now rewrite <- app_assoc.
Qed.

(** X28. The creator is added to a new conversation by the handler; a
    group request that is valid otherwise but lists the creator among the
    participants ends in an error: no conversation and no participant is
    stored, and nothing is sent. *)
Theorem create_conversation_lists_creator :
  forall (s : Server) (conversation_data : ConversationCreate)
         (current_user : User),
    let ids := cc_participant_ids conversation_data in
    cc_type conversation_data = group ->
    falsy (cc_title conversation_data) = false ->
    NoDup (map u_id (users (database s))) ->
    NoDup ids ->
    incl ids (map u_id (users (database s))) ->
    In (u_id current_user) ids ->
    let s' := after (create_conversation conversation_data current_user) s in
    (exists e,
       fst (endpoint (create_conversation conversation_data current_user) s)
       = Raise e)
    /\ database s' = database s
    /\ wire s' = wire s
    /\ pkg_manager s' = pkg_manager s
    /\ mod_manager s' = mod_manager s.
Proof.
  intros s conversation_data current_user ids Hg Ht Hkeys Hids Hincl Hme s'.
  subst s' ids.
  pose proof (found_everyone _ Hkeys Hids Hincl) as Hlen.
  apply Nat.eqb_eq in Hlen.
  destruct s as [db pm mm w bs ck n]. cbn in Hlen, Hkeys, Hincl |- *.
  unfold after, endpoint, create_conversation, bind, select. cbn.
  rewrite Hg, Ht. cbn. rewrite Hlen. cbn.
  rewrite for_each_db_add. cbn. unfold commit, flush, bind.
  cbn -[flush_all].
  destruct (@flush_all_duplicate n
              (u_id current_user :: cc_participant_ids conversation_data)
              ck []
              (with_conversations db
                 (conversations db
                  ++ [{| c_id := n; c_type := cc_type conversation_data;
                         c_title := cc_title conversation_data;
                         c_created_by := u_id current_user;
                         c_created_at := ck; c_updated_at := ck |}]))
              (S n)) as [e He].
  { left. intros Hnd. inversion Hnd; subst. contradiction. }
  rewrite app_nil_r in He. cbn [map] in He. rewrite Hg in He.
  rewrite He. cbn. repeat apply conj; try reflexivity.
  eexists. reflexivity.
Qed.

Lemma create_conversation_lists_creator_witness :
  let request := {| cc_type := group; cc_title := Some "us";
                    cc_participant_ids := [1; 2] |} in
  (exists e, fst (endpoint (create_conversation request alice) demo)
             = Raise e)
  /\ database (after (create_conversation request alice) demo)
     = database demo.
Proof.
  cbn zeta.
  destruct (@create_conversation_lists_creator demo
              {| cc_type := group; cc_title := Some "us";
                 cc_participant_ids := [1; 2] |} alice eq_refl eq_refl)
    as (He & Hdb & _).
  - repeat constructor; cbn; intuition discriminate.
  - repeat constructor; cbn; intuition discriminate.
  - intros x [<-|[<-|[]]]; cbn; auto.
  - now left.
  - split; [exact He|exact Hdb].
Defined.

(** ** A friend request, answered *)

Lemma filter_map_same_rows {A} (P : A -> bool) (g : A -> A) (l : list A) :
  (forall a, In a l -> P (g a) = P a) ->
  filter P (map g l) = map g (filter P l).
Proof.
  induction l as [|a l IH]; intros H; cbn; [reflexivity|].
  rewrite (H a) by now left.
  destruct (P a); cbn; rewrite IH; auto; intros b Hb; apply H; now right.
Qed.

(** X29. Once the recipient of a pending friend request has answered it,
    both users read the same friendship status about each other: the
    status of the answer, the id of the row, and the sender as initiator.
    They are friends exactly when the answer was to accept. *)
Theorem respond_then_status :
  forall (s : Server) (action : FriendAction) (f : Friendship)
         (sender recipient : User),
    filter (fun f0 => f_id f0 =? f_id f) (friendships (database s)) = [f] ->
    filter (between (u_id recipient) (u_id sender))
      (friendships (database s)) = [f] ->
    f_user_id f = u_id sender ->
    f_friend_id f = u_id recipient ->
    f_status f = pending ->
    u_id sender <> u_id recipient ->
    let s' := after (respond_to_friend_request (f_id f) action recipient) s in
    let answer :=
      {| fs_are_friends := match action with accept => true | _ => false end;
         fs_status := Some match action with
                           | accept => accepted
                           | reject => rejected
                           | block => blocked
                           end;
         fs_friendship_id := Some (f_id f);
         fs_initiated_by := Some (u_id sender) |} in
    endpoint (check_friendship_status (u_id sender) recipient) s'
    = (Ok answer, s')
    /\ endpoint (check_friendship_status (u_id recipient) sender) s'
       = (Ok answer, s').
Proof.
  intros s action f sender recipient Hf Hbetween Hfrom Hto Hst Hne s' answer.
  set (f' := {| f_id := f_id f; f_user_id := f_user_id f;
                f_friend_id := f_friend_id f;
                f_status := match action with
                            | accept => accepted
                            | reject => rejected
                            | block => blocked
                            end;
                f_created_at := f_created_at f;
                f_updated_at := clock s |}).
  assert (Hpair :
            filter (fun f0 => negb (f_id f0 =? f_id f)
                              && (f_user_id f0 =? f_user_id f)
                              && (f_friend_id f0 =? f_friend_id f))
              (friendships (database s)) = []).
  { apply filter_all_false. intros x Hx.
    destruct (f_user_id x =? f_user_id f) eqn:Ea,
             (f_friend_id x =? f_friend_id f) eqn:Eb;
      rewrite ?andb_false_r; try reflexivity.
    assert (x = f) as ->.
    { eapply filter_one_only; [exact Hbetween|exact Hx|].
      unfold between. rewrite <- Hfrom, <- Hto, Ea, Eb. cbn.
      apply orb_true_r. }
    now rewrite Nat.eqb_refl. }
  assert (Hself : (f_user_id f =? f_friend_id f) = false)
    by (apply Nat.eqb_neq; congruence).
  assert (Hrun :
            s' = with_database
                   (with_friendships (database s)
                      (map (fun f0 => if f_id f0 =? f_id f then f' else f0)
                         (friendships (database s))))
                   s).
  { subst s' f'. destruct s as [db pm mm w bs ck n].
    cbn in Hf, Hpair |- *.
    unfold after, endpoint, respond_to_friend_request, bind, select, refresh,
      bind, select.
    cbn. rewrite Hf. cbn. rewrite Hto, Nat.eqb_refl. cbn.
    rewrite Hst. cbn.
    destruct action; cbn; unfold commit, flush, bind; cbn;
      rewrite <- Hto, Hself, Hpair; cbn;
      (rewrite (filter_replace (fun f0 => f_id f0 =? f_id f) _ _ (m:=f));
       [reflexivity | cbn; apply Nat.eqb_refl | exact Hf]). }
  assert (Hrow :
            filter (between (u_id recipient) (u_id sender))
              (map (fun f0 => if f_id f0 =? f_id f then f' else f0)
                 (friendships (database s))) = [f']).
  { rewrite filter_map_same_rows.
    - rewrite Hbetween. cbn. now rewrite Nat.eqb_refl.
    - intros x Hx. destruct (f_id x =? f_id f) eqn:E; [|reflexivity].
      assert (x = f) as ->
          by (eapply filter_one_only; [exact Hf|exact Hx|exact E]).
      reflexivity. }
  assert (Hcheck :
            endpoint (check_friendship_status (u_id sender) recipient) s'
            = (Ok answer, s')).
  { rewrite Hrun. destruct s as [db pm mm w bs ck n]. cbn in Hrow |- *.
    unfold endpoint, check_friendship_status, bind, select. cbn.
    rewrite Hrow. subst answer f'. cbn. rewrite Hfrom.
    destruct action; reflexivity. }
  split; [exact Hcheck|].
  rewrite <- Hcheck at 1.
  rewrite Hrun. destruct s as [db pm mm w bs ck n]. cbn in Hrow |- *.
  unfold endpoint, check_friendship_status, bind, select. cbn.
  rewrite (filter_ext (between (u_id sender) (u_id recipient))
             (between (u_id recipient) (u_id sender)))
    by (intros x; apply between_sym).
  reflexivity.
Qed.

Lemma respond_then_status_witness :
  let s' := after (respond_to_friend_request 32 accept carol) demo in
  endpoint (check_friendship_status 2 carol) s'
  = (Ok {| fs_are_friends := true; fs_status := Some accepted;
           fs_friendship_id := Some 32; fs_initiated_by := Some 2 |}, s')
  /\ endpoint (check_friendship_status 3 bob) s'
     = (Ok {| fs_are_friends := true; fs_status := Some accepted;
              fs_friendship_id := Some 32; fs_initiated_by := Some 2 |}, s').
Proof.
  exact (@respond_then_status demo accept (mk_friendship 32 2 3 pending)
           bob carol eq_refl eq_refl eq_refl eq_refl eq_refl
           ltac:(discriminate)).
Defined.

(** ** A reaction, read back *)

Lemma emoji_get_In (k : string) (v : EmojiData)
    (d : list (string * EmojiData)) :
  emoji_get k d = Some v -> In (k, v) d.
Proof.
  induction d as [|[k0 v0] d IH]; cbn; [discriminate|].
  destruct (String.eqb k k0) eqn:E.
  - apply String.eqb_eq in E. intros H. inversion H; subst. now left.
  - intros H. right. now apply IH.
Qed.

Lemma filter_pairs {A B} (P : A -> bool) (g : A -> B) (l : list A) :
  filter (fun row => P (fst row)) (map (fun a => (a, g a)) l)
  = map (fun a => (a, g a)) (filter P l).
Proof.
  induction l as [|a l IH]; cbn; [reflexivity|].
  destruct (P a); cbn; now rewrite IH.
Qed.

Lemma filter_filter {A} (P Q : A -> bool) (l : list A) :
  filter P (filter Q l) = filter (fun a => Q a && P a) l.
Proof.
  induction l as [|a l IH]; cbn; [reflexivity|].
  destruct (Q a); cbn; [destruct (P a)|]; now rewrite IH.
Qed.

(** X30. A participant who adds a reaction that was not stored and then
    reads the reactions of the message finds it: the total is one more
    than the number of reactions the message had, and the entry of the
    emoji counts one more than the rows the emoji had and is marked
    [reacted_by_me]. *)
Theorem add_reaction_then_read :
  forall (s : Server) (message_id : UUID) (m : Message) (emoji : string)
         (current_user : User) (p : ConversationParticipant),
    filter (fun m0 => m_id m0 =? message_id) (messages (database s)) = [m] ->
    filter (is_participant (m_conversation_id m) (u_id current_user))
      (conversation_participants (database s)) = [p] ->
    filter (same_reaction message_id (u_id current_user) emoji)
      (message_reactions (database s)) = [] ->
    let s' := after (add_reaction message_id emoji current_user) s in
    exists resp entry,
      endpoint (get_message_reactions message_id current_user) s'
      = (Ok resp, s')
      /\ mwr_total_reactions resp
         = S (List.length
                (filter (fun r => mr_message_id r =? message_id)
                   (message_reactions (database s))))
      /\ In entry (mwr_reactions resp)
      /\ rs_emoji entry = emoji
      /\ rs_count entry
         = S (List.length
                (filter (fun r => (mr_message_id r =? message_id)
                                  && String.eqb (mr_emoji r) emoji)
                   (message_reactions (database s))))
      /\ rs_reacted_by_me entry = true.
Proof.
  intros s message_id m emoji current_user p Hm Hp Hnone s'.
  set (r := {| mr_id := next_uuid s; mr_message_id := message_id;
               mr_user_id := u_id current_user; mr_emoji := emoji;
               mr_created_at := clock s |}).
  assert (Hdb : database s'
                = with_reactions (database s)
                    (message_reactions (database s) ++ [r])).
  { subst s' r. destruct s as [db pm mm w bs ck n]. cbn in Hm, Hp, Hnone |- *.
    unfold after, endpoint, add_reaction, bind, select. cbn.
    rewrite Hm. cbn. rewrite Hp. cbn. rewrite Hnone. reflexivity. }
  clearbody s'.
  set (load := fun (users0 : list User) (r0 : MessageReaction) =>
                 hd_error (filter (fun u => eq_opt (u_id u)
                                              (Some (mr_user_id r0)))
                             users0)).
  set (loaded := map (fun r0 => (r0, load (users (database s)) r0))
                   (filter (fun r0 => mr_message_id r0 =? message_id)
                      (message_reactions (database s) ++ [r]))).
  assert (Hmine :
            filter (fun row => String.eqb (mr_emoji (fst row)) emoji) loaded
            = map (fun r0 => (r0, load (users (database s)) r0))
                (filter (fun r0 => (mr_message_id r0 =? message_id)
                                   && String.eqb (mr_emoji r0) emoji)
                   (message_reactions (database s)))
              ++ [(r, load (users (database s)) r)]).
  { subst loaded.
    rewrite (filter_pairs (fun r0 => String.eqb (mr_emoji r0) emoji)
               (load (users (database s)))).
    rewrite filter_filter, filter_app, map_app. cbn.
    rewrite Nat.eqb_refl, String.eqb_refl. reflexivity. }
  pose proof (aggregate_get (u_id current_user) emoji loaded) as Hget.
  cbn zeta in Hget. rewrite Hmine in Hget.
  destruct (map _ _ ++ [(r, load (users (database s)) r)])
    as [|row0 mine] eqn:Hrows.
  { apply app_eq_nil in Hrows. destruct Hrows; discriminate. }
  rewrite <- Hrows in Hget, Hmine. clear row0 mine Hrows.
  apply emoji_get_In in Hget.
  eexists. eexists. split.
  - destruct s' as [db' pm' mm' w' bs' ck' n']. cbn in Hdb. subst db'.
    unfold endpoint, get_message_reactions, bind, select. cbn.
    rewrite Hm. cbn. rewrite Hp. cbn.
    rewrite (map_M_pure _
               (fun st r0 =>
                  (r0, hd_error
                         (filter (fun u => eq_opt (u_id u)
                                             (Some (mr_user_id r0)))
                            (users (view st))))))
      by reflexivity.
    cbn. reflexivity.
  - cbn [mwr_total_reactions mwr_reactions]. split; [|split].
    + rewrite filter_app, length_app. cbn. rewrite Nat.eqb_refl. cbn. lia.
    + unfold reaction_summaries. apply in_map_iff.
      eexists. split; [reflexivity|]. exact Hget.
    + cbn [rs_emoji rs_count rs_reacted_by_me fst snd ed_count
             ed_reacted_by_me].
      repeat apply conj.
      * reflexivity.
      * rewrite length_app, length_map. cbn. lia.
      * rewrite existsb_app. cbn. rewrite Nat.eqb_refl. cbn.
        apply orb_true_r.
Qed.

Lemma add_reaction_then_read_witness :
  let s' := after (add_reaction 20 "heart" bob) demo in
  exists resp entry,
    endpoint (get_message_reactions 20 bob) s' = (Ok resp, s')
    /\ mwr_total_reactions resp = 2
    /\ In entry (mwr_reactions resp)
    /\ rs_emoji entry = "heart"
    /\ rs_count entry = 1
    /\ rs_reacted_by_me entry = true.
Proof.
  exact (@add_reaction_then_read demo 20
           (hd (mk_message 0 0 None "") (messages demo_db)) "heart" bob
           (mk_participant 10 2) eq_refl eq_refl eq_refl).
Defined.
